(** * Listing handlers of the ethscriptions / collections API

    A shallow embedding of the three listing handlers ([GET] of the
    ethscriptions route in its two variants and [GET] of the collections
    route) together with the part of the query builder and of the SQL store
    they rely on, followed by the properties of filtering, pagination and
    field projection.

    Numbers are modelled as [Z] (the columns are SQLite integers), strings as
    [string], JavaScript objects as association lists in enumeration order. *)

From Stdlib Require Import ZArith List String Ascii Bool Lia.
From Stdlib Require Import Permutation Sorted DecimalString DecimalZ.
Import ListNotations.
Set Warnings "-register-all".
Local Open Scope string_scope.
Local Open Scope Z_scope.

(** ** JavaScript strings *)

(** [s.includes(c)] for a one-character needle. *)
Fixpoint includes (c : ascii) (s : string) : bool :=
  match s with
  | EmptyString => false
  | String a s' => Ascii.eqb a c || includes c s'
  end.

(** [s.replace(/c/g, d)] and [s.replaceAll(c, d)] for single characters. *)
Fixpoint replaceAll (c d : ascii) (s : string) : string :=
  match s with
  | EmptyString => EmptyString
  | String a s' => String (if Ascii.eqb a c then d else a) (replaceAll c d s')
  end.

Definition lower_ascii (a : ascii) : ascii :=
  let n := nat_of_ascii a in
  if (65 <=? n)%nat && (n <=? 90)%nat then ascii_of_nat (n + 32) else a.

(** [s.toLowerCase()] on ASCII text. *)
Fixpoint toLowerCase (s : string) : string :=
  match s with
  | EmptyString => EmptyString
  | String a s' => String (lower_ascii a) (toLowerCase s')
  end.

(** [s.split(c)] for a one-character separator. *)
Fixpoint split (c : ascii) (s : string) : list string :=
  match s with
  | EmptyString => [EmptyString]
  | String a s' =>
      if Ascii.eqb a c then EmptyString :: split c s'
      else match split c s' with
           | [] => [String a EmptyString]
           | w :: ws => String a w :: ws
           end
  end.

(** Truthiness of a string: the empty string is falsy. *)
Definition truthy_str (s : string) : bool := negb (String.eqb s "").

(** [xs.filter(Boolean)] on a list of strings. *)
Definition filter_Boolean (xs : list string) : list string :=
  filter truthy_str xs.

(** Rendering of an integer inside a template literal. *)
Definition show_Z (z : Z) : string := NilEmpty.string_of_int (Z.to_int z).

(** [Number(s)] on integer literals: the empty string is 0, a decimal
    literal with an optional leading minus is its value, and every other
    string is treated as [NaN] ([None]).  Fractions, exponents,
    hexadecimal literals, a leading plus and surrounding blanks, which
    [Number] reads as well, are outside this model. *)
Definition Number_ (s : string) : option Z :=
  if String.eqb s "-" then None
  else option_map Z.of_int (NilEmpty.int_of_string s).

(** ** Values, rows and objects *)

Inductive json : Type :=
| JNull
| JBool (b : bool)
| JNum (z : Z)
| JStr (s : string)
| JArr (items : list json)
| JObj (fields : list (string * json)).

(** A result row, as the select shape lays it out. *)
Definition row : Type := list (string * json).

Fixpoint lookup {A : Type} (k : string) (l : list (string * A)) : option A :=
  match l with
  | [] => None
  | (k', v) :: l' => if String.eqb k k' then Some v else lookup k l'
  end.

(** [`${v}`] for a possibly missing scalar. *)
Definition template (v : option json) : string :=
  match v with
  | None => "undefined"
  | Some JNull => "null"
  | Some (JBool true) => "true"
  | Some (JBool false) => "false"
  | Some (JNum z) => show_Z z
  | Some (JStr s) => s
  | Some (JArr _) => ""
  | Some (JObj _) => "[object Object]"
  end.

(** Errors thrown while a handler runs. *)
Inductive result (A : Type) : Type :=
| Ok (a : A)
| Throw (e : string).
Arguments Ok {A} a.
Arguments Throw {A} e.

Definition bind {A B : Type} (m : result A) (f : A -> result B) : result B :=
  match m with
  | Ok a => f a
  | Throw e => Throw e
  end.

Notation "x <- m ;; k" := (bind m (fun x => k))
  (at level 61, m at next level, right associativity).

(** ** The store: SQLite values and comparison *)

Inductive sqlval : Type :=
| SNull
| SInt (z : Z)
| SText (s : string).

(** Binding of a JavaScript value as a column value or statement
    parameter.  Booleans are stored as 0/1; arrays and objects have no
    scalar binding and behave as NULL in a comparison. *)
Definition to_sql (v : json) : sqlval :=
  match v with
  | JNull => SNull
  | JBool b => SInt (if b then 1 else 0)
  | JNum z => SInt z
  | JStr s => SText s
  | JArr _ => SNull
  | JObj _ => SNull
  end.

(** Text that SQLite converts to an integer under numeric affinity: the
    decimal integer literals.  The store also converts literals with a
    plus sign, a fraction, an exponent or blanks around them; the model
    reads those as text, and the properties that depend on the conversion
    take a text on which the two agree. *)
Definition integer_literal (s : string) : option Z :=
  if String.eqb s "" then None else Number_ s.

(** Comparison of a column value with a parameter.  [None] is SQL's
    unknown.  A text parameter against an integer column takes numeric
    affinity when it is an integer literal; integers sort before text. *)
Definition sql_compare (colv param : sqlval) : option comparison :=
  match colv, param with
  | SNull, _ => None
  | _, SNull => None
  | SInt a, SInt b => Some (a ?= b)
  | SText a, SText b => Some (String.compare a b)
  | SInt a, SText s =>
      match integer_literal s with
      | Some b => Some (a ?= b)
      | None => Some Lt
      end
  | SText a, SInt b => Some (String.compare a (show_Z b))
  end.

(** SQLite's LIKE: [%] any run of characters, [_] any one character,
    letters compared without case. *)
Fixpoint like_match (p s : string) : bool :=
  match p with
  | EmptyString => match s with EmptyString => true | _ => false end
  | String c p' =>
      if Ascii.eqb c "%" then
        (fix star (t : string) : bool :=
           like_match p' t ||
           match t with
           | EmptyString => false
           | String _ t' => star t'
           end) s
      else
        match s with
        | EmptyString => false
        | String d s' =>
            (Ascii.eqb c "_" || Ascii.eqb (lower_ascii c) (lower_ascii d))
            && like_match p' s'
        end
  end.

Definition sql_text (v : sqlval) : option string :=
  match v with
  | SNull => None
  | SInt z => Some (show_Z z)
  | SText s => Some s
  end.

(** ** Conditions built with drizzle's operators *)

Inductive binop : Type :=
| OpEq | OpNe | OpGt | OpGte | OpLt | OpLte | OpLike | OpNotLike.

(** The SQL fragments the handlers build: a binary operator applied to a
    column and a parameter, the two raw null tests, the raw row-value
    comparison of the cursor, and a conjunction. *)
Inductive cond : Type :=
| Bin (op : binop) (col : string) (param : json)
| IsNull (col : string)
| IsNotNull (col : string)
| RowGt (c1 c2 : string) (v1 v2 : option Z)
| RowLt (c1 c2 : string) (v1 v2 : option Z)
| And (cs : list cond).

Module orm.

Definition eq (col : string) (v : json) : cond := Bin OpEq col v.
Definition ne (col : string) (v : json) : cond := Bin OpNe col v.
Definition gt (col : string) (v : json) : cond := Bin OpGt col v.
Definition gte (col : string) (v : json) : cond := Bin OpGte col v.
Definition lt (col : string) (v : json) : cond := Bin OpLt col v.
Definition lte (col : string) (v : json) : cond := Bin OpLte col v.
Definition like (col : string) (v : json) : cond := Bin OpLike col v.
Definition notLike (col : string) (v : json) : cond := Bin OpNotLike col v.

(** [and(...conditions)]: undefined for an empty list. *)
Definition and (cs : list cond) : option cond :=
  match cs with
  | [] => None
  | _ => Some (And cs)
  end.

(** [orm[op]]: the lookup of an operator by its name in the library's
    namespace.  The eight binary column operators are modelled.  The
    namespace has other exports, some of them callable with a column and
    a value; those are outside the model, which answers for every other
    name as for a name that is no function: the call throws. *)
Definition get (op : string) : option (string -> json -> cond) :=
  if String.eqb op "eq" then Some eq
  else if String.eqb op "ne" then Some ne
  else if String.eqb op "gt" then Some gt
  else if String.eqb op "gte" then Some gte
  else if String.eqb op "lt" then Some lt
  else if String.eqb op "lte" then Some lte
  else if String.eqb op "like" then Some like
  else if String.eqb op "notLike" then Some notLike
  else None.

End orm.

Definition column (r : row) (c : string) : sqlval :=
  match lookup c r with
  | Some v => to_sql v
  | None => SNull
  end.

Definition test_binop (op : binop) (colv param : sqlval) : bool :=
  match op with
  | OpEq => match sql_compare colv param with Some Eq => true | _ => false end
  | OpNe => match sql_compare colv param with
            | Some Eq => false | Some _ => true | None => false end
  | OpGt => match sql_compare colv param with Some Gt => true | _ => false end
  | OpGte => match sql_compare colv param with
             | Some Lt => false | Some _ => true | None => false end
  | OpLt => match sql_compare colv param with Some Lt => true | _ => false end
  | OpLte => match sql_compare colv param with
             | Some Gt => false | Some _ => true | None => false end
  | OpLike => match sql_text colv, sql_text param with
              | Some s, Some p => like_match p s
              | _, _ => false
              end
  | OpNotLike => match sql_text colv, sql_text param with
                 | Some s, Some p => negb (like_match p s)
                 | _, _ => false
                 end
  end.

Definition opt_sql (v : option Z) : sqlval :=
  match v with
  | Some z => SInt z
  | None => SNull
  end.

(** [(a, b) > (x, y)] on row values: the first components decide unless
    they are equal; an unknown comparison that is reached makes the whole
    test unknown. *)
Definition row_gt (a b x y : sqlval) : bool :=
  match sql_compare a x with
  | Some Gt => true
  | Some Eq => match sql_compare b y with Some Gt => true | _ => false end
  | _ => false
  end.

Definition row_lt (a b x y : sqlval) : bool :=
  match sql_compare a x with
  | Some Lt => true
  | Some Eq => match sql_compare b y with Some Lt => true | _ => false end
  | _ => false
  end.

(** A row passes a WHERE clause when the condition is true; unknown is
    collapsed to false, which is exact for conjunctions. *)
Fixpoint holds (r : row) (c : cond) : bool :=
  match c with
  | Bin op col v => test_binop op (column r col) (to_sql v)
  | IsNull col => match column r col with SNull => true | _ => false end
  | IsNotNull col => match column r col with SNull => false | _ => true end
  | RowGt c1 c2 v1 v2 =>
      row_gt (column r c1) (column r c2) (opt_sql v1) (opt_sql v2)
  | RowLt c1 c2 v1 v2 =>
      row_lt (column r c1) (column r c2) (opt_sql v1) (opt_sql v2)
  | And cs => forallb (holds r) cs
  end.

(** ** The query builder and its execution *)

Inductive direction : Type := Asc | Desc.

Record Query : Type := mkQuery {
  q_joins : list string;
  q_where : option cond;
  q_orderBy : list (direction * string);
  q_limit : option Z;
  q_offset : option Z
}.

(** [db.select(shape).from(table)] followed by the left joins of the
    expanded relations. *)
Definition select_from (joins : list string) : Query :=
  mkQuery joins None [] None None.

(** [query.where(c)]: the builder keeps one WHERE slot, and each call
    overwrites it. *)
Definition where_ (q : Query) (c : option cond) : Query :=
  mkQuery (q_joins q) c (q_orderBy q) (q_limit q) (q_offset q).

Definition orderBy (q : Query) (o : list (direction * string)) : Query :=
  mkQuery (q_joins q) (q_where q) o (q_limit q) (q_offset q).

Definition limit (q : Query) (n : Z) : Query :=
  mkQuery (q_joins q) (q_where q) (q_orderBy q) (Some n) (q_offset q).

Definition offset (q : Query) (n : Z) : Query :=
  mkQuery (q_joins q) (q_where q) (q_orderBy q) (q_limit q) (Some n).

(** The store: for a list of joined relations, the rows of the primary
    table joined with them, already laid out in the select shape, in the
    store's scan order. *)
Definition Db : Type := list string -> list row.

(** Order of two values under ORDER BY: NULL first, then integers, then
    text. *)
Definition order_compare (a b : sqlval) : comparison :=
  match a, b with
  | SNull, SNull => Eq
  | SNull, _ => Lt
  | _, SNull => Gt
  | SInt x, SInt y => x ?= y
  | SInt _, SText _ => Lt
  | SText _, SInt _ => Gt
  | SText x, SText y => String.compare x y
  end.

Fixpoint row_compare (o : list (direction * string)) (r1 r2 : row)
  : comparison :=
  match o with
  | [] => Eq
  | (d, c) :: o' =>
      match order_compare (column r1 c) (column r2 c) with
      | Eq => row_compare o' r1 r2
      | Lt => match d with Asc => Lt | Desc => Gt end
      | Gt => match d with Asc => Gt | Desc => Lt end
      end
  end.

Definition row_leb (o : list (direction * string)) (r1 r2 : row) : bool :=
  match row_compare o r1 r2 with
  | Gt => false
  | _ => true
  end.

Fixpoint insert_row (o : list (direction * string)) (r : row)
  (l : list row) : list row :=
  match l with
  | [] => [r]
  | x :: l' => if row_leb o r x then r :: l else x :: insert_row o r l'
  end.

(** ORDER BY as a stable sort of the scan order. *)
Fixpoint sort_rows (o : list (direction * string)) (l : list row)
  : list row :=
  match l with
  | [] => []
  | r :: l' => insert_row o r (sort_rows o l')
  end.

Definition passes (w : option cond) (r : row) : bool :=
  match w with
  | Some c => holds r c
  | None => true
  end.

(** LIMIT: a negative limit is no limit. *)
Definition take_limit (n : option Z) (l : list row) : list row :=
  match n with
  | Some k => if k <? 0 then l else firstn (Z.to_nat k) l
  | None => l
  end.

(** OFFSET: a negative offset is 0. *)
Definition drop_offset (n : option Z) (l : list row) : list row :=
  match n with
  | Some k => skipn (Z.to_nat k) l
  | None => l
  end.

(** A result object of a select whose shape holds
    the window count of all filtered rows under [total]: that count
    and the rest of the properties. *)
Record counted : Type := mkCounted {
  total : Z;
  item : row
}.

(** Rows that pass the WHERE clause of a query. *)
Definition matching (db : Db) (q : Query) : list row :=
  filter (passes (q_where q)) (db (q_joins q)).

(** Execution of a select: filter, count over the whole filtered set,
    sort, then cut the page. *)
Definition run (db : Db) (q : Query) : list counted :=
  let m := matching db q in
  let n := Z.of_nat (List.length m) in
  map (mkCounted n)
      (take_limit (q_limit q) (drop_offset (q_offset q)
         (sort_rows (q_orderBy q) m))).

(** ** Field projection: [processObject] *)

(** Characters that the translation of a pattern leaves to the
    regular-expression engine with a meaning of their own. *)
Definition regex_meta (a : ascii) : bool :=
  existsb (Ascii.eqb a)
    ["\"; "^"; "$"; "+"; "?"; "("; ")"; "["; "]"; "{"; "}"; "|"]%char.

Definition line_terminator (a : ascii) : bool :=
  Ascii.eqb a "010"%char || Ascii.eqb a "013"%char.

(** [new RegExp(`^${regexPattern}$`).test(s)] where [regexPattern] is the
    pattern with every dot escaped and every star turned into [.*]: a
    star matches any run of characters without a line terminator, every
    other character matches itself. *)
Fixpoint glob_match (p s : string) : bool :=
  match p with
  | EmptyString => match s with EmptyString => true | _ => false end
  | String c p' =>
      if Ascii.eqb c "*" then
        (fix star (t : string) : bool :=
           glob_match p' t ||
           match t with
           | EmptyString => false
           | String d t' => if line_terminator d then false else star t'
           end) s
      else
        match s with
        | EmptyString => false
        | String d s' => Ascii.eqb c d && glob_match p' s'
        end
  end.

(** A pattern free of further metacharacters. *)
Definition glob_pattern (p : string) : bool :=
  negb (existsb regex_meta (list_ascii_of_string p)).

(** The regular-expression test of a starred pattern.  Only dots and
    stars are rewritten by the source, so a pattern with another
    metacharacter reaches the engine unescaped: the engine throws when
    the expression is invalid and matches with its own semantics
    otherwise.  The model reports every such pattern as an exception,
    which is what the source does for an invalid expression, and the
    properties of the projection take starred patterns without further
    metacharacter. *)
Definition RegExp_test (pattern fullPath : string) : result bool :=
  if glob_pattern pattern then Ok (glob_match pattern fullPath)
  else Throw "RegExp".

(** The callback of [exclude.some]. *)
Definition excludes (fullPath pattern : string) : result bool :=
  if includes "*" pattern then RegExp_test pattern fullPath
  else Ok (String.eqb fullPath pattern
           || String.eqb pattern (fullPath ++ ".*")).

(** The callback of [include.some]. *)
Definition includes_path (fullPath pattern : string) : result bool :=
  if includes "*" pattern then RegExp_test pattern fullPath
  else Ok (String.eqb fullPath pattern).

(** [patterns.some(f)]: stops at the first pattern that answers true. *)
Fixpoint some (f : string -> result bool) (patterns : list string)
  : result bool :=
  match patterns with
  | [] => Ok false
  | p :: ps => b <- f p ;; if b then Ok true else some f ps
  end.

(** The decision for one field, [shouldInclude] at the end of the
    callback of [forEach]. *)
Definition shouldInclude (exclude include : option (list string))
  (fullPath : string) : result bool :=
  afterExclude <-
    match exclude with
    | Some patterns =>
        isExcluded <- some (excludes fullPath) patterns ;;
        Ok (negb isExcluded)
    | None => Ok true
    end ;;
  match include with
  | Some patterns =>
      isIncluded <- some (includes_path fullPath) patterns ;;
      Ok (if isIncluded then true else afterExclude)
  | None => Ok afterExclude
  end.

Definition full_path (prefix key : string) : string :=
  if truthy_str prefix then prefix ++ "." ++ key else key.

(** [processObject(obj, prefix)].  An array is walked through its
    entries like any other object, with its indices as keys, and comes
    out as a plain object.  Objects are taken with distinct keys. *)
Fixpoint processObject (exclude include : option (list string))
  (obj : json) (prefix : string) {struct obj} : result json :=
  match obj with
  | JObj fields =>
      kept <-
        (fix each (l : list (string * json))
           : result (list (string * json)) :=
           match l with
           | [] => Ok []
           | (key, value) :: l' =>
               let fullPath := full_path prefix key in
               keep <- shouldInclude exclude include fullPath ;;
               if keep then
                 v <- match value with
                      | JObj _ | JArr _ =>
                          processObject exclude include value fullPath
                      | _ => Ok value
                      end ;;
                 rest <- each l' ;;
                 Ok ((key, v) :: rest)
               else each l'
           end) fields ;;
      Ok (JObj kept)
  | JArr items =>
      kept <-
        (fix each (i : nat) (l : list json)
           : result (list (string * json)) :=
           match l with
           | [] => Ok []
           | value :: l' =>
               let key := show_Z (Z.of_nat i) in
               let fullPath := full_path prefix key in
               keep <- shouldInclude exclude include fullPath ;;
               if keep then
                 v <- match value with
                      | JObj _ | JArr _ =>
                          processObject exclude include value fullPath
                      | _ => Ok value
                      end ;;
                 rest <- each (S i) l' ;;
                 Ok ((key, v) :: rest)
               else each (S i) l'
           end) O items ;;
      Ok (JObj kept)
  | _ => Ok obj
  end.

Fixpoint map_result {A B : Type} (f : A -> result B) (l : list A)
  : result (list B) :=
  match l with
  | [] => Ok []
  | a :: l' => b <- f a ;; bs <- map_result f l' ;; Ok (b :: bs)
  end.

(** [searchQuery.include?.split(',').filter(Boolean)]. *)
Definition pattern_list (param : option string) : option (list string) :=
  option_map (fun s => filter_Boolean (split "," s)) param.

(** The projection of a page: untouched unless one of the two lists is
    given. *)
Definition project (include exclude : option string) (rows : list row)
  : result (list json) :=
  let inc := pattern_list include in
  let exc := pattern_list exclude in
  match inc, exc with
  | None, None => Ok (map JObj rows)
  | _, _ => map_result (fun item => processObject exc inc (JObj item) "") rows
  end.

(** ** Requests *)

(** The parsed value of a numeric parameter: a bare number, an operator
    with its operand, or a range. *)
Inductive num_param : Type :=
| NumLit (n : Z)
| NumOp (op : string) (value : Z)
| NumRange (min max : Z).

(** [searchQuery], the validated parameters.  The per-field values are
    kept by kind; [where_param] keeps the enumeration order of the nested
    object. *)
Record SearchQuery : Type := mkSearchQuery {
  page : Z;
  page_size : Z;
  page_key : option string;
  order : string;
  expand : option (list string);
  include : option string;
  exclude : option string;
  where_param : option (list (string * list (string * string)));
  collection_id : option string;
  numbers : list (string * num_param);
  texts : list (string * string);
  flags : list (string * bool)
}.

(** [searchParams], the raw parameters of the URL. *)
Definition SearchParams : Type := list (string * string).

Definition has (searchParams : SearchParams) (name : string) : bool :=
  match lookup name searchParams with
  | Some _ => true
  | None => false
  end.

Definition truthy_opt (s : option string) : bool :=
  match s with
  | Some v => truthy_str v
  | None => false
  end.

(** ** Responses *)

Inductive Pagination : Type :=
| CursorPage (total : Z) (items_left : option Z) (page_size : Z)
    (page_key : option json) (has_more : bool)
| OffsetPage (total page_size pages page : Z) (prev next : option Z)
    (page_key : option json) (has_more : bool).

Record Response : Type := mkResponse {
  pagination : Pagination;
  data : list json;
  status : Z
}.

(** What a handler did: the statements it sent to the store, in order,
    and its reply. *)
Record Outcome : Type := mkOutcome {
  statements : list Query;
  reply : result Response
}.

Definition meta_total (p : Pagination) : Z :=
  match p with
  | CursorPage t _ _ _ _ => t
  | OffsetPage t _ _ _ _ _ _ _ => t
  end.

Definition meta_page_key (p : Pagination) : option json :=
  match p with
  | CursorPage _ _ _ k _ => k
  | OffsetPage _ _ _ _ _ _ k _ => k
  end.

Definition meta_has_more (p : Pagination) : bool :=
  match p with
  | CursorPage _ _ _ _ h => h
  | OffsetPage _ _ _ _ _ _ _ h => h
  end.

(** ** Pieces shared by the handlers *)

(** [Math.ceil(total / page_size)] for a non-zero page size. *)
Definition ceil_div (a b : Z) : Z := - ((- a) / b).

(** [Boolean(v)] for a number or null. *)
Definition truthy_num (v : option Z) : bool :=
  match v with
  | Some n => negb (n =? 0)
  | None => false
  end.

(** [v || null] for a value. *)
Definition or_null (v : option json) : option json :=
  match v with
  | Some JNull => None
  | Some (JBool false) => None
  | Some (JNum 0) => None
  | Some (JStr EmptyString) => None
  | _ => v
  end.

Definition json_of_num_param (val : num_param) : json :=
  match val with
  | NumLit n => JNum n
  | NumOp op v => JObj [("op", JStr op); ("value", JNum v)]
  | NumRange lo hi =>
      JObj [("op", JStr "range"); ("min", JNum lo); ("max", JNum hi)]
  end.

(** The body of the loop over the numeric fields: the [switch] on the
    operator. *)
Definition number_filter (searchParams : SearchParams)
  (searchQuery : SearchQuery) (field : string) : result (list cond) :=
  if has searchParams field then
    match lookup field (numbers searchQuery) with
    | None => Throw "TypeError"
    | Some val =>
        let value :=
          match val with
          | NumLit n => JNum n
          | NumOp _ v => JNum v
          | NumRange _ _ => json_of_num_param val
          end in
        let colon :=
          match lookup field searchParams with
          | Some raw => includes ":" raw
          | None => false
          end in
        let op :=
          if colon then
            match val with
            | NumLit _ => None
            | NumOp o _ => Some o
            | NumRange _ _ => Some "range"
            end
          else Some "eq" in
        let num := value in
        match op with
        | Some "gt" => Ok [orm.gt field num]
        | Some "lt" => Ok [orm.lt field num]
        | Some "gte" => Ok [orm.gte field num]
        | Some "lte" => Ok [orm.lte field num]
        | Some "range" =>
            match val with
            | NumRange lo hi =>
                Ok [orm.gte field (JNum lo); orm.lte field (JNum hi)]
            | _ => Ok [orm.gte field JNull; orm.lte field JNull]
            end
        | _ => Ok [orm.eq field num]
        end
    end
  else Ok [].

(** The wildcard translation of a text value. *)
Definition wildcard (value : string) : string :=
  if includes "*" value then replaceAll "*" "%" value else value.

(** The clause of a text value: a pattern match when it holds a star,
    an equality otherwise. *)
Definition text_clause (field value : string) : cond :=
  if includes "*" value then orm.like field (JStr (wildcard value))
  else orm.eq field (JStr (wildcard value)).

(** The body of the loop over the text fields. *)
Definition text_filter (searchParams : SearchParams)
  (searchQuery : SearchQuery) (field : string) : result (list cond) :=
  if has searchParams field then
    match lookup field (texts searchQuery) with
    | None => Throw "TypeError"
    | Some value => Ok [text_clause field value]
    end
  else Ok [].

(** The block on [searchQuery.collection_id]. *)
Definition collection_id_filter (searchQuery : SearchQuery) : list cond :=
  match collection_id searchQuery with
  | Some value =>
      if truthy_str value then
        if String.eqb value "true" then [IsNotNull "collection_id"]
        else if String.eqb value "false" || String.eqb value "null"
        then [IsNull "collection_id"]
        else [text_clause "collection_id" value]
      else []
  | None => []
  end.

(** The body of the loop over the boolean fields; a raw parameter
    without a parsed value is bound as NULL. *)
Definition flag_filter (searchParams : SearchParams)
  (searchQuery : SearchQuery) (field : string) : list cond :=
  if has searchParams field then
    match lookup field (flags searchQuery) with
    | Some b => [orm.eq field (JBool b)]
    | None => [orm.eq field JNull]
    end
  else [].

Fixpoint concat_results {A : Type} (l : list (result (list A)))
  : result (list A) :=
  match l with
  | [] => Ok []
  | r :: l' => xs <- r ;; ys <- concat_results l' ;; Ok (xs ++ ys)%list
  end.

(** The two nested loops over [searchQuery.where]: one clause per field
    and operator, the operator looked up by name. *)
Fixpoint where_spec (key : string) (spec : list (string * string))
  : result (list cond) :=
  match spec with
  | [] => Ok []
  | (op, value) :: spec' =>
      match orm.get op with
      | Some f =>
          rest <- where_spec key spec' ;;
          Ok (f key (JStr (wildcard value)) :: rest)
      | None => Throw "TypeError"
      end
  end.

Definition where_conds (w : list (string * list (string * string)))
  : result (list cond) :=
  concat_results (map (fun '(key, spec) => where_spec key spec) w).

(** The relations named in [expand], in the order the handler tests
    them. *)
Definition expanded (searchQuery : SearchQuery) : list string :=
  match expand searchQuery with
  | Some names =>
      filter (fun rel => existsb (String.eqb rel) names)
        ["collection"; "metadata"; "transfers"; "votes"]
  | None => []
  end.

Definition direction_of (searchQuery : SearchQuery) : direction :=
  if String.eqb (order searchQuery) "asc" then Asc else Desc.

(** [isCursor]. *)
Definition isCursor (searchQuery : SearchQuery) : bool :=
  truthy_opt (page_key searchQuery).

(** [offset] at the top of every handler. *)
Definition page_offset (searchQuery : SearchQuery) : Z :=
  if truthy_opt (page_key searchQuery) then 0
  else (page searchQuery - 1) * page_size searchQuery.

(** The composite cursor: [page_key.split('_').map(Number)], of which
    the first two components are taken. *)
Definition decode_cursor (key : string) : option Z * option Z :=
  match map Number_ (split "_" key) with
  | [] => (None, None)
  | [a] => (a, None)
  | a :: b :: _ => (a, b)
  end.

(** The keyset clause on [(block_number, transaction_index)].  A
    component of the key that is missing or not a number is bound as NULL
    here; what the driver does with such a value is outside the model,
    and the properties that depend on the comparison take a key with two
    integer components. *)
Definition cursor_clause (searchQuery : SearchQuery) : list cond :=
  if isCursor searchQuery then
    match page_key searchQuery with
    | Some key =>
        let '(blockNumber, txIndex) := decode_cursor key in
        match direction_of searchQuery with
        | Asc => [RowGt "block_number" "transaction_index" blockNumber txIndex]
        | Desc => [RowLt "block_number" "transaction_index" blockNumber txIndex]
        end
    | None => []
    end
  else [].

(** [has_next]. *)
Definition has_next (total_ : Z) (searchQuery : SearchQuery) : option Z :=
  if page_offset searchQuery + page_size searchQuery <? total_
  then Some (page searchQuery + 1) else None.

Definition number_fields : list string :=
  ["number"; "block_number"; "block_timestamp"; "transaction_index";
   "updated_at"].

Definition text_fields : list string :=
  ["id"; "media_type"; "media_subtype"; "content_type"; "content_sha";
   "creator"; "initial_owner"; "current_owner"; "previous_owner"].

Definition esip_fields : list string :=
  ["is_esip0"; "is_esip3"; "is_esip4"; "is_esip6"; "is_esip8"].

(** The condition list of the ethscriptions handlers before the cursor
    clause is pushed. *)
Definition filter_conditions (searchParams : SearchParams)
  (searchQuery : SearchQuery) : result (list cond) :=
  nums <- concat_results
            (map (number_filter searchParams searchQuery) number_fields) ;;
  txts <- concat_results
            (map (text_filter searchParams searchQuery) text_fields) ;;
  Ok (nums ++ collection_id_filter searchQuery ++ txts
      ++ flat_map (flag_filter searchParams searchQuery) esip_fields)%list.

(** The statement the ethscriptions handlers build: the first [where]
    with the filters, the second with the filters and the cursor clause
    or with the clauses of the nested form alone, then order, limit and
    offset. *)
Definition build_query (searchParams : SearchParams)
  (searchQuery : SearchQuery) : result Query :=
  conditions <- filter_conditions searchParams searchQuery ;;
  let query := select_from (expanded searchQuery) in
  let query :=
    match conditions with
    | [] => query
    | _ => where_ query (orm.and conditions)
    end in
  let order := direction_of searchQuery in
  let conditions := (conditions ++ cursor_clause searchQuery)%list in
  query <-
    match where_param searchQuery, conditions with
    | None, [] => Ok query
    | None, _ => Ok (where_ query (orm.and conditions))
    | Some w, _ =>
        conds <- where_conds w ;;
        Ok (where_ query (orm.and conds))
    end ;;
  let query :=
    orderBy query [(order, "block_number"); (order, "transaction_index")] in
  let query := limit query (page_size searchQuery) in
  Ok (if isCursor searchQuery then query
      else offset query (page_offset searchQuery)).

(** [nextCursor] of the ethscriptions handlers. *)
Definition next_cursor (total_ : Z) (searchQuery : SearchQuery)
  (results : list counted) : option json :=
  if truthy_num (has_next total_ searchQuery) then
    let last_row := option_map item (last (map Some results) None) in
    let field c :=
      match last_row with
      | Some r => lookup c r
      | None => None
      end in
    Some (JStr (template (field "block_number") ++ "_"
                ++ template (field "transaction_index")))
  else None.

(** The pagination object of the ethscriptions handlers; [items_left]
    is present in the first variant only, which also names the page size
    [limit] in page mode. *)
Definition ethscriptions_meta (with_items_left : bool) (total_ : Z)
  (searchQuery : SearchQuery) (results : list counted) : Pagination :=
  let left := total_ - page_size searchQuery in
  let nextCursor := next_cursor total_ searchQuery results in
  if isCursor searchQuery then
    CursorPage total_
      (if with_items_left then Some (if left <? 0 then 0 else left) else None)
      (page_size searchQuery) (or_null nextCursor) (0 <? left)
  else
    OffsetPage total_ (page_size searchQuery)
      (ceil_div total_ (page_size searchQuery)) (page searchQuery)
      (if 1 <? page searchQuery then Some (page searchQuery - 1) else None)
      (has_next total_ searchQuery)
      (or_null nextCursor)
      (truthy_num (has_next total_ searchQuery)).

(** [results[0]?.total ?? 0]. *)
Definition first_total (results : list counted) : Z :=
  match results with
  | r :: _ => total r
  | [] => 0
  end.

(** Modelled from the spec: [withIncludesExcludes] of utils/validation,
    which is not among the sources.  Section 4.5 describes the projection
    it performs, the same walk that the first ethscriptions handler and
    the single-resource handler carry inline. *)
Definition withIncludesExcludes (results : list row)
  (searchQuery : SearchQuery) : result (list json) :=
  project (include searchQuery) (exclude searchQuery) results.

(** ** The ethscriptions listing, window count in the page statement *)

Module Ethscriptions.

Definition GET (searchParams : SearchParams) (searchQuery : SearchQuery)
  (db : Db) : Outcome :=
  match build_query searchParams searchQuery with
  | Throw e => mkOutcome [] (Throw e)
  | Ok query =>
      let results := run db query in
      let total_ := first_total results in
      mkOutcome [query]
        (filteredData <-
           project (include searchQuery) (exclude searchQuery)
             (map item results) ;;
         Ok (mkResponse
               (ethscriptions_meta true total_ searchQuery results)
               filteredData 200))
  end.

End Ethscriptions.

(** ** The ethscriptions listing, count in a statement of its own *)

Module EthscriptionsCount.

(** The statement that opens the handler: the window count over the
    whole table, of which the first row is destructured. *)
Definition count_query : Query := select_from [].

Definition GET (searchParams : SearchParams) (searchQuery : SearchQuery)
  (db : Db) : Outcome :=
  match run db count_query with
  | [] => mkOutcome [count_query] (Throw "TypeError")
  | first :: _ =>
      let total_ := total first in
      match build_query searchParams searchQuery with
      | Throw e => mkOutcome [count_query] (Throw e)
      | Ok query =>
          let results := run db query in
          mkOutcome [count_query; query]
            (projected <-
               withIncludesExcludes (map item results) searchQuery ;;
             Ok (mkResponse
                   (ethscriptions_meta false total_ searchQuery results)
                   projected 200))
      end
  end.

End EthscriptionsCount.

(** ** The collections listing *)

Module Collections.

Definition text_fields : list string :=
  ["id"; "slug"; "name"; "description"; "logo"; "banner"].

(** The body of the loop over the text fields; the slug is compared in
    lower case. *)
Definition text_filter (searchParams : SearchParams)
  (searchQuery : SearchQuery) (field : string) : result (list cond) :=
  if has searchParams field then
    match lookup field (texts searchQuery) with
    | None => Throw "TypeError"
    | Some value =>
        let val := wildcard value in
        let val := if String.eqb field "slug" then toLowerCase val else val in
        let value :=
          if String.eqb field "slug" then toLowerCase value else value in
        Ok [if includes "*" value then orm.like field (JStr val)
            else orm.eq field (JStr val)]
    end
  else Ok [].

(** The block on [searchQuery.verified]. *)
Definition verified_filter (searchQuery : SearchQuery) : list cond :=
  match lookup "verified" (flags searchQuery) with
  | Some true => [orm.eq "verified" (JBool true)]
  | _ => []
  end.

(** The keyset clause on [created_at]. *)
Definition cursor_clause (searchQuery : SearchQuery) : list cond :=
  match page_key searchQuery with
  | Some key =>
      if truthy_str key then
        match direction_of searchQuery with
        | Asc => [orm.gt "created_at" (JStr key)]
        | Desc => [orm.lt "created_at" (JStr key)]
        end
      else []
  | None => []
  end.

Definition filter_conditions (searchParams : SearchParams)
  (searchQuery : SearchQuery) : result (list cond) :=
  txts <- concat_results
            (map (text_filter searchParams searchQuery) text_fields) ;;
  supply <- number_filter searchParams searchQuery "supply" ;;
  Ok (txts ++ supply ++ verified_filter searchQuery
      ++ cursor_clause searchQuery)%list.

(** The statement of the handler.  In the nested form every clause is
    passed to [where] on its own, so each call overwrites the one
    before. *)
Definition build_query (searchParams : SearchParams)
  (searchQuery : SearchQuery) : result Query :=
  conditions <- filter_conditions searchParams searchQuery ;;
  let query := select_from [] in
  let order := direction_of searchQuery in
  query <-
    match where_param searchQuery, conditions with
    | None, [] => Ok query
    | None, _ => Ok (where_ query (orm.and conditions))
    | Some w, _ =>
        clauses <- where_conds w ;;
        Ok (fold_left (fun q c => where_ q (Some c)) clauses query)
    end ;;
  let query := orderBy query [(order, "created_at")] in
  let query := limit query (page_size searchQuery) in
  Ok (if truthy_opt (page_key searchQuery) then query
      else offset query (page_offset searchQuery)).

(** [nextCursor]: the [created_at] of the last row. *)
Definition next_cursor (total_ : Z) (searchQuery : SearchQuery)
  (res : list counted) : option json :=
  if truthy_num (has_next total_ searchQuery) then
    match last (map Some res) None with
    | Some r => lookup "created_at" (item r)
    | None => None
    end
  else None.

Definition meta (total_ : Z) (searchQuery : SearchQuery)
  (res : list counted) : Pagination :=
  let left := total_ - page_size searchQuery in
  let nextCursor := next_cursor total_ searchQuery res in
  if truthy_opt (page_key searchQuery) then
    CursorPage total_ (Some (if left <? 0 then 0 else left))
      (page_size searchQuery) (or_null nextCursor) (0 <? left)
  else
    OffsetPage total_ (page_size searchQuery)
      (ceil_div total_ (page_size searchQuery)) (page searchQuery)
      (if 1 <? page searchQuery then Some (page searchQuery - 1) else None)
      (has_next total_ searchQuery)
      (or_null nextCursor)
      (truthy_num (has_next total_ searchQuery)).

Definition GET (searchParams : SearchParams) (searchQuery : SearchQuery)
  (db : Db) : Outcome :=
  match build_query searchParams searchQuery with
  | Throw e => mkOutcome [] (Throw e)
  | Ok query =>
      let res := run db query in
      let results := map item res in
      let total_ := first_total res in
      mkOutcome [query]
        (projected <- withIncludesExcludes results searchQuery ;;
         Ok (mkResponse (meta total_ searchQuery res) projected 200))
  end.

End Collections.

(** ** Validation in front of the handlers *)

Record Issue : Type := mkIssue {
  code : string;
  message : string;
  path : list string
}.

(** What the caller of a validated handler sees: a validation failure
    with its issues, or what the handler did. *)
Inductive Validated : Type :=
| Rejected (status_ : Z) (issues : list Issue)
| Handled (o : Outcome).

(** Modelled from the spec: the operator names the nested form accepts.
    The schemas of utils/params-validation are not among the sources;
    section 3 lists the operators of a single-operator filter. *)
Definition recognized_operators : list string :=
  ["eq"; "gt"; "lt"; "gte"; "lte"; "like"].

Definition recognized (op : string) : bool :=
  existsb (String.eqb op) recognized_operators.

(** Modelled from the spec: the issues of a nested where form, one for
    every operator name outside the recognized set, naming the field and
    the operator (sections 4.2 and 7). *)
Definition where_issues (w : list (string * list (string * string)))
  : list Issue :=
  flat_map
    (fun '(field, spec) =>
       flat_map
         (fun '(op, _) =>
            if recognized op then []
            else [mkIssue "invalid_operator"
                    ("Unknown operator " ++ op ++ " on field " ++ field)
                    ["where"; field; op]])
         spec)
    w.

(** Modelled from the spec: [withValidation] of utils/validation, which
    is not among the sources.  A request with issues is answered with
    the validation error and the handler is not called; otherwise the
    handler runs (section 7: validation errors are detected before any
    store access). *)
Definition withValidation
  (handler : SearchParams -> SearchQuery -> Db -> Outcome)
  (searchParams : SearchParams) (searchQuery : SearchQuery) (db : Db)
  : Validated :=
  let issues :=
    match where_param searchQuery with
    | Some w => where_issues w
    | None => []
    end in
  match issues with
  | [] => Handled (handler searchParams searchQuery db)
  | _ => Rejected 400 issues
  end.

(** The statements that reached the store. *)
Definition store_accesses (v : Validated) : list Query :=
  match v with
  | Rejected _ _ => []
  | Handled o => statements o
  end.

(** ** A client that follows the cursor *)

Definition with_page_key (searchQuery : SearchQuery) (key : option string)
  : SearchQuery :=
  mkSearchQuery (page searchQuery) (page_size searchQuery) key
    (order searchQuery) (expand searchQuery) (include searchQuery)
    (exclude searchQuery) (where_param searchQuery)
    (collection_id searchQuery) (numbers searchQuery) (texts searchQuery)
    (flags searchQuery).

(** The client of the cursor: it requests a page, and as long as the
    reply says [has_more] it requests again with the returned
    [page_key].  The result is the list of the pages received, or [None]
    when the fuel runs out, a request fails, or a reply has [has_more]
    without a key. *)
Fixpoint crawl (fuel : nat)
  (handler : SearchParams -> SearchQuery -> Db -> Outcome)
  (searchParams : SearchParams) (searchQuery : SearchQuery) (db : Db)
  : option (list (list json)) :=
  match fuel with
  | O => None
  | S fuel' =>
      match reply (handler searchParams searchQuery db) with
      | Throw _ => None
      | Ok response =>
          if meta_has_more (pagination response) then
            match meta_page_key (pagination response) with
            | Some key =>
                option_map (cons (data response))
                  (crawl fuel' handler searchParams
                     (with_page_key searchQuery
                        (Some (template (Some key)))) db)
            | None => None
            end
          else Some [data response]
      end
  end.

(** ** Fixtures *)

(** An ethscription row reduced to the columns the examples filter and
    sort on. *)
Definition ethscription (id : string) (block_number transaction_index : Z)
  (creator : string) : row :=
  [("id", JStr id); ("block_number", JNum block_number);
   ("transaction_index", JNum transaction_index);
   ("creator", JStr creator)].

(** A collection row reduced in the same way. *)
Definition collection (id : string) (created_at : Z) (verified : bool)
  : row :=
  [("id", JStr id); ("created_at", JNum created_at);
   ("verified", JBool verified)].

(** A request with pagination parameters only. *)
Definition plain_request (page page_size : Z) (page_key : option string)
  (order : string) : SearchQuery :=
  mkSearchQuery page page_size page_key order
    None None None None None [] [] [].

(** A store that ignores joins. *)
Definition table (rows : list row) : Db := fun _ => rows.

(** A request with a top-level filter, a cursor and a nested filter. *)
Definition c1_params : SearchParams := [("creator", "x")].

Definition c1_query : SearchQuery :=
  mkSearchQuery 1 10 (Some "5_0") "asc" None None None
    (Some [("id", [("like", "*")])]) None [] [("creator", "x")] [].

Definition c1_db : Db :=
  table [ethscription "a" 7 0 "x"; ethscription "b" 1 0 "y"].

(** A request for the second page of two over a one-row table. *)
Definition c2_query : SearchQuery := plain_request 2 2 None "asc".

Definition c2_db : Db := table [ethscription "a" 1 0 "x"].

(** A request filtered on the creator over a two-row table. *)
Definition c2_params : SearchParams := [("creator", "y")].

Definition c2_filtered : SearchQuery :=
  mkSearchQuery 1 10 None "asc" None None None None None
    [] [("creator", "y")] [].

Definition c2_rows : Db :=
  table [ethscription "a" 1 0 "x"; ethscription "b" 2 0 "y"].

(** Ninety-seven rows with consecutive block numbers. *)
Definition c3_db : Db :=
  table (map (fun n => ethscription "e" (Z.of_nat n) 0 "x") (seq 0 97)).

(** Ninety-seven collections with consecutive creation times. *)
Definition c3_collections : Db :=
  table (map (fun n => collection "c" (Z.of_nat n) true) (seq 0 97)).

(** The request with its boolean parameters replaced. *)
Definition with_flags (searchQuery : SearchQuery)
  (fs : list (string * bool)) : SearchQuery :=
  mkSearchQuery (page searchQuery) (page_size searchQuery)
    (page_key searchQuery) (order searchQuery) (expand searchQuery)
    (include searchQuery) (exclude searchQuery) (where_param searchQuery)
    (collection_id searchQuery) (numbers searchQuery) (texts searchQuery)
    fs.

(** The request with its [collection_id] parameter replaced. *)
Definition with_collection_id (searchQuery : SearchQuery)
  (v : option string) : SearchQuery :=
  mkSearchQuery (page searchQuery) (page_size searchQuery)
    (page_key searchQuery) (order searchQuery) (expand searchQuery)
    (include searchQuery) (exclude searchQuery) (where_param searchQuery)
    v (numbers searchQuery) (texts searchQuery) (flags searchQuery).

(** One verified and one unverified collection. *)
Definition c10_db : Db :=
  table [collection "a" 1 true; collection "b" 2 false].

(** A request with a nested where form only. *)
Definition where_request
  (w : list (string * list (string * string))) : SearchQuery :=
  mkSearchQuery 1 10 None "asc" None None None (Some w) None [] [] [].

(** A row reduced to its [content_sha]. *)
Definition sha_row (sha : string) : row :=
  [("content_sha", JStr sha)].

(** A request whose cursor meets a nested filter, and its table. *)
Definition c4_query : SearchQuery :=
  mkSearchQuery 1 10 (Some "1_0") "asc" None None None
    (Some [("id", [("like", "*")])]) None [] [] [].

Definition c4_db : Db :=
  table [ethscription "a" 1 0 "x"; ethscription "b" 2 0 "x"].

(** A cursor request without a nested filter. *)
Definition c4_plain : SearchQuery := plain_request 1 10 (Some "1_0") "asc".

(** The clause the handlers push for a decoded cursor. *)
Definition keyset (d : direction) (a b : Z) : cond :=
  match d with
  | Asc => RowGt "block_number" "transaction_index" (Some a) (Some b)
  | Desc => RowLt "block_number" "transaction_index" (Some a) (Some b)
  end.

(** Strictly after the cursor in the direction of the request. *)
Definition beyond (d : direction) (a b x y : Z) : Prop :=
  match d with
  | Asc => a < x \/ (a = x /\ b < y)
  | Desc => x < a \/ (x = a /\ y < b)
  end.

(** A pattern matches a path: exactly when it holds no star, as a glob
    anchored on the whole path when it does. *)
Definition matches_path (fullPath pattern : string) : bool :=
  if includes "*" pattern then glob_match pattern fullPath
  else String.eqb fullPath pattern.

(** Every pattern of a list is free of further metacharacters. *)
Definition globs (patterns : list string) : Prop :=
  Forall (fun p => glob_pattern p = true) patterns.

(** The patterns of a list that may be absent. *)
Definition listed (patterns : option (list string)) : list string :=
  match patterns with
  | Some l => l
  | None => []
  end.

(** Every starred pattern of a list is free of further metacharacters.
    A pattern without star is compared literally, whatever it holds. *)
Definition star_globs (patterns : option (list string)) : Prop :=
  Forall (fun p => includes "*" p = true -> glob_pattern p = true)
    (listed patterns).

(** Two pattern lists that differ by the order of their patterns only;
    an absent list is only like an absent list. *)
Definition reordered (l l' : option (list string)) : Prop :=
  match l, l' with
  | Some a, Some b => Permutation a b
  | None, None => True
  | _, _ => False
  end.

(** A request that asks for nothing but an exclusion. *)
Definition exclude_request (patterns : string) : SearchQuery :=
  mkSearchQuery 1 10 None "asc" None None (Some patterns) None None
    [] [] [].

(** The order of the ethscriptions listing in ascending direction. *)
Definition asc_order : list (direction * string) :=
  [(Asc, "block_number"); (Asc, "transaction_index")].

(** A row whose two ordinals are integers, as the schema declares them
    (integer, not null). *)
Definition keyed (r : row) : Prop :=
  exists x y,
    lookup "block_number" r = Some (JNum x)
    /\ lookup "transaction_index" r = Some (JNum y).

(** The composite key [(block_number, transaction_index)] of a row. *)
Definition row_key (r : row) : Z * Z :=
  match lookup "block_number" r, lookup "transaction_index" r with
  | Some (JNum x), Some (JNum y) => (x, y)
  | _, _ => (0, 0)
  end.

(** Strict lexicographic order on composite keys. *)
Definition key_lt (k1 k2 : Z * Z) : Prop :=
  fst k1 < fst k2 \/ (fst k1 = fst k2 /\ snd k1 < snd k2).

Definition before (r1 r2 : row) : Prop := key_lt (row_key r1) (row_key r2).

Definition not_after (r1 r2 : row) : Prop :=
  row_leb asc_order r1 r2 = true.

(** The cursor the handler derives from a row. *)
Definition cursor_of (r : row) : string :=
  show_Z (fst (row_key r)) ++ "_" ++ show_Z (snd (row_key r)).

(** The rows that pass every clause of a condition list. *)
Definition selected (cs : list cond) (rows : list row) : list row :=
  filter (fun r => forallb (holds r) cs) rows.

(** Two rows with the same composite key. *)
Definition c5_twins : Db :=
  table [ethscription "a" 1 0 "x"; ethscription "b" 1 0 "x"].

(** Three rows with distinct keys, out of order in the store. *)
Definition c5_db : Db :=
  table [ethscription "c" 2 0 "x"; ethscription "a" 1 0 "x";
         ethscription "b" 1 1 "x"].

(** ** Notions used by the statements *)

(** The ORDER BY list of the ethscriptions handlers. *)
Definition page_order (searchQuery : SearchQuery)
  : list (direction * string) :=
  [(direction_of searchQuery, "block_number");
   (direction_of searchQuery, "transaction_index")].

(** The OFFSET slot of the ethscriptions handlers. *)
Definition page_cut (searchQuery : SearchQuery) : option Z :=
  if isCursor searchQuery then None else Some (page_offset searchQuery).

(** The page-mode metadata, for any total. *)
Definition page_meta_ok (sq : SearchQuery) (p : Pagination) : Prop :=
  exists t pages prev next key more,
    p = OffsetPage t (page_size sq) pages (page sq) prev next key more
    /\ (pages - 1) * page_size sq < t <= pages * page_size sq
    /\ prev = (if 1 <? page sq then Some (page sq - 1) else None)
    /\ next = (if (page sq - 1) * page_size sq + page_size sq <? t
               then Some (page sq + 1) else None)
    /\ (more = true <-> next <> None).

Section JsonInduction.

Variable P : json -> Prop.
Hypothesis P_null : P JNull.
Hypothesis P_bool : forall b, P (JBool b).
Hypothesis P_num : forall z, P (JNum z).
Hypothesis P_str : forall s, P (JStr s).
Hypothesis P_arr : forall items, Forall P items -> P (JArr items).
Hypothesis P_obj :
  forall fields, Forall (fun kv => P (snd kv)) fields -> P (JObj fields).

(** Induction on a value with the hypothesis on every item and field. *)
Fixpoint json_nested_ind (j : json) : P j :=
  match j with
  | JNull => P_null
  | JBool b => P_bool b
  | JNum z => P_num z
  | JStr s => P_str s
  | JArr items =>
      P_arr items
        ((fix all (l : list json) : Forall P l :=
            match l with
            | [] => Forall_nil P
            | x :: l' => Forall_cons x (json_nested_ind x) (all l')
            end) items)
  | JObj fields =>
      P_obj fields
        ((fix all (l : list (string * json))
            : Forall (fun kv => P (snd kv)) l :=
            match l with
            | [] => Forall_nil _
            | kv :: l' =>
                Forall_cons kv (json_nested_ind (snd kv)) (all l')
            end) fields)
  end.

End JsonInduction.

(** ** Notions used by the further properties *)

(** What the [switch] of a numeric filter asks of a column value [x]
    for the operand [n]: the four comparisons by name, equality for
    every other name. *)
Definition comparison_meaning (op : string) (x n : Z) : Prop :=
  if String.eqb op "gt" then n < x
  else if String.eqb op "lt" then x < n
  else if String.eqb op "gte" then n <= x
  else if String.eqb op "lte" then x <= n
  else x = n.

(** The request with its [expand] parameter replaced. *)
Definition with_expand (searchQuery : SearchQuery)
  (names : option (list string)) : SearchQuery :=
  mkSearchQuery (page searchQuery) (page_size searchQuery)
    (page_key searchQuery) (order searchQuery) names
    (include searchQuery) (exclude searchQuery) (where_param searchQuery)
    (collection_id searchQuery) (numbers searchQuery) (texts searchQuery)
    (flags searchQuery).

(** The relations the handler knows. *)
Definition relations : list string :=
  ["collection"; "metadata"; "transfers"; "votes"].

(** A row reduced to one integer column. *)
Definition int_row (field : string) (x : Z) : row := [(field, JNum x)].

(** The request with its [page] parameter replaced. *)
Definition with_page (searchQuery : SearchQuery) (p : Z) : SearchQuery :=
  mkSearchQuery p (page_size searchQuery)
    (page_key searchQuery) (order searchQuery) (expand searchQuery)
    (include searchQuery) (exclude searchQuery) (where_param searchQuery)
    (collection_id searchQuery) (numbers searchQuery) (texts searchQuery)
    (flags searchQuery).

(** The records a client receives for page [p] of the ethscriptions
    listing; a failed request delivers nothing. *)
Definition page_data (searchParams : SearchParams)
  (searchQuery : SearchQuery) (db : Db) (p : nat) : list json :=
  match reply (Ethscriptions.GET searchParams
                 (with_page searchQuery (Z.of_nat p)) db) with
  | Ok response => data response
  | Throw _ => []
  end.

(** A value that holds no array at any depth. *)
Fixpoint array_free (j : json) : bool :=
  match j with
  | JArr _ => false
  | JObj fields =>
      (fix all (l : list (string * json)) : bool :=
         match l with
         | [] => true
         | (_, v) :: l' => array_free v && all l'
         end) fields
  | _ => true
  end.

(** A value that is neither an array nor an object. *)
Definition scalar (j : json) : bool :=
  match j with
  | JArr _ | JObj _ => false
  | _ => true
  end.

(** The entries of an array from index [i] on: its items under their
    indices. *)
Fixpoint entries_from (i : nat) (items : list json)
  : list (string * json) :=
  match items with
  | [] => []
  | v :: items' => (show_Z (Z.of_nat i), v) :: entries_from (S i) items'
  end.

(** The decision for a path as a boolean: kept only when the decision is
    reached and is true. *)
Definition decided (exclude include : option (list string))
  (fullPath : string) : bool :=
  match shouldInclude exclude include fullPath with
  | Ok true => true
  | _ => false
  end.

(** ** The single-resource handler of the ethscriptions route *)

Module Ethscription.

Record LookupIssue : Type := mkLookupIssue {
  issue_code : string;
  issue_message : string;
  keys : list string;
  issue_path : list string
}.

(** The two replies of the handler: the not-found object, or the
    record under [data] (undefined when the list is empty). *)
Inductive Reply : Type :=
| NotFound (status_ : Z) (message_ : string) (issues : list LookupIssue)
| Found (data_ : option json).

(** The WHERE clause of the lookup, [or(eq(id, x), eq(number, x))], on a
    row: true when either equality is.  The path segment is bound as
    text in both equalities, and the second one compares it with an
    integer column under numeric affinity. *)
Definition matches_id (id : string) (r : row) : bool :=
  holds r (orm.eq "id" (JStr id)) || holds r (orm.eq "number" (JStr id)).

(** The reply for an identifier that no row carries. *)
Definition not_found (id : string) : Reply :=
  NotFound 404 "Ethscription not found"
    [mkLookupIssue "not_found"
       "This transaction does not exist, or there is no Ethscription on it."
       [id] []].

(** [GET /ethscriptions/:id]: the rows whose id or number is the path
    segment, in scan order; the not-found reply when there is none,
    otherwise the first of them after projection. *)
Definition GET (id : string) (searchQuery : SearchQuery) (db : Db)
  : result Reply :=
  let results := filter (matches_id id) (db []) in
  match results with
  | [] => Ok (not_found id)
  | _ =>
      projected <-
        project (include searchQuery) (exclude searchQuery) results ;;
      Ok (Found (hd_error projected))
  end.

End Ethscription.

(** ** The handler that creates a collection *)

(** [s.startsWith(p)]. *)
Fixpoint starts_with (p s : string) : bool :=
  match p with
  | EmptyString => true
  | String a p' =>
      match s with
      | EmptyString => false
      | String b s' => Ascii.eqb a b && starts_with p' s'
      end
  end.

(** [s.split(sep)] for a non-empty separator: [skip] counts the
    characters of a separator just found that are still to be passed. *)
Fixpoint split_by_from (sep s : string) (skip : nat) : list string :=
  match s with
  | EmptyString => [EmptyString]
  | String a s' =>
      match skip with
      | S k => split_by_from sep s' k
      | O =>
          if starts_with sep s
          then EmptyString :: split_by_from sep s' (String.length sep - 1)
          else match split_by_from sep s' O with
               | [] => [String a EmptyString]
               | w :: ws => String a w :: ws
               end
      end
  end.

Definition split_by (sep s : string) : list string := split_by_from sep s O.

Module CollectionsWrite.

(** What the handler reads of a caught error. *)
Record JsError : Type := mkJsError {
  e_name : string;
  e_code : option string;
  e_text : string
}.

(** What a step may throw: a validation error of the schema library, or
    any other error. *)
Inductive Thrown : Type :=
| ZodError (error : json)
| OtherError (e : JsError).

Inductive attempt (A : Type) : Type :=
| Done (a : A)
| Raised (t : Thrown).
Arguments Done {A} a.
Arguments Raised {A} t.

Inductive Reply : Type :=
| Created (status_ : Z) (data_ : option row)
| BadRequest (status_ : Z) (message_ : string) (error : json)
| ServerFailure (status_ : Z) (message_ : string) (name : string)
    (code : option string) (detail : option string).

(** The [message] of the error object of a failure reply. *)
Definition error_message (e : JsError) : option string :=
  let msg := e_text e in
  match e_code e with
  | Some "SQLITE_CONSTRAINT" =>
      nth_error (split_by "SQLITE_CONSTRAINT: " msg) 1
  | _ => Some msg
  end.

Definition failure (t : Thrown) : Reply :=
  match t with
  | ZodError error => BadRequest 400 "Request body validation failed" error
  | OtherError e =>
      ServerFailure 500 "Fatal server failure" (e_name e) (e_code e)
        (error_message e)
  end.

(** What the handler did: the values it handed to the insert, and its
    reply. *)
Record Outcome : Type := mkOutcome {
  inserted : list json;
  reply : Reply
}.

(** [POST]: the body is read, parsed with the insert schema and
    inserted; [parse] stands for the schema and [insert] for the store,
    which are not among the sources. *)
Definition POST (body : attempt json) (parse : json -> attempt json)
  (insert : json -> attempt (list row)) : Outcome :=
  match body with
  | Raised t => mkOutcome [] (failure t)
  | Done b =>
      match parse b with
      | Raised t => mkOutcome [] (failure t)
      | Done validatedData =>
          match insert validatedData with
          | Raised t => mkOutcome [validatedData] (failure t)
          | Done rows => mkOutcome [validatedData] (Created 201 (hd_error rows))
          end
      end
  end.

End CollectionsWrite.

(** ** The theme toggle *)

(** [toggleTheme] as a function of the current theme, which is
    undefined until the provider has resolved it: the theme it sets. *)
Definition toggleTheme (theme : option string) : string :=
  match theme with
  | Some "light" => "dark"
  | _ => "light"
  end.

(** ** Notions used by the properties of the further handlers *)

(** A row whose [id] is text and whose [number] is an integer or
    null, as the schema declares them. *)
Definition lookup_typed (r : row) : Prop :=
  (exists rid, column r "id" = SText rid)
  /\ (column r "number" = SNull \/ exists n, column r "number" = SInt n).

(** The row carries the identifier: as its id, or as its number when
    the identifier is an integer literal. *)
Definition identifies (id : string) (r : row) : Prop :=
  column r "id" = SText id
  \/ exists n, column r "number" = SInt n /\ integer_literal id = Some n.

(** The characters a numeric literal of SQLite is made of: digits,
    signs, the decimal point, the exponent mark and blanks. *)
Definition numeric_char (a : ascii) : bool :=
  existsb (Ascii.eqb a)
    ["0"; "1"; "2"; "3"; "4"; "5"; "6"; "7"; "8"; "9"; "+"; "-"; ".";
     "e"; "E"; " "; "009"; "010"; "011"; "012"; "013"]%char.

(** A text that the store reads as no number, whatever else it holds:
    one of its characters occurs in no numeric literal.  The hash of a
    transaction, with its [0x] prefix, is such a text. *)
Definition never_numeric (s : string) : bool :=
  existsb (fun a => negb (numeric_char a)) (list_ascii_of_string s).

(** The identifiers on which the comparison with the integer column is
    modelled exactly: the decimal integer literals, and the texts that are
    no number.  Literals with a plus sign, a fraction, an exponent or
    blanks around them, which the store converts as well, are left out. *)
Definition exact_identifier (id : string) : Prop :=
  never_numeric id = true \/ exists n, integer_literal id = Some n.

(** An occurrence of [sep] in [pre ++ tail] that starts inside [pre]. *)
Fixpoint starts_within (sep pre tail : string) : bool :=
  match pre with
  | EmptyString => false
  | String _ pre' =>
      starts_with sep (pre ++ tail) || starts_within sep pre' tail
  end.

(** [p] is a prefix of [s] up to the case of ASCII letters. *)
Fixpoint prefix_ci (p s : string) : bool :=
  match p with
  | EmptyString => true
  | String c p' =>
      match s with
      | EmptyString => false
      | String d s' =>
          Ascii.eqb (lower_ascii c) (lower_ascii d) && prefix_ci p' s'
      end
  end.

(** A text without the characters LIKE and the handlers give a
    meaning to. *)
Definition literal_text (p : string) : bool :=
  negb (includes "*" p) && negb (includes "%" p) && negb (includes "_" p).

(** ** Requests that the handlers answer *)

(** The parsed value of a numeric parameter has the shape its raw text
    announces: a range comes with a colon, and the operator of a single
    comparison is not [range]. *)
Definition shaped (raw : string) (val : num_param) : bool :=
  match val with
  | NumLit _ => true
  | NumOp op _ => negb (includes ":" raw && String.eqb op "range")
  | NumRange _ _ => includes ":" raw
  end.

(** Every raw parameter among the given numeric and text fields has a
    parsed value in the validated query, the numeric ones of the shape
    the raw text announces. *)
Definition parsed (searchParams : SearchParams) (searchQuery : SearchQuery)
  (nums txts : list string) : bool :=
  forallb
    (fun field =>
       negb (has searchParams field)
       || match lookup field (numbers searchQuery),
                lookup field searchParams with
          | Some val, Some raw => shaped raw val
          | _, _ => false
          end) nums
  && forallb
       (fun field =>
          negb (has searchParams field)
          || match lookup field (texts searchQuery) with
             | Some _ => true
             | None => false
             end) txts.

(** Every operator of a nested where form is one of the modelled
    operators. *)
Definition operators_known (w : list (string * list (string * string)))
  : bool :=
  forallb
    (fun '(_, spec) =>
       forallb
         (fun '(op, _) =>
            match orm.get op with
            | Some _ => true
            | None => false
            end) spec) w.

Definition where_known (searchQuery : SearchQuery) : bool :=
  match where_param searchQuery with
  | Some w => operators_known w
  | None => true
  end.

(** A pattern that is compared literally or matched as a glob. *)
Definition star_glob (p : string) : bool :=
  negb (includes "*" p) || glob_pattern p.

(** The starred patterns of the include and exclude parameters hold no
    further metacharacter. *)
Definition patterns_plain (searchQuery : SearchQuery) : bool :=
  forallb star_glob (listed (pattern_list (include searchQuery)))
  && forallb star_glob (listed (pattern_list (exclude searchQuery))).

(** The clauses of a nested where form, written out: one per field and
    operator, in request order, the operator looked up by name and
    applied to the value with every star turned into a percent sign. *)
Definition named_spec (key : string) (spec : list (string * string))
  : list cond :=
  flat_map
    (fun '(op, value) =>
       match orm.get op with
       | Some f => [f key (JStr (replaceAll "*" "%" value))]
       | None => []
       end) spec.

Definition named_clauses (w : list (string * list (string * string)))
  : list cond :=
  flat_map (fun '(key, spec) => named_spec key spec) w.

(** The value a text filter of the collections listing compares with:
    the slug in lower case, every other field as given. *)
Definition slug_folded (field value : string) : string :=
  if String.eqb field "slug" then toLowerCase value else value.

(** A request with one text filter. *)
Definition text_request (field value : string) : SearchQuery :=
  mkSearchQuery 1 10 None "asc" None None None None None
    [] [(field, value)] [].

(** A request for a page with a creator filter and an exclusion. *)
Definition c3_request (page : Z) : SearchQuery :=
  mkSearchQuery page 20 None "desc" None None (Some "creator,meta.*")
    None None [] [("creator", "x")] [].

(** * Properties *)

(** ** The statement a handler builds *)

(** Without the nested form the WHERE slot ends up holding the filters
    followed by the cursor clause. *)
Lemma build_query_plain sp sq cs :
  where_param sq = None ->
  filter_conditions sp sq = Ok cs ->
  build_query sp sq =
    Ok (mkQuery (expanded sq) (orm.and (cs ++ cursor_clause sq))
          (page_order sq) (Some (page_size sq)) (page_cut sq)).
Proof.
  intros Hw Hcs. unfold build_query, page_cut. rewrite Hcs, Hw. simpl.
  destruct cs as [|c cs]; simpl.
  - destruct (cursor_clause sq); simpl; destruct (isCursor sq); reflexivity.
  - destruct (isCursor sq); reflexivity.
Qed.

(** With the nested form the WHERE slot ends up holding the clauses of
    that form and nothing else. *)
Lemma build_query_nested sp sq w cs conds :
  where_param sq = Some w ->
  filter_conditions sp sq = Ok cs ->
  where_conds w = Ok conds ->
  build_query sp sq =
    Ok (mkQuery (expanded sq) (orm.and conds)
          (page_order sq) (Some (page_size sq)) (page_cut sq)).
Proof.
  intros Hw Hcs Hconds. unfold build_query, page_cut.
  rewrite Hcs, Hw. simpl. rewrite Hconds. simpl.
  destruct cs; simpl; destruct (isCursor sq); reflexivity.
Qed.

Lemma passes_and r cs :
  passes (orm.and cs) r = forallb (holds r) cs.
Proof. destruct cs; reflexivity. Qed.

Lemma filter_ext_in_bool {A : Type} (f g : A -> bool) (l : list A) :
  (forall x, In x l -> f x = g x) -> filter f l = filter g l.
Proof.
  induction l as [|a l IH]; intros H; simpl; [reflexivity|].
  rewrite (H a) by (left; reflexivity).
  rewrite IH by (intros; apply H; right; assumption). reflexivity.
Qed.

Lemma matching_and db joins cs o l off :
  matching db (mkQuery joins (orm.and cs) o l off) =
  filter (fun r => forallb (holds r) cs) (db joins).
Proof.
  unfold matching. simpl. apply filter_ext_in_bool.
  intros; apply passes_and.
Qed.

Lemma collections_cursor_applied sp sq cs :
  Collections.filter_conditions sp sq = Ok cs ->
  incl (Collections.cursor_clause sq) cs.
Proof.
  unfold Collections.filter_conditions.
  destruct (concat_results
              (map (Collections.text_filter sp sq) Collections.text_fields));
    cbn [bind]; [|discriminate].
  destruct (number_filter sp sq "supply"); cbn [bind]; [|discriminate].
  intros [= <-]. intros c Hc. rewrite !in_app_iff. do 3 right. exact Hc.
Qed.

Lemma collections_build_query_plain sp sq cs :
  where_param sq = None ->
  Collections.filter_conditions sp sq = Ok cs ->
  exists cut,
    Collections.build_query sp sq
    = Ok (mkQuery [] (orm.and cs) [(direction_of sq, "created_at")]
            (Some (page_size sq)) cut).
Proof.
  intros Hw Hcs. unfold Collections.build_query.
  rewrite Hcs. cbn [bind]. rewrite Hw.
  destruct cs; cbn [bind]; destruct (truthy_opt (page_key sq));
    eexists; reflexivity.
Qed.

(** ** Requests that compile *)

Lemma concat_results_ok {A B : Type} (f : A -> result (list B))
  (l : list A) :
  (forall x, In x l -> exists ys, f x = Ok ys) ->
  exists cs, concat_results (map f l) = Ok cs.
Proof.
  induction l as [|a l IH]; intros H; [exists []; reflexivity|].
  destruct (H a (or_introl eq_refl)) as [ys Hys].
  destruct IH as [cs Hcs]; [intros x Hx; apply H; right; exact Hx|].
  simpl. rewrite Hys. cbn [bind]. rewrite Hcs. cbn [bind].
  eexists. reflexivity.
Qed.

Lemma number_filter_ok sp sq field :
  negb (has sp field)
  || match lookup field (numbers sq), lookup field sp with
     | Some val, Some raw => shaped raw val
     | _, _ => false
     end = true ->
  exists cs, number_filter sp sq field = Ok cs.
Proof.
  unfold number_filter. destruct (has sp field); [|eexists; reflexivity].
  destruct (lookup field (numbers sq)) as [val|]; [|discriminate].
  intros _.
  repeat match goal with
         | |- context [match ?v with _ => _ end] => destruct v
         end; eexists; reflexivity.
Qed.

Lemma text_filter_ok sp sq field :
  negb (has sp field)
  || match lookup field (texts sq) with
     | Some _ => true
     | None => false
     end = true ->
  exists cs, text_filter sp sq field = Ok cs.
Proof.
  unfold text_filter. destruct (has sp field); [|eexists; reflexivity].
  destruct (lookup field (texts sq)) as [val|]; [|discriminate].
  eexists; reflexivity.
Qed.

Lemma collections_text_filter_ok sp sq field :
  negb (has sp field)
  || match lookup field (texts sq) with
     | Some _ => true
     | None => false
     end = true ->
  exists cs, Collections.text_filter sp sq field = Ok cs.
Proof.
  unfold Collections.text_filter.
  destruct (has sp field); [|eexists; reflexivity].
  destruct (lookup field (texts sq)) as [val|]; [|discriminate].
  eexists; reflexivity.
Qed.

Lemma filter_conditions_ok sp sq :
  parsed sp sq number_fields text_fields = true ->
  exists cs, filter_conditions sp sq = Ok cs.
Proof.
  unfold parsed. intros H. apply andb_true_iff in H. destruct H as [Hn Ht].
  rewrite forallb_forall in Hn, Ht.
  destruct (concat_results_ok (number_filter sp sq) number_fields)
    as [nums Hnums];
    [intros x Hx; apply number_filter_ok, Hn, Hx|].
  destruct (concat_results_ok (text_filter sp sq) text_fields)
    as [txts Htxts];
    [intros x Hx; apply text_filter_ok, Ht, Hx|].
  unfold filter_conditions. rewrite Hnums. cbn [bind].
  rewrite Htxts. cbn [bind]. eexists. reflexivity.
Qed.

Lemma collections_filter_conditions_ok sp sq :
  parsed sp sq ["supply"] Collections.text_fields = true ->
  exists cs, Collections.filter_conditions sp sq = Ok cs.
Proof.
  unfold parsed. intros H. apply andb_true_iff in H. destruct H as [Hn Ht].
  rewrite forallb_forall in Hn, Ht.
  destruct (concat_results_ok (Collections.text_filter sp sq)
              Collections.text_fields) as [txts Htxts];
    [intros x Hx; apply collections_text_filter_ok, Ht, Hx|].
  destruct (number_filter_ok sp sq "supply") as [supply Hs];
    [apply Hn; left; reflexivity|].
  unfold Collections.filter_conditions. rewrite Htxts. cbn [bind].
  rewrite Hs. cbn [bind]. eexists. reflexivity.
Qed.

Lemma wildcard_replaceAll value : wildcard value = replaceAll "*" "%" value.
Proof.
  unfold wildcard. destruct (includes "*" value) eqn:E; [reflexivity|].
  induction value as [|a s IH]; [reflexivity|].
  simpl in E. apply orb_false_iff in E. destruct E as [Ea Es].
  simpl. rewrite Ea, <- (IH Es). reflexivity.
Qed.

(** The loop over the operators of one field gives one clause per
    operator, in order, or throws at the first name it does not find. *)
Lemma where_spec_named key spec :
  forallb
    (fun '(op, _) =>
       match orm.get op with
       | Some _ => true
       | None => false
       end) spec = true ->
  where_spec key spec = Ok (named_spec key spec).
Proof.
  induction spec as [|[op value] spec IH]; intros H; [reflexivity|].
  cbn [forallb] in H. apply andb_true_iff in H. destruct H as [Ho Hs].
  cbn [where_spec named_spec flat_map].
  destruct (orm.get op) as [f|]; [|discriminate].
  rewrite (IH Hs). cbn [bind]. rewrite wildcard_replaceAll. reflexivity.
Qed.

Lemma where_spec_inv key spec conds :
  where_spec key spec = Ok conds ->
  forallb
    (fun '(op, _) =>
       match orm.get op with
       | Some _ => true
       | None => false
       end) spec = true.
Proof.
  revert conds. induction spec as [|[op value] spec IH]; intros conds H;
    [reflexivity|].
  cbn [where_spec] in H. cbn [forallb].
  destruct (orm.get op) as [f|]; [|discriminate].
  destruct (where_spec key spec) as [rest|e]; cbn [bind] in H;
    [|discriminate].
  rewrite (IH rest eq_refl). reflexivity.
Qed.

Lemma where_conds_named w :
  operators_known w = true -> where_conds w = Ok (named_clauses w).
Proof.
  unfold where_conds, named_clauses.
  induction w as [|[key spec] w IH]; intros H; [reflexivity|].
  cbn [operators_known forallb] in H.
  apply andb_true_iff in H. destruct H as [Hs Hw].
  cbn [map concat_results flat_map].
  rewrite (where_spec_named key spec Hs). cbn [bind].
  rewrite (IH Hw). cbn [bind]. reflexivity.
Qed.

Lemma where_conds_inv w conds :
  where_conds w = Ok conds ->
  operators_known w = true /\ conds = named_clauses w.
Proof.
  intros H.
  assert (Hk : operators_known w = true).
  { revert conds H. unfold where_conds.
    induction w as [|[key spec] w IH]; intros conds H; [reflexivity|].
    cbn [map concat_results] in H. cbn [operators_known forallb].
    destruct (where_spec key spec) as [xs|e] eqn:Hs; cbn [bind] in H;
      [|discriminate].
    destruct (concat_results
                (map (fun '(key0, spec0) => where_spec key0 spec0) w))
      as [ys|e] eqn:Hw; cbn [bind] in H; [|discriminate].
    rewrite (where_spec_inv key spec xs Hs).
    exact (IH ys eq_refl). }
  split; [exact Hk|].
  rewrite (where_conds_named w Hk) in H. congruence.
Qed.

Lemma build_query_ok sp sq :
  parsed sp sq number_fields text_fields = true ->
  where_known sq = true ->
  exists q, build_query sp sq = Ok q.
Proof.
  intros Hp Hw. destruct (filter_conditions_ok sp sq Hp) as [cs Hcs].
  unfold build_query. rewrite Hcs. cbn [bind].
  unfold where_known in Hw.
  destruct (where_param sq) as [w|].
  - rewrite (where_conds_named w Hw). cbn [bind]. eexists. reflexivity.
  - destruct (cs ++ cursor_clause sq)%list; cbn [bind]; eexists;
      reflexivity.
Qed.

Lemma collections_build_query_ok sp sq :
  parsed sp sq ["supply"] Collections.text_fields = true ->
  where_known sq = true ->
  exists q, Collections.build_query sp sq = Ok q.
Proof.
  intros Hp Hw.
  destruct (collections_filter_conditions_ok sp sq Hp) as [cs Hcs].
  unfold Collections.build_query. rewrite Hcs. cbn [bind].
  unfold where_known in Hw.
  destruct (where_param sq) as [w|].
  - rewrite (where_conds_named w Hw). cbn [bind]. eexists. reflexivity.
  - destruct cs; cbn [bind]; eexists; reflexivity.
Qed.

(** ** Nested where form against top-level filters *)

(** C1, as stated, fails: with the top-level filter [creator=x], the
    cursor [5_0] and a nested filter on [id], the executed WHERE holds the
    nested clause alone, and the page delivers a row of another creator
    that also lies before the cursor. *)
Lemma C1_counterexample :
  filter_conditions c1_params c1_query = Ok [orm.eq "creator" (JStr "x")]
  /\ cursor_clause c1_query =
       [RowGt "block_number" "transaction_index" (Some 5) (Some 0)]
  /\ exists q resp,
       Ethscriptions.GET c1_params c1_query c1_db = mkOutcome [q] (Ok resp)
       /\ q_where q = Some (And [orm.like "id" (JStr "%")])
       /\ ~ (forall r, In (JObj r) (data resp) ->
              holds r (orm.eq "creator" (JStr "x")) = true)
       /\ ~ (forall r, In (JObj r) (data resp) ->
              holds r (RowGt "block_number" "transaction_index"
                         (Some 5) (Some 0)) = true).
Proof.
  split; [reflexivity|]. split; [reflexivity|].
  eexists. eexists. split; [vm_compute; reflexivity|].
  split; [reflexivity|].
  split; intros H;
    specialize (H (ethscription "b" 1 0 "y"));
    (assert (Hin : In (JObj (ethscription "b" 1 0 "y"))
                     [JObj (ethscription "b" 1 0 "y");
                      JObj (ethscription "a" 7 0 "x")])
       by (left; reflexivity));
    specialize (H Hin); vm_compute in H; discriminate.
Qed.

(** C1, amended: when a request carries the nested where form, the WHERE
    clause of the executed statement is exactly the conjunction of the
    clauses of that form, one per field and operator in request order;
    the condition list built from the top-level filters and the cursor is
    not applied, and the rows considered are those that pass the nested
    clauses. *)
Theorem C1_nested_where_replaces_conditions sp sq w cs conds db :
  where_param sq = Some w ->
  filter_conditions sp sq = Ok cs ->
  where_conds w = Ok conds ->
  exists q,
    build_query sp sq = Ok q
    /\ statements (Ethscriptions.GET sp sq db) = [q]
    /\ q_where q = orm.and conds
    /\ matching db q =
         filter (fun r => forallb (holds r) conds) (db (expanded sq)).
Proof.
  intros Hw Hcs Hconds.
  pose proof (build_query_nested sp sq w cs conds Hw Hcs Hconds) as Hq.
  eexists. split; [exact Hq|].
  split; [unfold Ethscriptions.GET; rewrite Hq; reflexivity|].
  split; [reflexivity|]. apply matching_and.
Qed.

Lemma C1_nested_where_replaces_conditions_witness :
  exists q,
    build_query c1_params c1_query = Ok q
    /\ statements (Ethscriptions.GET c1_params c1_query c1_db) = [q]
    /\ q_where q = orm.and [orm.like "id" (JStr "%")]
    /\ matching c1_db q =
         filter (fun r => forallb (holds r) [orm.like "id" (JStr "%")])
           (c1_db (expanded c1_query)).
Proof.
  apply (C1_nested_where_replaces_conditions c1_params c1_query
           [("id", [("like", "*")])] [orm.eq "creator" (JStr "x")]
           [orm.like "id" (JStr "%")] c1_db); reflexivity.
Defined.

(** ** The total of the pagination metadata *)

Lemma first_total_run db q :
  first_total (run db q) =
    match run db q with
    | [] => 0
    | _ => Z.of_nat (List.length (matching db q))
    end.
Proof.
  unfold run.
  destruct (take_limit (q_limit q)
              (drop_offset (q_offset q)
                 (sort_rows (q_orderBy q) (matching db q))));
    reflexivity.
Qed.

Lemma meta_total_ethscriptions b t sq results :
  meta_total (ethscriptions_meta b t sq results) = t.
Proof. unfold ethscriptions_meta. destruct (isCursor sq); reflexivity. Qed.

Lemma meta_total_collections t sq res :
  meta_total (Collections.meta t sq res) = t.
Proof.
  unfold Collections.meta. destruct (truthy_opt (page_key sq)); reflexivity.
Qed.

(** C2, as stated, fails on both counts.  In the handler that selects
    the window count with the page, a page past the end reports total 0
    although one row satisfies the (empty) filter set; in the handler that
    counts in a statement of its own, two statements reach the store and
    the total is the size of the table, not of the filtered set. *)
Lemma C2_counterexample :
  (exists q resp,
     Ethscriptions.GET [] c2_query c2_db = mkOutcome [q] (Ok resp)
     /\ List.length (matching c2_db q) = 1%nat
     /\ meta_total (pagination resp) = 0)
  /\ (exists q0 q resp,
        EthscriptionsCount.GET c2_params c2_filtered c2_rows =
          mkOutcome [q0; q] (Ok resp)
        /\ List.length (matching c2_rows q) = 1%nat
        /\ meta_total (pagination resp) = 2).
Proof.
  split.
  - eexists. eexists. split; [vm_compute; reflexivity|].
    split; reflexivity.
  - eexists. eexists. eexists. split; [vm_compute; reflexivity|].
    split; reflexivity.
Qed.

(** C2, amended: the first ethscriptions handler and the collections
    handler send one statement, and the total they report is read from
    the first row of the page: it is the number of rows passing the WHERE
    clause of that statement when the page is not empty, and 0 when it
    is. *)
Theorem C2_total_is_window_count sp sq db q cq :
  build_query sp sq = Ok q ->
  Collections.build_query sp sq = Ok cq ->
  (statements (Ethscriptions.GET sp sq db) = [q]
   /\ forall resp,
        reply (Ethscriptions.GET sp sq db) = Ok resp ->
        meta_total (pagination resp) =
          match run db q with
          | [] => 0
          | _ => Z.of_nat (List.length (matching db q))
          end)
  /\ (statements (Collections.GET sp sq db) = [cq]
      /\ forall resp,
           reply (Collections.GET sp sq db) = Ok resp ->
           meta_total (pagination resp) =
             match run db cq with
             | [] => 0
             | _ => Z.of_nat (List.length (matching db cq))
             end).
Proof.
  intros Hq Hcq. split.
  - unfold Ethscriptions.GET. rewrite Hq. simpl. split; [reflexivity|].
    intros resp.
    destruct (project (include sq) (exclude sq) (map item (run db q)));
      simpl; intros H; inversion H; subst; simpl.
    rewrite meta_total_ethscriptions. apply first_total_run.
  - unfold Collections.GET. rewrite Hcq. simpl. split; [reflexivity|].
    intros resp. unfold withIncludesExcludes.
    destruct (project (include sq) (exclude sq) (map item (run db cq)));
      simpl; intros H; inversion H; subst; simpl.
    rewrite meta_total_collections. apply first_total_run.
Qed.

Lemma C2_total_is_window_count_witness :
  exists q cq,
    build_query c2_params c2_filtered = Ok q
    /\ Collections.build_query c2_params c2_filtered = Ok cq
    /\ (statements (Ethscriptions.GET c2_params c2_filtered c2_rows) = [q]
        /\ forall resp,
             reply (Ethscriptions.GET c2_params c2_filtered c2_rows)
               = Ok resp ->
             meta_total (pagination resp) =
               match run c2_rows q with
               | [] => 0
               | _ => Z.of_nat (List.length (matching c2_rows q))
               end)
    /\ (statements (Collections.GET c2_params c2_filtered c2_rows) = [cq]
        /\ forall resp,
             reply (Collections.GET c2_params c2_filtered c2_rows)
               = Ok resp ->
             meta_total (pagination resp) =
               match run c2_rows cq with
               | [] => 0
               | _ => Z.of_nat (List.length (matching c2_rows cq))
               end).
Proof.
  eexists. eexists.
  split; [vm_compute; reflexivity|].
  split; [vm_compute; reflexivity|].
  apply (C2_total_is_window_count c2_params c2_filtered c2_rows);
    reflexivity.
Defined.

(** ** The metadata and the offset in page mode *)

Lemma ceil_div_bounds a b :
  0 < b -> (ceil_div a b - 1) * b < a <= ceil_div a b * b.
Proof.
  intros Hb. unfold ceil_div.
  pose proof (Z.div_mod (- a) b ltac:(lia)) as Hdm.
  pose proof (Z.mod_pos_bound (- a) b Hb) as Hm.
  nia.
Qed.

Lemma truthy_has_next t sq :
  1 <= page sq ->
  truthy_num (has_next t sq) = true <-> has_next t sq <> None.
Proof.
  intros Hp. unfold has_next.
  destruct (page_offset sq + page_size sq <? t); simpl.
  - destruct (Z.eqb_spec (page sq + 1) 0); [lia|]. split; [discriminate|auto].
  - split; [discriminate|intros H; contradiction H; reflexivity].
Qed.

Lemma ethscriptions_meta_page b t sq results :
  isCursor sq = false -> 1 <= page sq -> 1 <= page_size sq ->
  page_meta_ok sq (ethscriptions_meta b t sq results).
Proof.
  intros Hc Hp Hs. unfold ethscriptions_meta. rewrite Hc.
  do 6 eexists. split; [reflexivity|].
  split; [apply ceil_div_bounds; lia|].
  split; [reflexivity|].
  split.
  - unfold has_next, page_offset. unfold isCursor in Hc. rewrite Hc.
    reflexivity.
  - apply truthy_has_next; assumption.
Qed.

Lemma collections_meta_page t sq res :
  isCursor sq = false -> 1 <= page sq -> 1 <= page_size sq ->
  page_meta_ok sq (Collections.meta t sq res).
Proof.
  intros Hc Hp Hs. unfold Collections.meta. unfold isCursor in Hc.
  rewrite Hc.
  do 6 eexists. split; [reflexivity|].
  split; [apply ceil_div_bounds; lia|].
  split; [reflexivity|].
  split.
  - unfold has_next, page_offset. rewrite Hc. reflexivity.
  - apply truthy_has_next; assumption.
Qed.

Lemma build_query_offset sp sq q :
  isCursor sq = false ->
  build_query sp sq = Ok q ->
  q_offset q = Some ((page sq - 1) * page_size sq).
Proof.
  intros Hc. unfold build_query.
  destruct (filter_conditions sp sq) as [cs|e]; simpl; [|discriminate].
  rewrite Hc.
  match goal with
  | |- (bind ?m _) = _ -> _ => destruct m as [q'|e']; simpl; [|discriminate]
  end.
  intros H; inversion H; subst; simpl.
  unfold page_offset. unfold isCursor in Hc. rewrite Hc. reflexivity.
Qed.

Lemma collections_build_query_offset sp sq q :
  isCursor sq = false ->
  Collections.build_query sp sq = Ok q ->
  q_offset q = Some ((page sq - 1) * page_size sq).
Proof.
  intros Hc. unfold Collections.build_query. unfold isCursor in Hc.
  destruct (Collections.filter_conditions sp sq) as [cs|e]; simpl;
    [|discriminate].
  rewrite Hc.
  match goal with
  | |- (bind ?m _) = _ -> _ => destruct m as [q'|e']; simpl; [|discriminate]
  end.
  intros H; inversion H; subst; simpl.
  unfold page_offset. rewrite Hc. reflexivity.
Qed.

(** ** The verified flag of the collections listing *)

Lemma collections_conditions_flags sp sq f :
  lookup "verified" f <> Some true ->
  Collections.filter_conditions sp (with_flags sq f) =
  Collections.filter_conditions sp (with_flags sq []).
Proof.
  intros Hf. unfold Collections.filter_conditions.
  assert (Hv : Collections.verified_filter (with_flags sq f) = []).
  { unfold Collections.verified_filter. simpl.
    destruct (lookup "verified" f) as [[|]|]; try reflexivity.
    contradiction Hf; reflexivity. }
  rewrite Hv. reflexivity.
Qed.

(** C10: on the collections listing the [verified] filter contributes a
    clause only when its parsed value is true.  A request with
    [verified=false] builds the statement of the request without the
    parameter and gets the same reply, so verified and unverified rows
    come back together. *)
Theorem C10_verified_false_not_filtered sp sq db f :
  lookup "verified" f <> Some true ->
  Collections.verified_filter (with_flags sq f) = []
  /\ Collections.GET sp (with_flags sq f) db
     = Collections.GET sp (with_flags sq []) db
  /\ Collections.verified_filter (with_flags sq [("verified", true)])
     = [orm.eq "verified" (JBool true)]
  /\ exists q resp,
       Collections.GET [("verified", "false")]
         (with_flags (plain_request 1 10 None "asc") [("verified", false)])
         c10_db = mkOutcome [q] (Ok resp)
       /\ q_where q = None
       /\ data resp = [JObj (collection "a" 1 true);
                       JObj (collection "b" 2 false)].
Proof.
  intros Hf. split; [|split; [|split]].
  - unfold Collections.verified_filter. simpl.
    destruct (lookup "verified" f) as [[|]|]; try reflexivity.
    contradiction Hf; reflexivity.
  - unfold Collections.GET, Collections.build_query.
    rewrite (collections_conditions_flags sp sq f Hf). reflexivity.
  - reflexivity.
  - eexists. eexists. split; [vm_compute; reflexivity|].
    split; reflexivity.
Qed.

Lemma C10_verified_false_not_filtered_witness :
  Collections.verified_filter
    (with_flags (plain_request 1 10 None "asc") [("verified", false)]) = []
  /\ Collections.GET [("verified", "false")]
       (with_flags (plain_request 1 10 None "asc") [("verified", false)])
       c10_db
     = Collections.GET [("verified", "false")]
         (with_flags (plain_request 1 10 None "asc") []) c10_db
  /\ Collections.verified_filter
       (with_flags (plain_request 1 10 None "asc") [("verified", true)])
     = [orm.eq "verified" (JBool true)]
  /\ exists q resp,
       Collections.GET [("verified", "false")]
         (with_flags (plain_request 1 10 None "asc") [("verified", false)])
         c10_db = mkOutcome [q] (Ok resp)
       /\ q_where q = None
       /\ data resp = [JObj (collection "a" 1 true);
                       JObj (collection "b" 2 false)].
Proof.
  apply (C10_verified_false_not_filtered [("verified", "false")]
           (plain_request 1 10 None "asc") c10_db [("verified", false)]).
  simpl. discriminate.
Defined.

(** ** The tri-state filter on [collection_id] *)

Lemma incl_concat_results {A B : Type} (f : A -> result (list B))
  (l : list A) (x : A) (ys cs : list B) :
  concat_results (map f l) = Ok cs -> In x l -> f x = Ok ys -> incl ys cs.
Proof.
  revert cs. induction l as [|a l IH]; intros cs Hc Hin Hx; [contradiction|].
  simpl in Hc.
  destruct (f a) as [xs|e] eqn:Ha; simpl in Hc; [|discriminate].
  destruct (concat_results (map f l)) as [zs|e] eqn:Hl; simpl in Hc;
    [|discriminate].
  inversion Hc; subst.
  destruct Hin as [->|Hin].
  - rewrite Hx in Ha. inversion Ha; subst. apply incl_appl, incl_refl.
  - apply incl_appr. eapply IH; eauto.
Qed.

Lemma collection_id_applied sp sq cs :
  filter_conditions sp sq = Ok cs -> incl (collection_id_filter sq) cs.
Proof.
  unfold filter_conditions.
  destruct (concat_results (map (number_filter sp sq) number_fields));
    cbn [bind]; [|discriminate].
  destruct (concat_results (map (text_filter sp sq) text_fields));
    cbn [bind]; [|discriminate].
  intros H; inversion H; subst.
  apply incl_appr, incl_appl, incl_refl.
Qed.

(** C7: a request that filters on [collection_id] compiles the value
    ["true"] to an IS NOT NULL clause, the values ["false"] and ["null"]
    to an IS NULL clause, and any other (non-empty) literal to an equality
    on the literal, or to a pattern match on the literal with its stars
    turned into percent signs when it holds a star; the clause is part of
    the condition list, and the two null tests select the rows whose
    field is not null, respectively null. *)
Theorem C7_collection_id_tristate sp sq v :
  truthy_str v = true ->
  collection_id_filter (with_collection_id sq (Some "true"))
    = [IsNotNull "collection_id"]
  /\ collection_id_filter (with_collection_id sq (Some "false"))
     = [IsNull "collection_id"]
  /\ collection_id_filter (with_collection_id sq (Some "null"))
     = [IsNull "collection_id"]
  /\ (v <> "true" -> v <> "false" -> v <> "null" ->
      collection_id_filter (with_collection_id sq (Some v))
      = [if includes "*" v
         then orm.like "collection_id" (JStr (replaceAll "*" "%" v))
         else orm.eq "collection_id" (JStr v)])
  /\ (forall cs,
        filter_conditions sp (with_collection_id sq (Some v)) = Ok cs ->
        incl (collection_id_filter (with_collection_id sq (Some v))) cs)
  /\ (forall r, holds r (IsNotNull "collection_id") = true
                <-> column r "collection_id" <> SNull)
  /\ (forall r, holds r (IsNull "collection_id") = true
                <-> column r "collection_id" = SNull).
Proof.
  intros Hv. repeat split; try reflexivity.
  - intros Ht Hf Hn. unfold collection_id_filter. simpl. rewrite Hv.
    destruct (String.eqb_spec v "true"); [contradiction|].
    destruct (String.eqb_spec v "false"); [contradiction|].
    destruct (String.eqb_spec v "null"); [contradiction|].
    simpl. unfold text_clause, wildcard.
    destruct (includes "*" v); reflexivity.
  - intros cs. apply collection_id_applied.
  - simpl. destruct (column r "collection_id"); congruence.
  - simpl. destruct (column r "collection_id"); congruence.
  - simpl. destruct (column r "collection_id"); congruence.
  - simpl. destruct (column r "collection_id"); congruence.
Qed.

Lemma C7_collection_id_tristate_witness :
  collection_id_filter
    (with_collection_id (plain_request 1 10 None "asc") (Some "true"))
    = [IsNotNull "collection_id"]
  /\ collection_id_filter
       (with_collection_id (plain_request 1 10 None "asc") (Some "false"))
     = [IsNull "collection_id"]
  /\ collection_id_filter
       (with_collection_id (plain_request 1 10 None "asc") (Some "null"))
     = [IsNull "collection_id"]
  /\ ("0xab*" <> "true" -> "0xab*" <> "false" -> "0xab*" <> "null" ->
      collection_id_filter
        (with_collection_id (plain_request 1 10 None "asc") (Some "0xab*"))
      = [if includes "*" "0xab*"
         then orm.like "collection_id" (JStr (replaceAll "*" "%" "0xab*"))
         else orm.eq "collection_id" (JStr "0xab*")])
  /\ (forall cs,
        filter_conditions []
          (with_collection_id (plain_request 1 10 None "asc")
             (Some "0xab*")) = Ok cs ->
        incl (collection_id_filter
                (with_collection_id (plain_request 1 10 None "asc")
                   (Some "0xab*"))) cs)
  /\ (forall r, holds r (IsNotNull "collection_id") = true
                <-> column r "collection_id" <> SNull)
  /\ (forall r, holds r (IsNull "collection_id") = true
                <-> column r "collection_id" = SNull).
Proof.
  apply (C7_collection_id_tristate []
           (plain_request 1 10 None "asc") "0xab*").
  reflexivity.
Defined.

(** ** Wildcards in text filters *)

Lemma lower_ascii_idem a : lower_ascii (lower_ascii a) = lower_ascii a.
Proof. destruct a as [[|] [|] [|] [|] [|] [|] [|] [|]]; reflexivity. Qed.

Lemma lower_ascii_star a :
  Ascii.eqb (lower_ascii a) "*" = Ascii.eqb a "*".
Proof. destruct a as [[|] [|] [|] [|] [|] [|] [|] [|]]; reflexivity. Qed.

Lemma toLowerCase_idem s : toLowerCase (toLowerCase s) = toLowerCase s.
Proof.
  induction s as [|a s IH]; simpl; [reflexivity|].
  rewrite lower_ascii_idem, IH. reflexivity.
Qed.

Lemma includes_star_lower s :
  includes "*" (toLowerCase s) = includes "*" s.
Proof.
  induction s as [|a s IH]; simpl; [reflexivity|].
  rewrite lower_ascii_star, IH. reflexivity.
Qed.

Lemma replaceAll_lower s :
  toLowerCase (replaceAll "*" "%" s) = replaceAll "*" "%" (toLowerCase s).
Proof.
  induction s as [|a s IH]; simpl; [reflexivity|].
  rewrite IH, lower_ascii_star.
  destruct (Ascii.eqb a "*"); reflexivity.
Qed.

Lemma wildcard_lower s : toLowerCase (wildcard s) = wildcard (toLowerCase s).
Proof.
  unfold wildcard. rewrite includes_star_lower.
  destruct (includes "*" s); [apply replaceAll_lower|reflexivity].
Qed.

Lemma replaceAll_absent c d s :
  includes c s = false -> replaceAll c d s = s.
Proof.
  induction s as [|a s IH]; intros H; [reflexivity|].
  simpl in H. apply orb_false_iff in H. destruct H as [Ha Hs].
  simpl. rewrite Ha, (IH Hs). reflexivity.
Qed.

Lemma replaceAll_removes c d s :
  c <> d -> includes c (replaceAll c d s) = false.
Proof.
  intros Hcd. induction s as [|a s IH]; simpl; [reflexivity|].
  rewrite IH, orb_false_r.
  destruct (Ascii.eqb_spec a c) as [->|Hac].
  - apply Ascii.eqb_neq. congruence.
  - apply Ascii.eqb_neq. assumption.
Qed.

Lemma text_filter_applied sp sq field value cs :
  In field text_fields ->
  has sp field = true ->
  lookup field (texts sq) = Some value ->
  filter_conditions sp sq = Ok cs ->
  In (text_clause field value) cs.
Proof.
  intros Hin Hhas Hval. unfold filter_conditions.
  destruct (concat_results (map (number_filter sp sq) number_fields));
    cbn [bind]; [|discriminate].
  destruct (concat_results (map (text_filter sp sq) text_fields))
    as [txts|e] eqn:Ht; cbn [bind]; [|discriminate].
  intros H; inversion H; subst.
  apply in_or_app; right. apply in_or_app; right. apply in_or_app; left.
  eapply (incl_concat_results _ _ field [text_clause field value]);
    eauto.
  - unfold text_filter. rewrite Hhas, Hval. reflexivity.
  - left; reflexivity.
Qed.

Lemma collections_text_filter_clause sp sq field value :
  has sp field = true ->
  lookup field (texts sq) = Some value ->
  Collections.text_filter sp sq field
  = Ok [text_clause field (slug_folded field value)].
Proof.
  intros Hhas Hval.
  unfold Collections.text_filter, slug_folded, text_clause.
  rewrite Hhas, Hval.
  destruct (String.eqb field "slug"); [rewrite wildcard_lower|];
    reflexivity.
Qed.

Lemma collections_text_filter_applied sp sq field value cs :
  In field Collections.text_fields ->
  has sp field = true ->
  lookup field (texts sq) = Some value ->
  Collections.filter_conditions sp sq = Ok cs ->
  In (text_clause field (slug_folded field value)) cs.
Proof.
  intros Hin Hhas Hval. unfold Collections.filter_conditions.
  destruct (concat_results
              (map (Collections.text_filter sp sq) Collections.text_fields))
    as [txts|e] eqn:Ht; cbn [bind]; [|discriminate].
  destruct (number_filter sp sq "supply"); cbn [bind]; [|discriminate].
  intros H; inversion H; subst.
  apply in_or_app; left.
  eapply (incl_concat_results _ _ field
            [text_clause field (slug_folded field value)]); eauto.
  - apply collections_text_filter_clause; assumption.
  - left; reflexivity.
Qed.

(** C6, as stated, fails in the nested form: the operator is the one
    the request names.  [where[content_sha][eq]=0xF591*] compiles to an
    equality with the translated text, which a row with that prefix does
    not pass, and [where[content_sha][like]=0xF591] compiles to a pattern
    match although the value holds no star. *)
Lemma C6_counterexample :
  build_query [] (where_request [("content_sha", [("eq", "0xF591*")])])
    = Ok (mkQuery [] (Some (And [orm.eq "content_sha" (JStr "0xF591%")]))
            [(Asc, "block_number"); (Asc, "transaction_index")]
            (Some 10) (Some 0))
  /\ holds (sha_row "0xF591AB") (orm.eq "content_sha" (JStr "0xF591%"))
     = false
  /\ build_query [] (where_request [("content_sha", [("like", "0xF591")])])
     = Ok (mkQuery [] (Some (And [orm.like "content_sha" (JStr "0xF591")]))
             [(Asc, "block_number"); (Asc, "transaction_index")]
             (Some 10) (Some 0)).
Proof. repeat split. Qed.

(** C6, amended: a top-level text filter of the ethscriptions or of the
    collections listing whose value holds a star compiles to a
    pattern-match clause on the value with every star turned into a
    percent sign, and to an equality on the value when it holds none; the
    collections listing takes the slug in lower case, which leaves its
    stars in place; for a request whose raw filter parameters all have a
    parsed value the clause is part of the condition list, and without a
    nested form it is part of the WHERE clause of the statement.  In the
    nested form every field and operator gives one clause, in request
    order, built with the operator the request names on the value with
    every star turned into a percent sign; these clauses alone make the
    WHERE clause of the ethscriptions statement. *)
Theorem C6_wildcard_text_filter sp sq field value :
  has sp field = true ->
  lookup field (texts sq) = Some value ->
  (forall f v,
     includes "*" v = true ->
     text_clause f v = orm.like f (JStr (replaceAll "*" "%" v))
     /\ includes "*" (replaceAll "*" "%" v) = false)
  /\ (forall f v,
        includes "*" v = false -> text_clause f v = orm.eq f (JStr v))
  /\ (In field text_fields ->
      parsed sp sq number_fields text_fields = true ->
      exists cs,
        filter_conditions sp sq = Ok cs
        /\ In (text_clause field value) cs)
  /\ (In field text_fields ->
      parsed sp sq number_fields text_fields = true ->
      where_param sq = None ->
      exists q cs,
        build_query sp sq = Ok q
        /\ q_where q = Some (And cs)
        /\ In (text_clause field value) cs)
  /\ includes "*" (slug_folded field value) = includes "*" value
  /\ (In field Collections.text_fields ->
      parsed sp sq ["supply"] Collections.text_fields = true ->
      exists cs,
        Collections.filter_conditions sp sq = Ok cs
        /\ In (text_clause field (slug_folded field value)) cs)
  /\ (In field Collections.text_fields ->
      parsed sp sq ["supply"] Collections.text_fields = true ->
      where_param sq = None ->
      exists q cs,
        Collections.build_query sp sq = Ok q
        /\ q_where q = Some (And cs)
        /\ In (text_clause field (slug_folded field value)) cs)
  /\ (forall w,
        operators_known w = true -> where_conds w = Ok (named_clauses w))
  /\ (forall w conds,
        where_conds w = Ok conds ->
        operators_known w = true /\ conds = named_clauses w)
  /\ (forall sp' sq' w,
        where_param sq' = Some w ->
        operators_known w = true ->
        parsed sp' sq' number_fields text_fields = true ->
        exists q,
          build_query sp' sq' = Ok q
          /\ q_where q = orm.and (named_clauses w)).
Proof.
  intros Hhas Hval.
  split.
  { intros f v Hs. unfold text_clause, wildcard. rewrite Hs.
    split; [reflexivity|]. apply replaceAll_removes. discriminate. }
  split.
  { intros f v Hs. unfold text_clause, wildcard. rewrite Hs. reflexivity. }
  split.
  { intros Hin Hp. destruct (filter_conditions_ok sp sq Hp) as [cs Hcs].
    exists cs. split; [exact Hcs|]. eapply text_filter_applied; eauto. }
  split.
  { intros Hin Hp Hw. destruct (filter_conditions_ok sp sq Hp) as [cs Hcs].
    pose proof (text_filter_applied sp sq field value cs Hin Hhas Hval Hcs)
      as Hc.
    eexists. exists (cs ++ cursor_clause sq)%list.
    split; [apply (build_query_plain sp sq cs Hw Hcs)|].
    split.
    - cbn [q_where]. destruct cs as [|c cs]; [contradiction|reflexivity].
    - apply in_or_app. left. exact Hc. }
  split.
  { unfold slug_folded. destruct (String.eqb field "slug");
      [apply includes_star_lower|reflexivity]. }
  split.
  { intros Hin Hp.
    destruct (collections_filter_conditions_ok sp sq Hp) as [cs Hcs].
    exists cs. split; [exact Hcs|].
    eapply collections_text_filter_applied; eauto. }
  split.
  { intros Hin Hp Hw.
    destruct (collections_filter_conditions_ok sp sq Hp) as [cs Hcs].
    pose proof (collections_text_filter_applied sp sq field value cs
                  Hin Hhas Hval Hcs) as Hc.
    destruct (collections_build_query_plain sp sq cs Hw Hcs) as [cut Hq].
    eexists. exists cs. split; [exact Hq|].
    split; [|exact Hc].
    cbn [q_where]. destruct cs as [|c cs]; [contradiction|reflexivity]. }
  split; [exact where_conds_named|].
  split; [exact where_conds_inv|].
  intros sp' sq' w Hw Hk Hp.
  destruct (filter_conditions_ok sp' sq' Hp) as [cs Hcs].
  eexists. split.
  - apply (build_query_nested sp' sq' w cs (named_clauses w) Hw Hcs).
    apply where_conds_named. exact Hk.
  - reflexivity.
Qed.

Lemma C6_wildcard_text_filter_witness :
  (exists q cs,
     build_query [("content_sha", "0xF591*")]
       (text_request "content_sha" "0xF591*") = Ok q
     /\ q_where q = Some (And cs)
     /\ In (orm.like "content_sha" (JStr "0xF591%")) cs)
  /\ (exists q cs,
        Collections.build_query [("slug", "My-*")]
          (text_request "slug" "My-*") = Ok q
        /\ q_where q = Some (And cs)
        /\ In (orm.like "slug" (JStr "my-%")) cs)
  /\ (exists q,
        build_query []
          (where_request
             [("content_sha", [("eq", "0xF591*"); ("like", "*AB")]);
              ("creator", [("ne", "0x0")])]) = Ok q
        /\ q_where q =
             Some (And [orm.eq "content_sha" (JStr "0xF591%");
                        orm.like "content_sha" (JStr "%AB");
                        orm.ne "creator" (JStr "0x0")])).
Proof.
  split; [|split].
  - destruct (C6_wildcard_text_filter [("content_sha", "0xF591*")]
                (text_request "content_sha" "0xF591*")
                "content_sha" "0xF591*" eq_refl eq_refl)
      as (_ & _ & _ & H & _).
    apply H; [simpl; tauto|reflexivity|reflexivity].
  - destruct (C6_wildcard_text_filter [("slug", "My-*")]
                (text_request "slug" "My-*") "slug" "My-*" eq_refl eq_refl)
      as (_ & _ & _ & _ & _ & _ & H & _).
    apply H; [simpl; tauto|reflexivity|reflexivity].
  - destruct (C6_wildcard_text_filter [("slug", "My-*")]
                (text_request "slug" "My-*") "slug" "My-*" eq_refl eq_refl)
      as (_ & _ & _ & _ & _ & _ & _ & _ & _ & H).
    apply (H []
             (where_request
                [("content_sha", [("eq", "0xF591*"); ("like", "*AB")]);
                 ("creator", [("ne", "0x0")])])
             [("content_sha", [("eq", "0xF591*"); ("like", "*AB")]);
              ("creator", [("ne", "0x0")])]); reflexivity.
Defined.

(** ** Unknown operators in the nested form *)

Lemma where_issues_unknown w field spec op value :
  In (field, spec) w -> In (op, value) spec -> recognized op = false ->
  In (mkIssue "invalid_operator"
        ("Unknown operator " ++ op ++ " on field " ++ field)
        ["where"; field; op])
     (where_issues w).
Proof.
  intros Hw Hs Hr. unfold where_issues.
  apply in_flat_map. exists (field, spec). split; [assumption|].
  apply in_flat_map. exists (op, value). split; [assumption|].
  rewrite Hr. left; reflexivity.
Qed.

(** C9: a request whose nested where form names an operator outside
    the recognized set is answered with a validation error that holds an
    issue naming the field and the operator; the handler is not called,
    so no statement reaches the store and no operator is looked up. *)
Theorem C9_unknown_operator_rejected handler sp sq db w field spec op value :
  where_param sq = Some w ->
  In (field, spec) w ->
  In (op, value) spec ->
  recognized op = false ->
  exists issues,
    withValidation handler sp sq db = Rejected 400 issues
    /\ In (mkIssue "invalid_operator"
             ("Unknown operator " ++ op ++ " on field " ++ field)
             ["where"; field; op]) issues
    /\ store_accesses (withValidation handler sp sq db) = [].
Proof.
  intros Hw Hf Hs Hr.
  pose proof (where_issues_unknown w field spec op value Hf Hs Hr) as Hin.
  unfold withValidation. rewrite Hw.
  destruct (where_issues w) as [|i rest] eqn:Hi; [contradiction|].
  exists (i :: rest). repeat split. assumption.
Qed.

Lemma C9_unknown_operator_rejected_witness :
  exists issues,
    withValidation Ethscriptions.GET []
      (where_request [("content_sha", [("regexp", "a")])]) (table [])
      = Rejected 400 issues
    /\ In (mkIssue "invalid_operator"
             ("Unknown operator " ++ "regexp" ++ " on field " ++ "content_sha")
             ["where"; "content_sha"; "regexp"]) issues
    /\ store_accesses
         (withValidation Ethscriptions.GET []
            (where_request [("content_sha", [("regexp", "a")])]) (table []))
       = [].
Proof.
  apply (C9_unknown_operator_rejected Ethscriptions.GET []
           (where_request [("content_sha", [("regexp", "a")])]) (table [])
           [("content_sha", [("regexp", "a")])]
           "content_sha" [("regexp", "a")] "regexp" "a").
  - reflexivity.
  - left; reflexivity.
  - left; reflexivity.
  - reflexivity.
Defined.

(** The handler alone looks the operator up by name: without the
    validation in front of it a name such as [ne] reaches the store. *)
Lemma nested_dispatch_is_by_name :
  recognized "ne" = false
  /\ build_query [] (where_request [("creator", [("ne", "x")])])
     = Ok (mkQuery [] (Some (And [orm.ne "creator" (JStr "x")]))
             [(Asc, "block_number"); (Asc, "transaction_index")]
             (Some 10) (Some 0)).
Proof. split; reflexivity. Qed.

(** ** The keyset clause *)

Lemma row_gt_int x y a b :
  row_gt (SInt x) (SInt y) (SInt a) (SInt b) = true
  <-> a < x \/ (a = x /\ b < y).
Proof.
  unfold row_gt. simpl.
  destruct (Z.compare_spec x a); destruct (Z.compare_spec y b);
    split; intros Hyp; try discriminate; try reflexivity; lia.
Qed.

Lemma row_lt_int x y a b :
  row_lt (SInt x) (SInt y) (SInt a) (SInt b) = true
  <-> x < a \/ (x = a /\ y < b).
Proof.
  unfold row_lt. simpl.
  destruct (Z.compare_spec x a); destruct (Z.compare_spec y b);
    split; intros Hyp; try discriminate; try reflexivity; lia.
Qed.

Lemma holds_keyset d a b r x y :
  column r "block_number" = SInt x ->
  column r "transaction_index" = SInt y ->
  holds r (keyset d a b) = true <-> beyond d a b x y.
Proof.
  intros Hx Hy. destruct d; simpl; rewrite Hx, Hy; simpl.
  - apply row_gt_int.
  - apply row_lt_int.
Qed.

Lemma cursor_clause_decoded sq key a b :
  page_key sq = Some key -> truthy_str key = true ->
  decode_cursor key = (Some a, Some b) ->
  cursor_clause sq = [keyset (direction_of sq) a b].
Proof.
  intros Hk Ht Hd. unfold cursor_clause, isCursor. rewrite Hk. simpl.
  rewrite Ht, Hd. destruct (direction_of sq); reflexivity.
Qed.

Lemma matching_holds db q cs c r :
  q_where q = Some (And (cs ++ [c])) ->
  In r (matching db q) -> holds r c = true.
Proof.
  intros Hw Hin. unfold matching in Hin. apply filter_In in Hin.
  destruct Hin as [_ Hp]. rewrite Hw in Hp. simpl in Hp.
  rewrite forallb_app in Hp. apply andb_true_iff in Hp.
  destruct Hp as [_ Hp]. simpl in Hp. rewrite andb_true_r in Hp.
  exact Hp.
Qed.

(** C4, as stated, fails when the request also carries the nested
    where form: the keyset clause is not in the executed WHERE, and the
    row at the cursor [1_0] is delivered again. *)
Lemma C4_counterexample :
  isCursor c4_query = true
  /\ decode_cursor "1_0" = (Some 1, Some 0)
  /\ exists q resp,
       Ethscriptions.GET [] c4_query c4_db = mkOutcome [q] (Ok resp)
       /\ q_where q = Some (And [orm.like "id" (JStr "%")])
       /\ In (JObj (ethscription "a" 1 0 "x")) (data resp).
Proof.
  split; [reflexivity|]. split; [reflexivity|].
  eexists. eexists. split; [vm_compute; reflexivity|].
  split; [reflexivity|]. left; reflexivity.
Qed.

(** C4, amended: in cursor mode no OFFSET is set on the statement and
    the offset is 0, with or without the nested form; and when the
    request carries no nested where form, the executed WHERE ends with
    the row comparison of [(block_number, transaction_index)] against the
    decoded cursor, greater-than in ascending and less-than in descending
    order, so every row considered lies strictly beyond the cursor and
    the row at the cursor is not among them. *)
Theorem C4_keyset_strict sp sq key a b cs db :
  page_key sq = Some key ->
  truthy_str key = true ->
  decode_cursor key = (Some a, Some b) ->
  filter_conditions sp sq = Ok cs ->
  (page_offset sq = 0
   /\ forall q, build_query sp sq = Ok q -> q_offset q = None)
  /\ (where_param sq = None ->
      exists q,
        build_query sp sq = Ok q
        /\ statements (Ethscriptions.GET sp sq db) = [q]
        /\ q_where q = Some (And (cs ++ [keyset (direction_of sq) a b]))
        /\ (forall r x y,
              In r (matching db q) ->
              column r "block_number" = SInt x ->
              column r "transaction_index" = SInt y ->
              beyond (direction_of sq) a b x y)
        /\ (forall r,
              In r (matching db q) ->
              ~ (column r "block_number" = SInt a
                 /\ column r "transaction_index" = SInt b))).
Proof.
  intros Hk Ht Hd Hcs.
  assert (Hc : isCursor sq = true)
    by (unfold isCursor; rewrite Hk; exact Ht).
  split.
  - split.
    + unfold page_offset. unfold isCursor in Hc. rewrite Hc. reflexivity.
    + intros q. unfold build_query. rewrite Hcs. cbn [bind]. rewrite Hc.
      destruct (where_param sq) as [w|].
      * destruct cs; destruct (where_conds w); cbn [bind];
          intros H; inversion H; subst; reflexivity.
      * destruct cs; destruct (cursor_clause sq); cbn [bind app];
          intros H; inversion H; subst; reflexivity.
  - intros Hw.
    pose proof (build_query_plain sp sq cs Hw Hcs) as Hq.
    rewrite (cursor_clause_decoded sq key a b Hk Ht Hd) in Hq.
    eexists. split; [exact Hq|].
    split; [unfold Ethscriptions.GET; rewrite Hq; reflexivity|].
    assert (Hwhere :
      forall o l f,
        q_where (mkQuery (expanded sq)
                   (orm.and (cs ++ [keyset (direction_of sq) a b])) o l f)
        = Some (And (cs ++ [keyset (direction_of sq) a b]))).
    { intros. simpl. destruct cs; reflexivity. }
    split; [apply Hwhere|]. split.
    + intros r x y Hin Hx Hy.
      apply (holds_keyset (direction_of sq) a b r x y Hx Hy).
      eapply matching_holds; [apply Hwhere|exact Hin].
    + intros r Hin [Hx Hy].
      assert (Hb : beyond (direction_of sq) a b a b).
      { apply (holds_keyset (direction_of sq) a b r a b Hx Hy).
        eapply matching_holds; [apply Hwhere|exact Hin]. }
      destruct (direction_of sq); simpl in Hb; lia.
Qed.

Lemma C4_keyset_strict_witness :
  (page_offset c4_plain = 0
   /\ forall q, build_query [] c4_plain = Ok q -> q_offset q = None)
  /\ (where_param c4_plain = None ->
      exists q,
        build_query [] c4_plain = Ok q
        /\ statements (Ethscriptions.GET [] c4_plain c4_db) = [q]
        /\ q_where q = Some (And ([] ++ [keyset (direction_of c4_plain) 1 0]))
        /\ (forall r x y,
              In r (matching c4_db q) ->
              column r "block_number" = SInt x ->
              column r "transaction_index" = SInt y ->
              beyond (direction_of c4_plain) 1 0 x y)
        /\ (forall r,
              In r (matching c4_db q) ->
              ~ (column r "block_number" = SInt 1
                 /\ column r "transaction_index" = SInt 0))).
Proof.
  apply (C4_keyset_strict [] c4_plain "1_0" 1 0 [] c4_db); reflexivity.
Defined.

(** ** Field projection *)

Lemma processObject_ext ex inc ex' inc' :
  (forall p, shouldInclude ex inc p = shouldInclude ex' inc' p) ->
  forall obj prefix,
    processObject ex inc obj prefix = processObject ex' inc' obj prefix.
Proof.
  intros Hd obj.
  induction obj as [| | | |items IH|fields IH] using json_nested_ind;
    intros prefix; try reflexivity.
  - simpl. f_equal. generalize O.
    induction IH as [|v items Hv _ IHl]; intros i; [reflexivity|].
    rewrite Hd.
    destruct (shouldInclude ex' inc' _) as [[|]|e]; cbn [bind];
      try reflexivity; [|apply IHl].
    rewrite IHl. f_equal.
    destruct v; try reflexivity; apply Hv.
  - simpl. f_equal.
    induction IH as [|[key v] fields Hv _ IHl]; [reflexivity|].
    rewrite Hd.
    destruct (shouldInclude ex' inc' _) as [[|]|e]; cbn [bind];
      try reflexivity; [|apply IHl].
    rewrite IHl. f_equal.
    destruct v; try reflexivity; apply Hv.
Qed.

Lemma includes_app_r c s t :
  includes c t = true -> includes c (s ++ t) = true.
Proof.
  intros Ht. induction s as [|a s IH]; simpl; [assumption|].
  rewrite IH. apply orb_true_r.
Qed.

(** Without a star the callbacks compare for equality: the second
    alternative of the exclude callback needs a star to hold. *)
Lemma excludes_pure fullPath pattern :
  glob_pattern pattern = true ->
  excludes fullPath pattern = Ok (matches_path fullPath pattern).
Proof.
  intros Hg. unfold excludes, matches_path, RegExp_test. rewrite Hg.
  destruct (includes "*" pattern) eqn:Hs; [reflexivity|].
  f_equal. destruct (String.eqb_spec pattern (fullPath ++ ".*")) as [E|_].
  - rewrite E in Hs.
    rewrite (includes_app_r "*" fullPath ".*" eq_refl) in Hs.
    discriminate.
  - apply orb_false_r.
Qed.

Lemma includes_path_pure fullPath pattern :
  glob_pattern pattern = true ->
  includes_path fullPath pattern = Ok (matches_path fullPath pattern).
Proof.
  intros Hg. unfold includes_path, matches_path, RegExp_test. rewrite Hg.
  destruct (includes "*" pattern); reflexivity.
Qed.

Lemma some_existsb f g patterns :
  Forall (fun p => f p = Ok (g p)) patterns ->
  some f patterns = Ok (existsb g patterns).
Proof.
  induction 1 as [|p ps Hp _ IH]; simpl; [reflexivity|].
  rewrite Hp. cbn [bind]. destruct (g p); [reflexivity|exact IH].
Qed.

Lemma existsb_Permutation {A : Type} (f : A -> bool) l l' :
  Permutation l l' -> existsb f l = existsb f l'.
Proof.
  induction 1 as [|x l l' _ IH|x y l|l l' l'' _ IH1 _ IH2]; simpl.
  - reflexivity.
  - rewrite IH; reflexivity.
  - destruct (f x), (f y); reflexivity.
  - rewrite IH1; exact IH2.
Qed.

Lemma shouldInclude_pure ex inc fullPath :
  globs ex -> globs inc ->
  shouldInclude (Some ex) (Some inc) fullPath =
    Ok (negb (existsb (matches_path fullPath) ex)
        || existsb (matches_path fullPath) inc).
Proof.
  intros Hex Hinc. unfold shouldInclude.
  rewrite (some_existsb (excludes fullPath) (matches_path fullPath) ex).
  2: { eapply Forall_impl; [|exact Hex]. intros p. apply excludes_pure. }
  cbn [bind].
  rewrite (some_existsb (includes_path fullPath) (matches_path fullPath) inc).
  2: { eapply Forall_impl; [|exact Hinc]. intros p.
       apply includes_path_pure. }
  cbn [bind]. f_equal.
  destruct (existsb (matches_path fullPath) inc);
    [apply eq_sym, orb_true_r|apply eq_sym, orb_false_r].
Qed.

Lemma globs_Permutation l l' : Permutation l l' -> globs l -> globs l'.
Proof.
  intros Hp Hl. unfold globs in *. rewrite Forall_forall in *.
  intros x Hx. apply Hl. eapply Permutation_in; [|exact Hx].
  apply Permutation_sym; exact Hp.
Qed.

Lemma glob_match_prefix p q s :
  glob_match q s = true -> glob_match (p ++ q) (p ++ s) = true.
Proof.
  intros Hq. induction p as [|c p IH]; [exact Hq|].
  cbn [append glob_match].
  destruct (Ascii.eqb_spec c "*") as [->|Hc].
  - cbn. apply orb_true_iff. right.
    revert IH. generalize (p ++ s). intros t IH.
    destruct t; cbn; rewrite IH; reflexivity.
  - rewrite Ascii.eqb_refl. exact IH.
Qed.

Lemma glob_match_star s :
  existsb line_terminator (list_ascii_of_string s) = false ->
  glob_match "*" s = true.
Proof.
  cbn [glob_match]. rewrite Ascii.eqb_refl.
  induction s as [|d s IH]; intros Hs; [reflexivity|].
  simpl in Hs. apply orb_false_iff in Hs. destruct Hs as [Hd Hs].
  rewrite Hd. simpl. apply IH. exact Hs.
Qed.

(** A starred pattern without further metacharacters is matched as a
    glob, and a pattern without star is compared for equality. *)
Lemma excludes_decided fullPath pattern :
  (includes "*" pattern = true -> glob_pattern pattern = true) ->
  excludes fullPath pattern = Ok (matches_path fullPath pattern).
Proof.
  intros Hg. unfold excludes, matches_path, RegExp_test.
  destruct (includes "*" pattern) eqn:Hs.
  - rewrite (Hg eq_refl). reflexivity.
  - f_equal. destruct (String.eqb_spec pattern (fullPath ++ ".*")) as [E|_].
    + rewrite E in Hs.
      rewrite (includes_app_r "*" fullPath ".*" eq_refl) in Hs.
      discriminate.
    + apply orb_false_r.
Qed.

Lemma includes_path_decided fullPath pattern :
  (includes "*" pattern = true -> glob_pattern pattern = true) ->
  includes_path fullPath pattern = Ok (matches_path fullPath pattern).
Proof.
  intros Hg. unfold includes_path, matches_path, RegExp_test.
  destruct (includes "*" pattern) eqn:Hs; [|reflexivity].
  rewrite (Hg eq_refl). reflexivity.
Qed.

(** The decision at a path, for lists that may be absent. *)
Lemma shouldInclude_decided ex inc fullPath :
  star_globs ex -> star_globs inc ->
  shouldInclude ex inc fullPath =
    Ok (negb (existsb (matches_path fullPath) (listed ex))
        || existsb (matches_path fullPath) (listed inc)).
Proof.
  intros Hex Hinc. unfold shouldInclude.
  assert (He : forall l,
             Forall (fun p => includes "*" p = true -> glob_pattern p = true)
               l ->
             some (excludes fullPath) l
             = Ok (existsb (matches_path fullPath) l)).
  { intros l Hl. apply some_existsb.
    eapply Forall_impl; [|exact Hl]. intros p. apply excludes_decided. }
  assert (Hi : forall l,
             Forall (fun p => includes "*" p = true -> glob_pattern p = true)
               l ->
             some (includes_path fullPath) l
             = Ok (existsb (matches_path fullPath) l)).
  { intros l Hl. apply some_existsb.
    eapply Forall_impl; [|exact Hl]. intros p. apply includes_path_decided. }
  destruct ex as [ex|], inc as [inc|]; unfold star_globs in *;
    cbn [listed] in *;
    try rewrite (He ex Hex); try rewrite (Hi inc Hinc); cbn [bind existsb];
    f_equal.
  - destruct (existsb (matches_path fullPath) inc);
      [apply eq_sym, orb_true_r|apply eq_sym, orb_false_r].
  - apply eq_sym, orb_false_r.
  - destruct (existsb (matches_path fullPath) inc); reflexivity.
Qed.

Lemma star_globs_reordered l l' :
  reordered l l' -> star_globs l -> star_globs l'.
Proof.
  destruct l as [l|], l' as [l'|]; simpl; try contradiction;
    [|intros _ H; exact H].
  intros Hp Hl. unfold star_globs in *. cbn [listed] in *.
  rewrite Forall_forall in *.
  intros x Hx. apply Hl. eapply Permutation_in; [|exact Hx].
  apply Permutation_sym; exact Hp.
Qed.

Lemma existsb_reordered (f : string -> bool) l l' :
  reordered l l' -> existsb f (listed l) = existsb f (listed l').
Proof.
  destruct l as [l|], l' as [l'|]; simpl; try contradiction;
    [|reflexivity].
  apply existsb_Permutation.
Qed.

(** C8, as stated, fails: the result depends on the order of the
    patterns when a starred pattern is no valid regular expression.  Take
    the lone star and the pattern made of an opening parenthesis and a
    star.  The walk stops at the first pattern that matches, so with the
    lone star first every field is excluded and the answer is the empty
    record, while with the other pattern first the construction of its
    regular expression, an unterminated group, throws. *)
Lemma C8_counterexample :
  pattern_list (Some "*,(*") = Some ["*"; "(*"]
  /\ pattern_list (Some "(*,*") = Some ["(*"; "*"]
  /\ Permutation ["*"; "(*"] ["(*"; "*"]
  /\ processObject (Some ["*"; "(*"]) None (JObj (ethscription "a" 1 0 "x")) ""
     = Ok (JObj [])
  /\ processObject (Some ["(*"; "*"]) None (JObj (ethscription "a" 1 0 "x")) ""
     = Throw "RegExp"
  /\ (exists q resp,
        Ethscriptions.GET [] (exclude_request "*,(*") c2_db
          = mkOutcome [q] (Ok resp)
        /\ data resp = [JObj []])
  /\ (exists q,
        Ethscriptions.GET [] (exclude_request "(*,*") c2_db
          = mkOutcome [q] (Throw "RegExp")).
Proof.
  split; [reflexivity|]. split; [reflexivity|].
  split; [apply perm_swap|].
  split; [reflexivity|]. split; [reflexivity|].
  split.
  - eexists. eexists. split; [vm_compute; reflexivity|reflexivity].
  - eexists. vm_compute. reflexivity.
Qed.

(** C8, amended: for pattern lists whose starred patterns hold no
    metacharacter besides the dot and the star, each list present or
    absent, the decision at a path is "not excluded, or included", where
    a pattern matches exactly or, with a star, as a glob anchored on the
    whole path; an include match keeps the field whatever the exclude
    list says; [parent.*] matches every field under [parent]; with
    [exclude=meta.*] and [include=meta.id] a record with [meta.id] and
    [meta.secret] keeps [meta.id] alone under [meta]; and the projection
    is the same for any order of the patterns within each list. *)
Theorem C8_projection_precedence ex inc ex' inc' obj prefix fullPath :
  star_globs ex -> star_globs inc ->
  reordered ex ex' -> reordered inc inc' ->
  shouldInclude ex inc fullPath =
    Ok (negb (existsb (matches_path fullPath) (listed ex))
        || existsb (matches_path fullPath) (listed inc))
  /\ (existsb (matches_path fullPath) (listed inc) = true ->
      shouldInclude ex inc fullPath = Ok true)
  /\ (forall parent key,
        existsb line_terminator (list_ascii_of_string key) = false ->
        matches_path (parent ++ "." ++ key) (parent ++ ".*") = true)
  /\ (forall i s,
        project (Some "meta.id") (Some "meta.*")
          [[("meta", JObj [("id", JNum i); ("secret", JStr s)])]]
        = Ok [JObj [("meta", JObj [("id", JNum i)])]])
  /\ processObject ex' inc' obj prefix = processObject ex inc obj prefix.
Proof.
  intros Hex Hinc Pex Pinc.
  split; [apply shouldInclude_decided; assumption|].
  split.
  { intros Hi. rewrite shouldInclude_decided by assumption.
    rewrite Hi. rewrite orb_true_r. reflexivity. }
  split.
  { intros parent key Hk. unfold matches_path.
    rewrite (includes_app_r "*" parent ".*" eq_refl).
    apply glob_match_prefix.
    apply (glob_match_prefix "." "*" key).
    apply glob_match_star. exact Hk. }
  split; [reflexivity|].
  apply processObject_ext. intros p.
  rewrite !shouldInclude_decided;
    eauto using star_globs_reordered.
  rewrite (existsb_reordered _ ex ex' Pex).
  rewrite (existsb_reordered _ inc inc' Pinc). reflexivity.
Qed.

Lemma C8_projection_precedence_witness :
  shouldInclude (Some ["meta.*"; "a(b"]) None "meta.id" =
    Ok (negb (existsb (matches_path "meta.id") ["meta.*"; "a(b"])
        || existsb (matches_path "meta.id") [])
  /\ (existsb (matches_path "meta.id") [] = true ->
      shouldInclude (Some ["meta.*"; "a(b"]) None "meta.id" = Ok true)
  /\ (forall parent key,
        existsb line_terminator (list_ascii_of_string key) = false ->
        matches_path (parent ++ "." ++ key) (parent ++ ".*") = true)
  /\ (forall i s,
        project (Some "meta.id") (Some "meta.*")
          [[("meta", JObj [("id", JNum i); ("secret", JStr s)])]]
        = Ok [JObj [("meta", JObj [("id", JNum i)])]])
  /\ processObject (Some ["a(b"; "meta.*"]) None
       (JObj [("a(b", JBool true);
              ("meta", JObj [("id", JNum 1); ("secret", JStr "s")])]) ""
     = processObject (Some ["meta.*"; "a(b"]) None
         (JObj [("a(b", JBool true);
                ("meta", JObj [("id", JNum 1); ("secret", JStr "s")])]) "".
Proof.
  apply (C8_projection_precedence
           (Some ["meta.*"; "a(b"]) None (Some ["a(b"; "meta.*"]) None).
  - apply Forall_cons; [reflexivity|].
    apply Forall_cons; [discriminate|]. apply Forall_nil.
  - apply Forall_nil.
  - apply perm_swap.
  - exact I.
Defined.

(** ** Page arithmetic *)

Lemma map_result_ok {A B : Type} (f : A -> result B) (l : list A) :
  (forall a, exists b, f a = Ok b) -> exists bs, map_result f l = Ok bs.
Proof.
  intros H. induction l as [|a l [bs IH]]; [exists []; reflexivity|].
  destruct (H a) as [b Hb]. simpl. rewrite Hb. cbn [bind].
  rewrite IH. cbn [bind]. eexists. reflexivity.
Qed.

(** The walk returns when every decision does. *)
Lemma processObject_ok ex inc :
  (forall p, exists b, shouldInclude ex inc p = Ok b) ->
  forall obj prefix, exists out, processObject ex inc obj prefix = Ok out.
Proof.
  intros Hd obj.
  induction obj as [| | | |items IH|fields IH] using json_nested_ind;
    intros prefix; try (eexists; reflexivity).
  - simpl.
    match goal with
    | |- exists out, bind (?F O items) _ = _ =>
        assert (Hk : forall i, exists kept, F i items = Ok kept)
    end.
    { induction IH as [|v items Hv _ IHl]; intros i;
        [exists []; reflexivity|].
      destruct (Hd (full_path prefix (show_Z (Z.of_nat i)))) as [b Hb].
      rewrite Hb. cbn [bind]. destruct b; [|apply IHl].
      destruct (IHl (S i)) as [rest Hrest]. rewrite Hrest.
      assert (Hv' : exists v',
                 match v with
                 | JObj _ | JArr _ =>
                     processObject ex inc v
                       (full_path prefix (show_Z (Z.of_nat i)))
                 | _ => Ok v
                 end = Ok v')
        by (destruct v; try (eexists; reflexivity); apply Hv).
      destruct Hv' as [v' Hv']. rewrite Hv'. cbn [bind].
      eexists. reflexivity. }
    destruct (Hk O) as [kept Hkept]. rewrite Hkept. cbn [bind].
    eexists. reflexivity.
  - simpl.
    match goal with
    | |- exists out, bind (?F fields) _ = _ =>
        assert (Hk : exists kept, F fields = Ok kept)
    end.
    { induction IH as [|[key v] fields Hv _ IHl];
        [exists []; reflexivity|].
      destruct (Hd (full_path prefix key)) as [b Hb].
      rewrite Hb. cbn [bind]. destruct b; [|apply IHl].
      destruct IHl as [rest Hrest]. rewrite Hrest.
      assert (Hv' : exists v',
                 match v with
                 | JObj _ | JArr _ =>
                     processObject ex inc v (full_path prefix key)
                 | _ => Ok v
                 end = Ok v')
        by (destruct v; try (eexists; reflexivity); apply Hv).
      destruct Hv' as [v' Hv']. rewrite Hv'. cbn [bind].
      eexists. reflexivity. }
    destruct Hk as [kept Hkept]. rewrite Hkept. cbn [bind].
    eexists. reflexivity.
Qed.

Lemma star_globs_plain l :
  forallb star_glob (listed l) = true -> star_globs l.
Proof.
  intros H. unfold star_globs. rewrite Forall_forall.
  rewrite forallb_forall in H. intros p Hp Hs.
  specialize (H p Hp). unfold star_glob in H. rewrite Hs in H. exact H.
Qed.

(** The projection of a page returns when the starred patterns are
    globs. *)
Lemma project_ok sq rows :
  patterns_plain sq = true ->
  exists projected, project (include sq) (exclude sq) rows = Ok projected.
Proof.
  unfold patterns_plain. intros H. apply andb_true_iff in H.
  destruct H as [Hi He].
  apply star_globs_plain in Hi. apply star_globs_plain in He.
  assert (Hw : exists projected,
             map_result
               (fun item =>
                  processObject (pattern_list (exclude sq))
                    (pattern_list (include sq)) (JObj item) "") rows
             = Ok projected).
  { apply map_result_ok. intros item. apply processObject_ok.
    intros p. eexists. apply shouldInclude_decided; assumption. }
  unfold project.
  destruct (pattern_list (include sq)), (pattern_list (exclude sq));
    try exact Hw.
  eexists. reflexivity.
Qed.

(** C3: in page mode with [page >= 1] and [page_size >= 1] every
    statement the handler sends carries the offset
    [(page - 1) * page_size], and the metadata of every reply has
    [pages = ceil(total / page_size)], [prev = page - 1] when [page > 1]
    and null otherwise, [next = page + 1] when
    [total > offset + page_size] and null otherwise, and [has_more] true
    exactly when [next] is not null.  A request without nested form
    whose raw filter parameters have parsed values sends one statement;
    the ethscriptions listing answers it when the starred patterns of
    its projection are globs, and the collections listing whenever the
    projection it calls returns.  With 97 rows and pages of 20 there are 5 pages, page 5
    has no next and page 1 no prev. *)
Theorem C3_page_arithmetic sp sq db :
  isCursor sq = false -> 1 <= page sq -> 1 <= page_size sq ->
  (forall q,
     In q (statements (Ethscriptions.GET sp sq db)) ->
     q_offset q = Some ((page sq - 1) * page_size sq))
  /\ (forall resp,
        reply (Ethscriptions.GET sp sq db) = Ok resp ->
        page_meta_ok sq (pagination resp))
  /\ (parsed sp sq number_fields text_fields = true ->
      where_param sq = None -> patterns_plain sq = true ->
      exists q resp,
        Ethscriptions.GET sp sq db = mkOutcome [q] (Ok resp)
        /\ q_offset q = Some ((page sq - 1) * page_size sq)
        /\ page_meta_ok sq (pagination resp))
  /\ (forall q,
        In q (statements (Collections.GET sp sq db)) ->
        q_offset q = Some ((page sq - 1) * page_size sq))
  /\ (forall resp,
        reply (Collections.GET sp sq db) = Ok resp ->
        page_meta_ok sq (pagination resp))
  /\ (parsed sp sq ["supply"] Collections.text_fields = true ->
      where_param sq = None ->
      exists q,
        statements (Collections.GET sp sq db) = [q]
        /\ q_offset q = Some ((page sq - 1) * page_size sq)
        /\ forall projected,
             withIncludesExcludes (map item (run db q)) sq = Ok projected ->
             exists resp,
               Collections.GET sp sq db = mkOutcome [q] (Ok resp)
               /\ data resp = projected
               /\ page_meta_ok sq (pagination resp))
  /\ (exists q resp,
        Ethscriptions.GET [] (plain_request 1 20 None "desc") c3_db
          = mkOutcome [q] (Ok resp)
        /\ pagination resp =
             OffsetPage 97 20 5 1 None (Some 2) (Some (JStr "77_0")) true)
  /\ (exists q resp,
        Ethscriptions.GET [] (plain_request 5 20 None "desc") c3_db
          = mkOutcome [q] (Ok resp)
        /\ pagination resp =
             OffsetPage 97 20 5 5 (Some 4) None None false)
  /\ (exists q resp,
        Collections.GET [] (plain_request 1 20 None "desc") c3_collections
          = mkOutcome [q] (Ok resp)
        /\ pagination resp =
             OffsetPage 97 20 5 1 None (Some 2) (Some (JNum 77)) true)
  /\ (exists q resp,
        Collections.GET [] (plain_request 5 20 None "desc") c3_collections
          = mkOutcome [q] (Ok resp)
        /\ pagination resp =
             OffsetPage 97 20 5 5 (Some 4) None None false).
Proof.
  intros Hc Hp Hs.
  assert (E1 : forall q,
             In q (statements (Ethscriptions.GET sp sq db)) ->
             q_offset q = Some ((page sq - 1) * page_size sq)).
  { intros q. unfold Ethscriptions.GET.
    destruct (build_query sp sq) as [q'|e] eqn:Hq; [|intros []].
    intros [<-|[]]. eapply build_query_offset; eauto. }
  assert (E2 : forall resp,
             reply (Ethscriptions.GET sp sq db) = Ok resp ->
             page_meta_ok sq (pagination resp)).
  { intros resp. unfold Ethscriptions.GET.
    destruct (build_query sp sq) as [q'|e] eqn:Hq; [|discriminate].
    cbn [reply].
    destruct (project (include sq) (exclude sq) (map item (run db q')));
      cbn [bind]; intros H; inversion H; subst; cbn [pagination].
    apply ethscriptions_meta_page; assumption. }
  assert (K1 : forall q,
             In q (statements (Collections.GET sp sq db)) ->
             q_offset q = Some ((page sq - 1) * page_size sq)).
  { intros q. unfold Collections.GET.
    destruct (Collections.build_query sp sq) as [q'|e] eqn:Hq;
      [|intros []].
    intros [<-|[]]. eapply collections_build_query_offset; eauto. }
  assert (K2 : forall resp,
             reply (Collections.GET sp sq db) = Ok resp ->
             page_meta_ok sq (pagination resp)).
  { intros resp. unfold Collections.GET, withIncludesExcludes.
    destruct (Collections.build_query sp sq) as [q'|e] eqn:Hq;
      [|discriminate].
    cbn [reply].
    destruct (project (include sq) (exclude sq) (map item (run db q')));
      cbn [bind]; intros H; inversion H; subst; cbn [pagination].
    apply collections_meta_page; assumption. }
  split; [exact E1|]. split; [exact E2|].
  split.
  { intros Hparsed Hw Hpat.
    assert (Hk : where_known sq = true)
      by (unfold where_known; rewrite Hw; reflexivity).
    destruct (build_query_ok sp sq Hparsed Hk) as [q Hq].
    destruct (project_ok sq (map item (run db q)) Hpat) as [d Hd].
    assert (HG : Ethscriptions.GET sp sq db
                 = mkOutcome [q]
                     (Ok (mkResponse
                            (ethscriptions_meta true
                               (first_total (run db q)) sq (run db q))
                            d 200))).
    { unfold Ethscriptions.GET. rewrite Hq. cbn zeta. rewrite Hd.
      reflexivity. }
    eexists. eexists. split; [exact HG|]. split.
    - apply E1. rewrite HG. left. reflexivity.
    - apply ethscriptions_meta_page; assumption. }
  split; [exact K1|]. split; [exact K2|].
  split.
  { intros Hparsed Hw.
    assert (Hk : where_known sq = true)
      by (unfold where_known; rewrite Hw; reflexivity).
    destruct (collections_build_query_ok sp sq Hparsed Hk) as [q Hq].
    assert (Hst : statements (Collections.GET sp sq db) = [q])
      by (unfold Collections.GET; rewrite Hq; reflexivity).
    exists q. split; [exact Hst|]. split.
    - apply K1. rewrite Hst. left. reflexivity.
    - intros projected Hd. eexists. split; [|split].
      + unfold Collections.GET. rewrite Hq. cbn zeta. rewrite Hd.
        reflexivity.
      + reflexivity.
      + apply collections_meta_page; assumption. }
  split; [eexists; eexists; split; [vm_compute; reflexivity|reflexivity]|].
  split; [eexists; eexists; split; [vm_compute; reflexivity|reflexivity]|].
  split; [eexists; eexists; split; [vm_compute; reflexivity|reflexivity]|].
  eexists. eexists. split; [vm_compute; reflexivity|reflexivity].
Qed.

Lemma C3_page_arithmetic_witness :
  (exists q resp,
     Ethscriptions.GET [("creator", "x")] (c3_request 2) c3_db
       = mkOutcome [q] (Ok resp)
     /\ q_offset q = Some ((2 - 1) * 20)
     /\ page_meta_ok (c3_request 2) (pagination resp))
  /\ (exists q resp,
        Collections.GET [("creator", "x")] (c3_request 2) c3_collections
          = mkOutcome [q] (Ok resp)
        /\ q_offset q = Some ((2 - 1) * 20)
        /\ page_meta_ok (c3_request 2) (pagination resp)).
Proof.
  assert (Hp : 1 <= page (c3_request 2)) by (simpl; lia).
  assert (Hs : 1 <= page_size (c3_request 2)) by (simpl; lia).
  split.
  - destruct (C3_page_arithmetic [("creator", "x")] (c3_request 2) c3_db
                eq_refl Hp Hs) as (_ & _ & H & _).
    apply H; reflexivity.
  - destruct (C3_page_arithmetic [("creator", "x")] (c3_request 2)
                c3_collections eq_refl Hp Hs)
      as (_ & _ & _ & _ & _ & H & _).
    destruct (H eq_refl eq_refl) as (q & Hst & Hoff & Hrep).
    vm_compute in Hst. injection Hst as <-.
    edestruct Hrep as (resp & HG & _ & Hm); [vm_compute; reflexivity|].
    eexists. exists resp. split; [exact HG|]. split; [reflexivity|exact Hm].
Defined.

(** ** Encoding and decoding of the cursor *)

Lemma uint_no_underscore d :
  includes "_" (NilEmpty.string_of_uint d) = false.
Proof. induction d; simpl; auto. Qed.

Lemma show_Z_no_underscore z : includes "_" (show_Z z) = false.
Proof.
  unfold show_Z. destruct (Z.to_int z); simpl; apply uint_no_underscore.
Qed.

Lemma show_Z_not_minus z : show_Z z <> "-".
Proof.
  unfold show_Z. destruct z as [|p|p]; simpl; try discriminate.
  - intros H. destruct (Pos.to_uint p); discriminate.
  - intros H. injection H as H.
    apply (DecimalPos.Unsigned.to_uint_nonnil p).
    destruct (Pos.to_uint p); try discriminate. reflexivity.
Qed.

Lemma Number_show_Z z : Number_ (show_Z z) = Some z.
Proof.
  unfold Number_.
  destruct (String.eqb_spec (show_Z z) "-") as [E|_].
  - exfalso. exact (show_Z_not_minus z E).
  - unfold show_Z. rewrite NilEmpty.isi. simpl. f_equal.
    apply DecimalZ.of_to.
Qed.

Lemma split_plain c s : includes c s = false -> split c s = [s].
Proof.
  induction s as [|a s IH]; simpl; intros H; [reflexivity|].
  apply orb_false_iff in H. destruct H as [Ha Hs].
  rewrite Ha, (IH Hs). reflexivity.
Qed.

Lemma split_at c s t :
  includes c s = false ->
  split c (s ++ String c t) = s :: split c t.
Proof.
  induction s as [|a s IH]; simpl; intros H.
  - rewrite Ascii.eqb_refl. reflexivity.
  - apply orb_false_iff in H. destruct H as [Ha Hs].
    rewrite Ha, (IH Hs). reflexivity.
Qed.

(** The key of a row, as the handler renders it. *)
Lemma decode_cursor_show a b :
  decode_cursor (show_Z a ++ "_" ++ show_Z b) = (Some a, Some b).
Proof.
  unfold decode_cursor. cbn [append].
  rewrite (split_at "_" (show_Z a) (show_Z b) (show_Z_no_underscore a)).
  rewrite (split_plain "_" (show_Z b) (show_Z_no_underscore b)).
  simpl. rewrite !Number_show_Z. reflexivity.
Qed.

Lemma cursor_truthy s t : truthy_str (s ++ "_" ++ t) = true.
Proof. destruct s; reflexivity. Qed.

(** ** Ordering of the rows *)

Lemma keyed_columns r :
  keyed r ->
  column r "block_number" = SInt (fst (row_key r))
  /\ column r "transaction_index" = SInt (snd (row_key r)).
Proof.
  intros (x & y & Hx & Hy). unfold column, row_key.
  rewrite Hx, Hy. split; reflexivity.
Qed.

Lemma not_after_keyed r1 r2 :
  keyed r1 -> keyed r2 ->
  not_after r1 r2 <-> ~ before r2 r1.
Proof.
  intros K1 K2.
  destruct (keyed_columns r1 K1) as [B1 T1].
  destruct (keyed_columns r2 K2) as [B2 T2].
  unfold not_after, before, key_lt, row_leb, asc_order. cbn [row_compare].
  rewrite B1, B2, T1, T2. cbn [order_compare].
  destruct (Z.compare_spec (fst (row_key r1)) (fst (row_key r2)));
    destruct (Z.compare_spec (snd (row_key r1)) (snd (row_key r2)));
    split; intros Hyp; try discriminate; try reflexivity; try lia.
Qed.

Lemma before_keyset r x :
  keyed x ->
  holds x (keyset Asc (fst (row_key r)) (snd (row_key r))) = true
  <-> before r x.
Proof.
  intros K. destruct (keyed_columns x K) as [B T].
  rewrite (holds_keyset Asc _ _ x _ _ B T). unfold before, key_lt.
  simpl. tauto.
Qed.

Lemma insert_row_perm o r l : Permutation (insert_row o r l) (r :: l).
Proof.
  induction l as [|x l IH]; simpl; [apply Permutation_refl|].
  destruct (row_leb o r x); [apply Permutation_refl|].
  eapply Permutation_trans; [apply perm_skip, IH|apply perm_swap].
Qed.

Lemma sort_rows_perm o l : Permutation (sort_rows o l) l.
Proof.
  induction l as [|r l IH]; simpl; [apply Permutation_refl|].
  eapply Permutation_trans; [apply insert_row_perm|apply perm_skip, IH].
Qed.

Lemma not_after_trans r1 r2 r3 :
  keyed r1 -> keyed r2 -> keyed r3 ->
  not_after r1 r2 -> not_after r2 r3 -> not_after r1 r3.
Proof.
  intros K1 K2 K3 H12 H23.
  apply (not_after_keyed r1 r2 K1 K2) in H12.
  apply (not_after_keyed r2 r3 K2 K3) in H23.
  apply (not_after_keyed r1 r3 K1 K3).
  unfold before, key_lt in *. lia.
Qed.

Lemma not_after_total r1 r2 :
  keyed r1 -> keyed r2 ->
  row_leb asc_order r1 r2 = false -> not_after r2 r1.
Proof.
  intros K1 K2 H.
  apply (not_after_keyed r2 r1 K2 K1). intros Hb.
  assert (Hn : ~ not_after r1 r2).
  { unfold not_after. rewrite H. discriminate. }
  apply Hn. apply (not_after_keyed r1 r2 K1 K2).
  unfold before, key_lt in *. lia.
Qed.

Lemma insert_row_sorted r l :
  keyed r -> Forall keyed l ->
  StronglySorted not_after l ->
  StronglySorted not_after (insert_row asc_order r l).
Proof.
  intros Kr Kl Hs. induction Hs as [|x l Hs IH Hx]; simpl.
  - constructor; constructor.
  - inversion Kl as [|? ? Kx Kl']; subst.
    destruct (row_leb asc_order r x) eqn:E.
    + constructor; [constructor; assumption|].
      constructor; [exact E|].
      rewrite Forall_forall in *. intros z Hz.
      apply (not_after_trans r x z); auto.
    + constructor; [apply IH; assumption|].
      rewrite Forall_forall. intros z Hz.
      apply (Permutation_in _ (insert_row_perm asc_order r l)) in Hz.
      destruct Hz as [<-|Hz].
      * apply not_after_total; assumption.
      * rewrite Forall_forall in Hx. apply Hx; assumption.
Qed.

Lemma sort_rows_keyed l : Forall keyed l -> Forall keyed (sort_rows asc_order l).
Proof.
  intros H. eapply Permutation_Forall; [|exact H].
  apply Permutation_sym, sort_rows_perm.
Qed.

Lemma sort_rows_sorted l :
  Forall keyed l -> StronglySorted not_after (sort_rows asc_order l).
Proof.
  induction l as [|r l IH]; intros K; simpl; [constructor|].
  inversion K; subst.
  apply insert_row_sorted; auto using sort_rows_keyed.
Qed.

Lemma insert_row_head r l :
  Forall (not_after r) l -> insert_row asc_order r l = r :: l.
Proof.
  intros H. destruct l as [|x l]; [reflexivity|].
  inversion H as [|? ? Hx _]; subst. simpl.
  unfold not_after in Hx. rewrite Hx. reflexivity.
Qed.

(** Inserting into a sorted list commutes with filtering. *)
Lemma filter_insert_row (p : row -> bool) r l :
  keyed r -> Forall keyed l ->
  StronglySorted not_after l ->
  filter p (insert_row asc_order r l) =
    if p r then insert_row asc_order r (filter p l) else filter p l.
Proof.
  intros Kr Kl Hs. induction Hs as [|x l Hs IH Hx].
  - simpl. destruct (p r); reflexivity.
  - inversion Kl as [|? ? Kx Kl']; subst.
    cbn [insert_row].
    destruct (row_leb asc_order r x) eqn:E.
    + transitivity (if p r then r :: filter p (x :: l)
                    else filter p (x :: l)).
      { simpl. destruct (p r); reflexivity. }
      destruct (p r); [|reflexivity].
      symmetry. apply insert_row_head.
      rewrite Forall_forall. intros z Hz.
      apply filter_In in Hz. destruct Hz as [[<-|Hz] _]; [exact E|].
      rewrite Forall_forall in Hx, Kl'.
      apply (not_after_trans r x z); auto.
    + cbn [filter]. rewrite (IH Kl').
      destruct (p x), (p r); simpl; try reflexivity.
      rewrite E. reflexivity.
Qed.

Lemma filter_sort_rows (p : row -> bool) l :
  Forall keyed l ->
  filter p (sort_rows asc_order l) = sort_rows asc_order (filter p l).
Proof.
  induction l as [|r l IH]; intros K; simpl; [reflexivity|].
  inversion K; subst.
  rewrite filter_insert_row;
    auto using sort_rows_keyed, sort_rows_sorted.
  rewrite IH by assumption. destruct (p r); reflexivity.
Qed.

(** With pairwise distinct keys the sorted rows are strictly
    increasing. *)
Lemma sorted_strict l :
  Forall keyed l -> NoDup (map row_key l) ->
  StronglySorted not_after l -> StronglySorted before l.
Proof.
  intros K N Hs. induction Hs as [|x l Hs IH Hx]; [constructor|].
  inversion K as [|? ? Kx Kl]; subst.
  simpl in N. inversion N as [|? ? Hnin Nl]; subst.
  constructor; [apply IH; assumption|].
  rewrite Forall_forall in *. intros z Hz.
  pose proof (Hx z Hz) as Hle.
  apply (not_after_keyed x z Kx (Kl z Hz)) in Hle.
  assert (Hne : row_key x <> row_key z).
  { intros E. apply Hnin. rewrite E. apply in_map. exact Hz. }
  unfold before, key_lt in *.
  destruct (row_key x) as [a b], (row_key z) as [c d]. simpl in *.
  assert (~ (a = c /\ b = d)) by (intros [-> ->]; apply Hne; reflexivity).
  lia.
Qed.

Lemma sort_rows_strict l :
  Forall keyed l -> NoDup (map row_key l) ->
  StronglySorted before (sort_rows asc_order l).
Proof.
  intros K N. apply sorted_strict.
  - apply sort_rows_keyed; assumption.
  - eapply Permutation_NoDup; [|exact N].
    apply Permutation_map, Permutation_sym, sort_rows_perm.
  - apply sort_rows_sorted; assumption.
Qed.

Lemma StronglySorted_app_inv {A : Type} (R : A -> A -> Prop) l1 l2 :
  StronglySorted R (l1 ++ l2) ->
  StronglySorted R l1 /\ StronglySorted R l2
  /\ forall x y, In x l1 -> In y l2 -> R x y.
Proof.
  induction l1 as [|a l1 IH]; simpl; intros H.
  - split; [constructor|]. split; [exact H|]. intros x y [].
  - inversion H as [|? ? Hs Ha]; subst.
    destruct (IH Hs) as (S1 & S2 & Hc).
    rewrite Forall_forall in Ha.
    split.
    + constructor; [exact S1|]. rewrite Forall_forall. intros z Hz.
      apply Ha. apply in_or_app; left; exact Hz.
    + split; [exact S2|]. intros x y [<-|Hx] Hy.
      * apply Ha. apply in_or_app; right; exact Hy.
      * apply Hc; assumption.
Qed.

Lemma filter_none {A : Type} (f : A -> bool) l :
  (forall x, In x l -> f x = false) -> filter f l = [].
Proof.
  induction l as [|a l IH]; intros H; simpl; [reflexivity|].
  rewrite (H a (or_introl eq_refl)). apply IH.
  intros x Hx. apply H. right; exact Hx.
Qed.

Lemma filter_all {A : Type} (f : A -> bool) l :
  (forall x, In x l -> f x = true) -> filter f l = l.
Proof.
  induction l as [|a l IH]; intros H; simpl; [reflexivity|].
  rewrite (H a (or_introl eq_refl)). f_equal. apply IH.
  intros x Hx. apply H. right; exact Hx.
Qed.

(** In a strictly increasing list the rows beyond the key of a row are
    the rows that follow it. *)
Lemma filter_beyond pre r suf :
  Forall keyed (pre ++ r :: suf) ->
  StronglySorted before (pre ++ r :: suf) ->
  filter (fun x => holds x (keyset Asc (fst (row_key r)) (snd (row_key r))))
    (pre ++ r :: suf) = suf.
Proof.
  intros K Hs.
  apply StronglySorted_app_inv in Hs. destruct Hs as (_ & Hs & Hc).
  inversion Hs as [|? ? _ Hr]; subst. rewrite Forall_forall in Hr, K.
  set (f := fun x =>
              holds x (keyset Asc (fst (row_key r)) (snd (row_key r)))).
  rewrite filter_app. cbn [filter].
  assert (Hrr : f r = false).
  { apply not_true_is_false. intros H.
    apply before_keyset in H.
    - unfold before, key_lt in H. lia.
    - apply K. apply in_or_app; right; left; reflexivity. }
  rewrite Hrr.
  rewrite filter_none, filter_all.
  - reflexivity.
  - intros x Hx. apply before_keyset.
    + apply K. apply in_or_app; right; right; exact Hx.
    + apply Hr; exact Hx.
  - intros x Hx. apply not_true_is_false. intros H.
    apply before_keyset in H.
    + assert (Hb : before x r) by (apply Hc; [exact Hx|left; reflexivity]).
      unfold before, key_lt in *. lia.
    + apply K. apply in_or_app; left; exact Hx.
Qed.

(** ** Following the cursor *)

Lemma map_result_app_inv {A B : Type} (f : A -> result B) l1 l2 P :
  map_result f (l1 ++ l2) = Ok P ->
  exists d1 d2,
    map_result f l1 = Ok d1 /\ map_result f l2 = Ok d2
    /\ P = (d1 ++ d2)%list.
Proof.
  revert P. induction l1 as [|a l1 IH]; intros P H.
  - exists [], P. repeat split. exact H.
  - simpl in H. destruct (f a) as [b|e] eqn:Fa; cbn [bind] in H;
      [|discriminate].
    destruct (map_result f (l1 ++ l2)) as [bs|e] eqn:Fl; cbn [bind] in H;
      [|discriminate].
    inversion H; subst.
    destruct (IH bs eq_refl) as (d1 & d2 & H1 & H2 & ->).
    exists (b :: d1), d2. simpl. rewrite Fa, H1. cbn [bind].
    repeat split. exact H2.
Qed.

Lemma project_app_inv inc exc l1 l2 P :
  project inc exc (l1 ++ l2) = Ok P ->
  exists d1 d2,
    project inc exc l1 = Ok d1 /\ project inc exc l2 = Ok d2
    /\ P = (d1 ++ d2)%list.
Proof.
  unfold project.
  destruct (pattern_list inc), (pattern_list exc);
    try apply map_result_app_inv.
  intros H. inversion H; subst.
  exists (map JObj l1), (map JObj l2). rewrite map_app. repeat split.
Qed.

Lemma filter_forallb_app (cs : list cond) (c : cond) (l : list row) :
  filter (fun r => forallb (holds r) (cs ++ [c])) l =
  filter (fun r => holds r c) (filter (fun r => forallb (holds r) cs) l).
Proof.
  induction l as [|r l IH]; simpl; [reflexivity|].
  rewrite forallb_app. simpl. rewrite andb_true_r.
  destruct (forallb (holds r) cs); simpl.
  - rewrite IH. reflexivity.
  - exact IH.
Qed.

Lemma firstn_nonempty_last {A : Type} (n : nat) (l : list A) :
  (1 <= n)%nat -> (n < List.length l)%nat ->
  exists pre r, firstn n l = (pre ++ [r])%list.
Proof.
  intros Hn Hl.
  destruct (exists_last (l := firstn n l)) as (pre & r & E).
  - intros E. apply (f_equal (@List.length A)) in E.
    rewrite length_firstn in E. simpl in E. lia.
  - exists pre, r. exact E.
Qed.

Section Crawl.

Variable sp : SearchParams.
Variable base : SearchQuery.
Variable db : Db.
Variable cs : list cond.

Hypothesis order_asc : order base = "asc".
Hypothesis no_where : where_param base = None.
Hypothesis first_page : page base = 1.
Hypothesis size_pos : 1 <= page_size base.
Hypothesis conditions : filter_conditions sp base = Ok cs.

Let stored : list row :=
  filter (fun r => forallb (holds r) cs) (db (expanded base)).

Hypothesis stored_keyed : Forall keyed stored.
Hypothesis stored_distinct : NoDup (map row_key stored).

Let sorted : list row := sort_rows asc_order stored.
Let n : nat := Z.to_nat (page_size base).

Let query_at (k : option string) : Query :=
  mkQuery (expanded base)
    (orm.and (cs ++ cursor_clause (with_page_key base k)))
    asc_order (Some (page_size base)) (page_cut (with_page_key base k)).

Lemma build_at k : build_query sp (with_page_key base k) = Ok (query_at k).
Proof.
  rewrite (build_query_plain sp (with_page_key base k) cs no_where conditions).
  unfold query_at, page_order, direction_of. simpl. rewrite order_asc.
  reflexivity.
Qed.

Lemma sorted_keyed : Forall keyed sorted.
Proof. apply sort_rows_keyed, stored_keyed. Qed.

Lemma sorted_strictly : StronglySorted before sorted.
Proof. apply sort_rows_strict; assumption. Qed.

Lemma take_page l :
  take_limit (Some (page_size base)) l = firstn n l.
Proof.
  unfold take_limit. destruct (Z.ltb_spec (page_size base) 0); [lia|].
  reflexivity.
Qed.

(** The rows of the first request. *)
Lemma rows_start :
  run db (query_at None) =
    map (mkCounted (Z.of_nat (List.length sorted))) (firstn n sorted).
Proof.
  assert (Hc : cursor_clause (with_page_key base None) = []) by reflexivity.
  assert (Ho : page_cut (with_page_key base None) = Some 0).
  { unfold page_cut, isCursor, page_offset. simpl. rewrite first_page.
    reflexivity. }
  unfold run, query_at. cbn [q_limit q_offset q_orderBy].
  rewrite Hc, Ho, app_nil_r, matching_and, take_page. fold stored. cbn [drop_offset Z.to_nat skipn]. unfold sorted.
  rewrite (Permutation_length (sort_rows_perm asc_order stored)).
  reflexivity.
Qed.

Lemma cursor_at r :
  cursor_clause (with_page_key base (Some (cursor_of r))) =
    [keyset Asc (fst (row_key r)) (snd (row_key r))].
Proof.
  rewrite (cursor_clause_decoded _ (cursor_of r)
             (fst (row_key r)) (snd (row_key r))).
  - unfold direction_of. simpl. rewrite order_asc. reflexivity.
  - reflexivity.
  - apply cursor_truthy.
  - apply decode_cursor_show.
Qed.

Lemma is_cursor_at r :
  isCursor (with_page_key base (Some (cursor_of r))) = true.
Proof. unfold isCursor. simpl. apply cursor_truthy. Qed.

(** The rows of a request that carries the cursor of a row: the page
    cut from the rows that follow it. *)
Lemma rows_after pre r suf :
  sorted = (pre ++ r :: suf)%list ->
  run db (query_at (Some (cursor_of r))) =
    map (mkCounted (Z.of_nat (List.length suf))) (firstn n suf).
Proof.
  intros HM.
  assert (Hf :
    sort_rows asc_order
      (filter (fun x =>
                 holds x (keyset Asc (fst (row_key r)) (snd (row_key r))))
         stored) = suf).
  { rewrite <- filter_sort_rows by exact stored_keyed.
    fold sorted. rewrite HM. apply filter_beyond.
    - rewrite <- HM. apply sorted_keyed.
    - rewrite <- HM. apply sorted_strictly. }
  unfold run, query_at. cbn [q_limit q_offset q_orderBy].
  rewrite cursor_at, matching_and, take_page, filter_forallb_app.
  fold stored.
  unfold page_cut. rewrite is_cursor_at. cbn [drop_offset].
  rewrite Hf.
  rewrite <- (Permutation_length (sort_rows_perm asc_order _)), Hf.
  reflexivity.
Qed.

Lemma offset_at k :
  k = None \/ (exists r, k = Some (cursor_of r)) ->
  page_offset (with_page_key base k) = 0.
Proof.
  intros [->|[r ->]]; unfold page_offset.
  - simpl. rewrite first_page. reflexivity.
  - change (page_key (with_page_key base (Some (cursor_of r))))
      with (Some (cursor_of r)).
    unfold truthy_opt, cursor_of. rewrite cursor_truthy. reflexivity.
Qed.

Lemma has_next_at k t :
  k = None \/ (exists r, k = Some (cursor_of r)) ->
  has_next t (with_page_key base k) =
    if page_size base <? t then Some 2 else None.
Proof.
  intros Hk. unfold has_next. rewrite (offset_at k Hk). simpl.
  rewrite first_page. reflexivity.
Qed.

Lemma first_total_page (l : list row) :
  first_total (map (mkCounted (Z.of_nat (List.length l))) (firstn n l))
  = Z.of_nat (List.length l).
Proof.
  destruct l as [|x l]; [destruct n; reflexivity|].
  assert (Hn : (1 <= n)%nat) by (unfold n; lia).
  destruct n; [lia|]. reflexivity.
Qed.

Lemma more_iff (l : list row) :
  (page_size base <? Z.of_nat (List.length l)) = (n <? List.length l)%nat.
Proof.
  unfold n.
  destruct (Z.ltb_spec (page_size base) (Z.of_nat (List.length l)));
    destruct (Nat.ltb_spec (Z.to_nat (page_size base)) (List.length l));
    try reflexivity; lia.
Qed.

(** The reply to a request whose statement returns the page cut from
    [suf]: the projected page, [has_more] exactly when rows remain after
    it, and then the cursor of the last row of the page. *)
Lemma reply_at k suf d :
  k = None \/ (exists r, k = Some (cursor_of r)) ->
  Forall keyed suf ->
  run db (query_at k) =
    map (mkCounted (Z.of_nat (List.length suf))) (firstn n suf) ->
  project (include base) (exclude base) (firstn n suf) = Ok d ->
  exists resp,
    reply (Ethscriptions.GET sp (with_page_key base k) db) = Ok resp
    /\ data resp = d
    /\ meta_has_more (pagination resp) = (n <? List.length suf)%nat
    /\ forall pre r,
         (n < List.length suf)%nat ->
         firstn n suf = (pre ++ [r])%list ->
         meta_page_key (pagination resp) = Some (JStr (cursor_of r)).
Proof.
  intros Hk Ksuf Hrun Hproj.
  unfold Ethscriptions.GET. rewrite build_at. cbn [reply].
  rewrite Hrun. rewrite first_total_page.
  rewrite map_map. cbn [item]. rewrite map_id.
  change (include (with_page_key base k)) with (include base).
  change (exclude (with_page_key base k)) with (exclude base).
  rewrite Hproj. cbn [bind].
  eexists. split; [reflexivity|]. cbn [data pagination].
  split; [reflexivity|].
  unfold ethscriptions_meta, next_cursor.
  rewrite (has_next_at k _ Hk), more_iff.
  change (page_size (with_page_key base k)) with (page_size base).
  split.
  - destruct (isCursor (with_page_key base k)); cbn [meta_has_more].
    + destruct (Nat.ltb_spec n (List.length suf));
        destruct (Z.ltb_spec 0 (Z.of_nat (List.length suf) - page_size base));
        try reflexivity; unfold n in *; lia.
    + destruct (n <? List.length suf)%nat; reflexivity.
  - intros pre r Hlt Hfirst.
    assert (Hkey : or_null
      (if truthy_num (if (n <? List.length suf)%nat then Some 2 else None)
       then
         Some (JStr
           (template
              match option_map item
                      (last (map Some
                         (map (mkCounted (Z.of_nat (List.length suf)))
                            (firstn n suf))) None) with
              | Some r0 => lookup "block_number" r0
              | None => None
              end ++ "_" ++
            template
              match option_map item
                      (last (map Some
                         (map (mkCounted (Z.of_nat (List.length suf)))
                            (firstn n suf))) None) with
              | Some r0 => lookup "transaction_index" r0
              | None => None
              end))
       else None) = Some (JStr (cursor_of r))).
    { apply Nat.ltb_lt in Hlt. rewrite Hlt. cbn [truthy_num Z.eqb negb].
      rewrite Hfirst, !map_app. cbn [map]. rewrite last_last.
      cbn [option_map item].
      assert (Kr : keyed r).
      { rewrite Forall_forall in Ksuf. apply Ksuf.
        rewrite <- (firstn_skipn n suf). apply in_or_app; left.
        rewrite Hfirst. apply in_or_app; right; left; reflexivity. }
      destruct Kr as (x & y & Hx & Hy).
      unfold cursor_of, row_key. rewrite Hx, Hy. cbn [template fst snd].
      destruct (show_Z x); reflexivity. }
    destruct (isCursor (with_page_key base k)); cbn [meta_page_key];
      exact Hkey.
Qed.

(** From any point of the walk the client receives what is left, page
    by page. *)
Lemma crawl_from fuel :
  forall k pre suf P,
    sorted = (pre ++ suf)%list ->
    (k = None /\ pre = [])
    \/ (exists pre' r, pre = (pre' ++ [r])%list /\ k = Some (cursor_of r)) ->
    project (include base) (exclude base) suf = Ok P ->
    (List.length suf < fuel)%nat ->
    exists pages,
      crawl fuel Ethscriptions.GET sp (with_page_key base k) db = Some pages
      /\ List.concat pages = P.
Proof.
  induction fuel as [|fuel IH]; intros k pre suf P HM Hst HP Hfuel; [lia|].
  assert (Hn : (1 <= n)%nat) by (unfold n; lia).
  assert (Hk : k = None \/ (exists r, k = Some (cursor_of r))).
  { destruct Hst as [[-> _]|(pre' & r & _ & ->)]; [left|right; exists r];
      reflexivity. }
  assert (Ksuf : Forall keyed suf).
  { pose proof sorted_keyed as K. rewrite HM in K.
    apply Forall_app in K. apply K. }
  assert (Hrun : run db (query_at k) =
    map (mkCounted (Z.of_nat (List.length suf))) (firstn n suf)).
  { destruct Hst as [[-> ->]|(pre' & r & -> & ->)].
    - simpl in HM. rewrite <- HM. apply rows_start.
    - apply (rows_after pre' r suf). rewrite HM, <- app_assoc. reflexivity. }
  rewrite <- (firstn_skipn n suf) in HP.
  destruct (project_app_inv _ _ _ _ _ HP) as (d1 & d2 & H1 & H2 & ->).
  destruct (reply_at k suf d1 Hk Ksuf Hrun H1)
    as (resp & Hreply & Hdata & Hmore & Hkey).
  cbn [crawl]. rewrite Hreply, Hmore.
  destruct (Nat.ltb_spec n (List.length suf)) as [Hlt|Hge].
  - destruct (firstn_nonempty_last n suf Hn Hlt) as (pre' & r & Hfirst).
    rewrite (Hkey pre' r Hlt Hfirst). cbn [template].
    change (with_page_key (with_page_key base k) (Some (cursor_of r)))
      with (with_page_key base (Some (cursor_of r))).
    destruct (IH (Some (cursor_of r)) (pre ++ pre' ++ [r])%list
                (skipn n suf) d2) as (pages & Hpages & Hcat).
    + rewrite HM. rewrite <- (firstn_skipn n suf) at 1.
      rewrite Hfirst, <- !app_assoc. reflexivity.
    + right. exists (pre ++ pre')%list, r. rewrite app_assoc.
      split; reflexivity.
    + exact H2.
    + rewrite length_skipn. lia.
    + rewrite Hpages. cbn [option_map]. eexists. split; [reflexivity|].
      cbn [List.concat]. rewrite Hdata, Hcat. reflexivity.
  - eexists. split; [reflexivity|]. cbn [List.concat].
    rewrite Hdata, app_nil_r.
    rewrite skipn_all2 in H2 by lia.
    assert (d2 = []).
    { unfold project in H2.
      destruct (pattern_list (include base)),
               (pattern_list (exclude base));
        simpl in H2; inversion H2; reflexivity. }
    subst. rewrite app_nil_r. reflexivity.
Qed.

End Crawl.

Lemma with_page_key_None sq :
  page_key sq = None -> with_page_key sq None = sq.
Proof. destruct sq; simpl; intros ->; reflexivity. Qed.

(** In the handler that counts the table in a statement of its own the
    walk does not end: [has_more] stays true after the rows have run
    out. *)
Lemma count_variant_never_stops fuel :
  crawl fuel EthscriptionsCount.GET []
    (plain_request 1 1 (Some "undefined_undefined") "asc") c5_db = None.
Proof.
  induction fuel as [|fuel IH]; [reflexivity|].
  cbn [crawl].
  assert (E : reply (EthscriptionsCount.GET []
                (plain_request 1 1 (Some "undefined_undefined") "asc") c5_db)
              = Ok (mkResponse
                      (CursorPage 3 None 1
                         (Some (JStr "undefined_undefined")) true) [] 200))
    by (vm_compute; reflexivity).
  rewrite E. cbn [pagination meta_has_more meta_page_key template].
  change (with_page_key (plain_request 1 1 (Some "undefined_undefined") "asc")
            (Some "undefined_undefined"))
    with (plain_request 1 1 (Some "undefined_undefined") "asc").
  rewrite IH. reflexivity.
Qed.

(** C5, as stated, fails when two matching rows share a composite key:
    the walk ends after the first of them and the second is never
    delivered. *)
Lemma C5_counterexample :
  matching c5_twins (select_from []) =
    [ethscription "a" 1 0 "x"; ethscription "b" 1 0 "x"]
  /\ crawl 5 Ethscriptions.GET [] (plain_request 1 1 None "asc") c5_twins
     = Some [[JObj (ethscription "a" 1 0 "x")]; []]
  /\ ~ In (JObj (ethscription "b" 1 0 "x"))
         (List.concat [[JObj (ethscription "a" 1 0 "x")]; []]).
Proof.
  split; [reflexivity|]. split; [vm_compute; reflexivity|].
  simpl. intros [H|[]]. discriminate.
Qed.

(** C5, amended: on the ethscriptions listing that selects the window
    count with the page, for a request in ascending order without a
    nested where form, starting at page 1, over a store in which the rows
    that pass the filters have integer ordinals and pairwise distinct
    composite keys, following the returned [page_key] ends with a reply
    whose [has_more] is false, and the pages received, put end to end,
    are the projection of the matching rows sorted on
    [(block_number, transaction_index)]: each matching row once, in
    strictly increasing key order.  The statement orders on the two
    columns of the cursor. *)
Theorem C5_cursor_walk sp sq db cs P fuel :
  order sq = "asc" ->
  page_key sq = None ->
  where_param sq = None ->
  page sq = 1 ->
  1 <= page_size sq ->
  filter_conditions sp sq = Ok cs ->
  Forall keyed (selected cs (db (expanded sq))) ->
  NoDup (map row_key (selected cs (db (expanded sq)))) ->
  project (include sq) (exclude sq)
    (sort_rows asc_order (selected cs (db (expanded sq)))) = Ok P ->
  (List.length (selected cs (db (expanded sq))) < fuel)%nat ->
  (exists pages,
     crawl fuel Ethscriptions.GET sp sq db = Some pages
     /\ List.concat pages = P)
  /\ Permutation (sort_rows asc_order (selected cs (db (expanded sq))))
       (selected cs (db (expanded sq)))
  /\ StronglySorted before
       (sort_rows asc_order (selected cs (db (expanded sq))))
  /\ (include sq = None -> exclude sq = None ->
      P = map JObj (sort_rows asc_order (selected cs (db (expanded sq)))))
  /\ (exists q, build_query sp sq = Ok q /\ q_orderBy q = asc_order).
Proof.
  intros Hasc Hkey Hw Hp Hs Hcs HK HN HP Hfuel.
  split; [|split; [|split; [|split]]].
  - rewrite <- (with_page_key_None sq Hkey).
    apply (crawl_from sp sq db cs Hasc Hw Hp Hs Hcs HK HN fuel None []
             (sort_rows asc_order (selected cs (db (expanded sq)))) P).
    + reflexivity.
    + left; split; reflexivity.
    + exact HP.
    + rewrite (Permutation_length (sort_rows_perm asc_order _)).
      exact Hfuel.
  - apply sort_rows_perm.
  - apply sort_rows_strict; assumption.
  - intros Hi He. unfold project in HP. rewrite Hi, He in HP.
    simpl in HP. inversion HP; reflexivity.
  - rewrite (build_query_plain sp sq cs Hw Hcs).
    eexists. split; [reflexivity|].
    unfold page_order, direction_of. simpl. rewrite Hasc. reflexivity.
Qed.

Lemma C5_cursor_walk_witness :
  (exists pages,
     crawl 4 Ethscriptions.GET [] (plain_request 1 2 None "asc") c5_db
       = Some pages
     /\ List.concat pages =
          [JObj (ethscription "a" 1 0 "x"); JObj (ethscription "b" 1 1 "x");
           JObj (ethscription "c" 2 0 "x")])
  /\ Permutation
       (sort_rows asc_order
          (selected [] (c5_db (expanded (plain_request 1 2 None "asc")))))
       (selected [] (c5_db (expanded (plain_request 1 2 None "asc"))))
  /\ StronglySorted before
       (sort_rows asc_order
          (selected [] (c5_db (expanded (plain_request 1 2 None "asc")))))
  /\ (include (plain_request 1 2 None "asc") = None ->
      exclude (plain_request 1 2 None "asc") = None ->
      [JObj (ethscription "a" 1 0 "x"); JObj (ethscription "b" 1 1 "x");
       JObj (ethscription "c" 2 0 "x")]
      = map JObj
          (sort_rows asc_order
             (selected [] (c5_db (expanded (plain_request 1 2 None "asc"))))))
  /\ (exists q,
        build_query [] (plain_request 1 2 None "asc") = Ok q
        /\ q_orderBy q = asc_order).
Proof.
  apply (C5_cursor_walk [] (plain_request 1 2 None "asc") c5_db []
           [JObj (ethscription "a" 1 0 "x"); JObj (ethscription "b" 1 1 "x");
            JObj (ethscription "c" 2 0 "x")] 4).
  - reflexivity.
  - reflexivity.
  - reflexivity.
  - reflexivity.
  - simpl. lia.
  - reflexivity.
  - simpl.
    repeat (apply Forall_cons; [do 2 eexists; split; reflexivity|]).
    apply Forall_nil.
  - vm_compute.
    repeat (apply NoDup_cons; [simpl; intuition congruence|]).
    apply NoDup_nil.
  - reflexivity.
  - simpl. lia.
Defined.

(** * Further properties of the handlers *)

(** ** Numeric filters *)

Lemma compare_int_cases x n :
  (match x ?= n with Gt => true | _ => false end = true <-> n < x)
  /\ (match x ?= n with Lt => true | _ => false end = true <-> x < n)
  /\ (match x ?= n with Lt => false | _ => true end = true <-> n <= x)
  /\ (match x ?= n with Gt => false | _ => true end = true <-> x <= n)
  /\ (match x ?= n with Eq => true | _ => false end = true <-> x = n).
Proof.
  destruct (Z.compare_spec x n); repeat split; intros Hyp;
    try discriminate; try reflexivity; lia.
Qed.

(** X1: a numeric parameter given as [range:min,max] compiles to two
    clauses that a row with an integer in that column passes exactly
    when the value lies between the bounds, both included. *)
Theorem number_range_inclusive sp sq field raw lo hi r x :
  lookup field sp = Some raw ->
  includes ":" raw = true ->
  lookup field (numbers sq) = Some (NumRange lo hi) ->
  column r field = SInt x ->
  exists c1 c2,
    number_filter sp sq field = Ok [c1; c2]
    /\ (forallb (holds r) [c1; c2] = true <-> lo <= x <= hi).
Proof.
  intros Hraw Hcolon Hval Hcol.
  exists (orm.gte field (JNum lo)), (orm.lte field (JNum hi)). split.
  - unfold number_filter, has. rewrite Hraw, Hval, Hcolon. reflexivity.
  - simpl. rewrite Hcol. simpl. rewrite andb_true_r, andb_true_iff.
    destruct (compare_int_cases x lo) as (_ & _ & Hge & _).
    destruct (compare_int_cases x hi) as (_ & _ & _ & Hle & _).
    rewrite Hge, Hle. tauto.
Qed.

Lemma number_range_inclusive_witness :
  exists c1 c2,
    number_filter [("block_number", "range:10,20")]
      (mkSearchQuery 1 10 None "asc" None None None None None
         [("block_number", NumRange 10 20)] [] [])
      "block_number" = Ok [c1; c2]
    /\ (forallb (holds (int_row "block_number" 20)) [c1; c2] = true
        <-> 10 <= 20 <= 20).
Proof.
  apply (number_range_inclusive [("block_number", "range:10,20")]
           (mkSearchQuery 1 10 None "asc" None None None None None
              [("block_number", NumRange 10 20)] [] [])
           "block_number" "range:10,20" 10 20
           (int_row "block_number" 20) 20); reflexivity.
Defined.

(** X2: a numeric parameter given as [op:value] compiles to one clause
    whose meaning on an integer column is the comparison the operator
    names; a name the [switch] does not list falls through to the default
    branch and compares for equality. *)
Theorem number_operator_meaning sp sq field raw op n r x :
  lookup field sp = Some raw ->
  includes ":" raw = true ->
  lookup field (numbers sq) = Some (NumOp op n) ->
  op <> "range" ->
  column r field = SInt x ->
  exists c,
    number_filter sp sq field = Ok [c]
    /\ (holds r c = true <-> comparison_meaning op x n).
Proof.
  intros Hraw Hcolon Hval Hop Hcol.
  unfold number_filter, has, comparison_meaning.
  rewrite Hraw, Hval, Hcolon.
  destruct (compare_int_cases x n) as (Hgt & Hlt & Hge & Hle & Heq).
  destruct (String.eqb_spec op "gt") as [->|N1].
  { eexists. split; [reflexivity|]. simpl. rewrite Hcol. exact Hgt. }
  destruct (String.eqb_spec op "lt") as [->|N2].
  { eexists. split; [reflexivity|]. simpl. rewrite Hcol. exact Hlt. }
  destruct (String.eqb_spec op "gte") as [->|N3].
  { eexists. split; [reflexivity|]. simpl. rewrite Hcol. exact Hge. }
  destruct (String.eqb_spec op "lte") as [->|N4].
  { eexists. split; [reflexivity|]. simpl. rewrite Hcol. exact Hle. }
  exists (orm.eq field (JNum n)). split.
  - apply String.eqb_neq in N1, N2, N3, N4, Hop.
    assert (E : forall (A : Type) (a b c d e f : A),
      match op with
      | "gt" => a | "lt" => b | "gte" => c | "lte" => d | "range" => e
      | _ => f
      end = f).
    { intros A a b c d e f.
      repeat match goal with
             | |- context [match ?s with EmptyString => _ | String _ _ => _ end] =>
                 destruct s; try reflexivity
             | |- context [match ?a with Ascii _ _ _ _ _ _ _ _ => _ end] =>
                 destruct a
             | |- context [if ?b then _ else _] => destruct b; try reflexivity
             end;
        simpl in *; try discriminate; reflexivity. }
    cbv beta iota. apply E.
  - simpl. rewrite Hcol. exact Heq.
Qed.

Lemma number_operator_meaning_witness :
  exists c,
    number_filter [("transaction_index", "gt:10")]
      (mkSearchQuery 1 10 None "asc" None None None None None
         [("transaction_index", NumOp "gt" 10)] [] [])
      "transaction_index" = Ok [c]
    /\ (holds (int_row "transaction_index" 11) c = true
        <-> comparison_meaning "gt" 11 10).
Proof.
  apply (number_operator_meaning [("transaction_index", "gt:10")]
           (mkSearchQuery 1 10 None "asc" None None None None None
              [("transaction_index", NumOp "gt" 10)] [] [])
           "transaction_index" "gt:10" "gt" 10
           (int_row "transaction_index" 11) 11);
    try reflexivity. discriminate.
Defined.

(** X3: when the raw parameter holds no colon the operator of the
    parsed value is not consulted: the filter is an equality on the
    operand, for a bare number and for an operator object alike. *)
Theorem number_without_colon_is_equality sp sq field raw val n :
  lookup field sp = Some raw ->
  includes ":" raw = false ->
  lookup field (numbers sq) = Some val ->
  (val = NumLit n \/ exists op, val = NumOp op n) ->
  number_filter sp sq field = Ok [orm.eq field (JNum n)]
  /\ forall r x, column r field = SInt x ->
       (holds r (orm.eq field (JNum n)) = true <-> x = n).
Proof.
  intros Hraw Hcolon Hval Hshape. split.
  - unfold number_filter, has. rewrite Hraw, Hval, Hcolon.
    destruct Hshape as [->|[op ->]]; reflexivity.
  - intros r x Hcol. simpl. rewrite Hcol.
    apply (compare_int_cases x n).
Qed.

Lemma number_without_colon_is_equality_witness :
  number_filter [("number", "7")]
    (mkSearchQuery 1 10 None "asc" None None None None None
       [("number", NumOp "gt" 7)] [] []) "number"
  = Ok [orm.eq "number" (JNum 7)]
  /\ forall r x, column r "number" = SInt x ->
       (holds r (orm.eq "number" (JNum 7)) = true <-> x = 7).
Proof.
  apply (number_without_colon_is_equality [("number", "7")]
           (mkSearchQuery 1 10 None "asc" None None None None None
              [("number", NumOp "gt" 7)] [] [])
           "number" "7" (NumOp "gt" 7) 7); try reflexivity.
  right. exists "gt". reflexivity.
Defined.

(** ** A raw parameter without a parsed value *)

Lemma concat_results_throw {A B : Type} (f : A -> result (list B))
  (l : list A) (x : A) (e : string) :
  In x l -> f x = Throw e ->
  (forall y e', f y = Throw e' -> e' = e) ->
  concat_results (map f l) = Throw e.
Proof.
  intros Hin Hx Hall. induction l as [|a l IH]; [contradiction|].
  simpl. destruct (f a) as [ys|e'] eqn:Fa; cbn [bind].
  - destruct Hin as [->|Hin]; [congruence|].
    rewrite (IH Hin). reflexivity.
  - rewrite (Hall a e' Fa). reflexivity.
Qed.

Lemma concat_results_only_throws {A B : Type} (f : A -> result (list B))
  (l : list A) (e e0 : string) :
  (forall y e', f y = Throw e' -> e' = e) ->
  concat_results (map f l) = Throw e0 -> e0 = e.
Proof.
  intros Hall. induction l as [|a l IH]; intros Hn; [discriminate|].
  simpl in Hn.
  destruct (f a) as [ys|e'] eqn:Fa; cbn [bind] in Hn.
  - destruct (concat_results (map f l)) as [zs|e''] eqn:Hl;
      cbn [bind] in Hn; [discriminate|].
    inversion Hn; subst. apply IH. reflexivity.
  - inversion Hn; subst. eapply Hall; eauto.
Qed.

Lemma number_filter_throws sp sq field e :
  number_filter sp sq field = Throw e -> e = "TypeError".
Proof.
  unfold number_filter. destruct (has sp field); [|discriminate].
  destruct (lookup field (numbers sq)) as [val|]; [|congruence].
  intros H. exfalso. revert H.
  repeat match goal with
         | |- context [match ?v with _ => _ end] => destruct v
         end; discriminate.
Qed.

Lemma text_filter_throws sp sq field e :
  text_filter sp sq field = Throw e -> e = "TypeError".
Proof.
  unfold text_filter. destruct (has sp field); [|discriminate].
  destruct (lookup field (texts sq)); [discriminate|congruence].
Qed.

(** X4: when the URL carries a numeric or text filter parameter for
    which the validated query holds no value, the handler throws a
    TypeError while it builds the conditions, and no statement reaches
    the store. *)
Theorem missing_parsed_value_throws sp sq db field :
  has sp field = true ->
  (In field number_fields /\ lookup field (numbers sq) = None)
  \/ (In field text_fields /\ lookup field (texts sq) = None) ->
  Ethscriptions.GET sp sq db = mkOutcome [] (Throw "TypeError").
Proof.
  intros Hhas Hmiss.
  assert (Hc : filter_conditions sp sq = Throw "TypeError").
  { unfold filter_conditions. destruct Hmiss as [[Hin Hn]|[Hin Ht]].
    - rewrite (concat_results_throw (number_filter sp sq) number_fields
                 field "TypeError" Hin).
      + reflexivity.
      + unfold number_filter. rewrite Hhas, Hn. reflexivity.
      + apply number_filter_throws.
    - destruct (concat_results (map (number_filter sp sq) number_fields))
        as [nums|e] eqn:Hn; cbn [bind].
      + rewrite (concat_results_throw (text_filter sp sq) text_fields
                   field "TypeError" Hin).
        * reflexivity.
        * unfold text_filter. rewrite Hhas, Ht. reflexivity.
        * apply text_filter_throws.
      + f_equal.
        apply (concat_results_only_throws (number_filter sp sq)
                 number_fields "TypeError" e
                 (number_filter_throws sp sq) Hn). }
  unfold Ethscriptions.GET, build_query. rewrite Hc. reflexivity.
Qed.

Lemma missing_parsed_value_throws_witness :
  Ethscriptions.GET [("creator", "0xab")]
    (plain_request 1 10 None "asc") (table [])
  = mkOutcome [] (Throw "TypeError").
Proof.
  apply (missing_parsed_value_throws [("creator", "0xab")]
           (plain_request 1 10 None "asc") (table []) "creator").
  - reflexivity.
  - right. split; [simpl; tauto|reflexivity].
Defined.

(** ** Boolean filters of the ethscriptions listing *)

Lemma flag_filter_applied sp sq field cs :
  In field esip_fields ->
  filter_conditions sp sq = Ok cs ->
  incl (flag_filter sp sq field) cs.
Proof.
  unfold filter_conditions. generalize esip_fields as fs. intros fs Hin.
  destruct (concat_results (map (number_filter sp sq) number_fields));
    cbn [bind]; [|discriminate].
  destruct (concat_results (map (text_filter sp sq) text_fields));
    cbn [bind]; [|discriminate].
  intros [= <-]. intros c Hc.
  rewrite !in_app_iff. do 3 right.
  apply in_flat_map. exists field. split; assumption.
Qed.

(** X5: an ESIP flag given in the URL is filtered on whatever its
    parsed value, false included: the condition list holds the equality
    with that value, which a row passes exactly when its stored flag is 1
    for true and 0 for false. *)
Theorem esip_flag_filters_both_values sp sq field b cs :
  In field esip_fields ->
  has sp field = true ->
  lookup field (flags sq) = Some b ->
  filter_conditions sp sq = Ok cs ->
  In (orm.eq field (JBool b)) cs
  /\ forall r v, column r field = SInt v ->
       (holds r (orm.eq field (JBool b)) = true
        <-> v = (if b then 1 else 0)).
Proof.
  intros Hin Hhas Hval Hcs. split.
  - apply (flag_filter_applied sp sq field cs Hin Hcs).
    unfold flag_filter. rewrite Hhas, Hval. left; reflexivity.
  - intros r v Hcol. simpl. rewrite Hcol. simpl.
    apply (compare_int_cases v (if b then 1 else 0)).
Qed.

Lemma esip_flag_filters_both_values_witness :
  In (orm.eq "is_esip6" (JBool false)) [orm.eq "is_esip6" (JBool false)]
  /\ forall r v, column r "is_esip6" = SInt v ->
       (holds r (orm.eq "is_esip6" (JBool false)) = true
        <-> v = (if false then 1 else 0)).
Proof.
  apply (esip_flag_filters_both_values [("is_esip6", "false")]
           (with_flags (plain_request 1 10 None "asc")
              [("is_esip6", false)])
           "is_esip6" false [orm.eq "is_esip6" (JBool false)]).
  - simpl. tauto.
  - reflexivity.
  - reflexivity.
  - reflexivity.
Defined.

(** ** Expansions *)

Lemma build_query_expand sp sq e :
  build_query sp (with_expand sq e) =
    match build_query sp sq with
    | Ok q =>
        Ok (mkQuery (expanded (with_expand sq e)) (q_where q)
              (q_orderBy q) (q_limit q) (q_offset q))
    | Throw err => Throw err
    end.
Proof.
  unfold build_query.
  change (filter_conditions sp (with_expand sq e))
    with (filter_conditions sp sq).
  destruct (filter_conditions sp sq) as [cs|err]; cbn [bind];
    [|reflexivity].
  change (cursor_clause (with_expand sq e)) with (cursor_clause sq).
  change (where_param (with_expand sq e)) with (where_param sq).
  change (direction_of (with_expand sq e)) with (direction_of sq).
  change (page_size (with_expand sq e)) with (page_size sq).
  change (isCursor (with_expand sq e)) with (isCursor sq).
  change (page_offset (with_expand sq e)) with (page_offset sq).
  destruct (where_param sq) as [w|].
  - destruct (where_conds w); cbn [bind]; [|reflexivity].
    destruct cs; destruct (isCursor sq); reflexivity.
  - destruct cs; destruct (cursor_clause sq); cbn [bind app];
      destruct (isCursor sq); reflexivity.
Qed.

Lemma expanded_membership sq names1 names2 :
  (forall rel, In rel relations -> (In rel names1 <-> In rel names2)) ->
  expanded (with_expand sq (Some names1))
  = expanded (with_expand sq (Some names2)).
Proof.
  intros H. unfold expanded.
  change (expand (with_expand sq (Some names1))) with (Some names1).
  change (expand (with_expand sq (Some names2))) with (Some names2).
  apply filter_ext_in_bool. intros rel Hrel.
  specialize (H rel Hrel).
  destruct (existsb (String.eqb rel) names1) eqn:E1;
    destruct (existsb (String.eqb rel) names2) eqn:E2; try reflexivity.
  - apply existsb_exists in E1. destruct E1 as (x & Hx & Ex).
    apply String.eqb_eq in Ex. subst x.
    apply H in Hx.
    assert (existsb (String.eqb rel) names2 = true).
    { apply existsb_exists. exists rel. split; [exact Hx|].
      apply String.eqb_refl. }
    congruence.
  - apply existsb_exists in E2. destruct E2 as (x & Hx & Ex).
    apply String.eqb_eq in Ex. subst x.
    apply H in Hx.
    assert (existsb (String.eqb rel) names1 = true).
    { apply existsb_exists. exists rel. split; [exact Hx|].
      apply String.eqb_refl. }
    congruence.
Qed.

(** X6: the [expand] parameter only adds joins.  Whatever it holds, the
    statement has the same WHERE clause, order, limit and offset; the
    joins depend on which of the four known relations are named, not on
    their order, repetition or on any other name; and a name the handler
    does not know adds nothing. *)
Theorem expansions_only_add_joins sp sq e q :
  build_query sp sq = Ok q ->
  (exists q',
     build_query sp (with_expand sq e) = Ok q'
     /\ q_where q' = q_where q /\ q_orderBy q' = q_orderBy q
     /\ q_limit q' = q_limit q /\ q_offset q' = q_offset q
     /\ q_joins q' = expanded (with_expand sq e))
  /\ (forall names1 names2,
        (forall rel, In rel relations ->
                     (In rel names1 <-> In rel names2)) ->
        expanded (with_expand sq (Some names1))
        = expanded (with_expand sq (Some names2)))
  /\ (forall names,
        (forall rel, In rel relations -> ~ In rel names) ->
        expanded (with_expand sq (Some names)) = []).
Proof.
  intros Hq. split; [|split].
  - rewrite build_query_expand, Hq. eexists. split; [reflexivity|].
    repeat split.
  - apply expanded_membership.
  - intros names Hnone.
    rewrite (expanded_membership sq names []).
    + reflexivity.
    + intros rel Hrel. split; [intros H; exact (Hnone rel Hrel H)|
                               intros []].
Qed.

Lemma expansions_only_add_joins_witness :
  (exists q',
     build_query [] (with_expand (plain_request 1 10 None "asc")
                       (Some ["votes"; "bogus"; "collection"; "votes"]))
       = Ok q'
     /\ q_where q' = q_where (mkQuery [] None asc_order (Some 10) (Some 0))
     /\ q_orderBy q'
        = q_orderBy (mkQuery [] None asc_order (Some 10) (Some 0))
     /\ q_limit q' = q_limit (mkQuery [] None asc_order (Some 10) (Some 0))
     /\ q_offset q'
        = q_offset (mkQuery [] None asc_order (Some 10) (Some 0))
     /\ q_joins q'
        = expanded (with_expand (plain_request 1 10 None "asc")
                      (Some ["votes"; "bogus"; "collection"; "votes"])))
  /\ (forall names1 names2,
        (forall rel, In rel relations ->
                     (In rel names1 <-> In rel names2)) ->
        expanded (with_expand (plain_request 1 10 None "asc") (Some names1))
        = expanded (with_expand (plain_request 1 10 None "asc")
                      (Some names2)))
  /\ (forall names,
        (forall rel, In rel relations -> ~ In rel names) ->
        expanded (with_expand (plain_request 1 10 None "asc") (Some names))
        = []).
Proof.
  apply (expansions_only_add_joins [] (plain_request 1 10 None "asc")
           (Some ["votes"; "bogus"; "collection"; "votes"])
           (mkQuery [] None asc_order (Some 10) (Some 0))).
  reflexivity.
Defined.

(** ** The nested where form of the collections listing *)

Lemma last_default {A : Type} (l : list A) (x d d' : A) :
  last (x :: l) d = last (x :: l) d'.
Proof.
  revert x. induction l as [|y l IH]; intros x; [reflexivity|].
  change (last (y :: l) d = last (y :: l) d'). apply IH.
Qed.

Lemma fold_where_last clauses q0 :
  q_where (fold_left (fun q c => where_ q (Some c)) clauses q0)
  = last (map Some clauses) (q_where q0)
  /\ q_joins (fold_left (fun q c => where_ q (Some c)) clauses q0)
     = q_joins q0.
Proof.
  revert q0. induction clauses as [|c cl IH]; intros q0; [split; reflexivity|].
  cbn [fold_left map]. destruct (IH (where_ q0 (Some c))) as [Hw Hj].
  rewrite Hw, Hj. split; [|reflexivity].
  destruct cl as [|c0 cl]; [reflexivity|].
  cbn [map]. rewrite (last_default _ _ (q_where (where_ q0 (Some c)))
                        (q_where q0)).
  reflexivity.
Qed.

(** X7: in the collections listing every clause of the nested where
    form is handed to [where] on its own, so the statement keeps the last
    clause only; earlier clauses, like the top-level filters, do not
    restrict the rows, and an empty form leaves the statement without a
    WHERE clause. *)
Theorem collections_nested_where_keeps_last sp sq w cs clauses db :
  where_param sq = Some w ->
  Collections.filter_conditions sp sq = Ok cs ->
  where_conds w = Ok clauses ->
  exists q,
    Collections.build_query sp sq = Ok q
    /\ statements (Collections.GET sp sq db) = [q]
    /\ q_where q = last (map Some clauses) None
    /\ matching db q =
         filter (passes (last (map Some clauses) None)) (db []).
Proof.
  intros Hw Hcs Hcl. unfold Collections.build_query.
  rewrite Hcs. cbn [bind]. rewrite Hw, Hcl. cbn [bind].
  destruct (fold_where_last clauses (select_from [])) as [Hlast Hj].
  eexists. split; [reflexivity|].
  split.
  { unfold Collections.GET, Collections.build_query.
    rewrite Hcs. cbn [bind]. rewrite Hw, Hcl. reflexivity. }
  assert (Hq : forall q0 : Query,
    q_where (if truthy_opt (page_key sq)
             then limit (orderBy q0 [(direction_of sq, "created_at")])
                    (page_size sq)
             else offset (limit (orderBy q0 [(direction_of sq, "created_at")])
                            (page_size sq)) (page_offset sq))
    = q_where q0
    /\ q_joins (if truthy_opt (page_key sq)
             then limit (orderBy q0 [(direction_of sq, "created_at")])
                    (page_size sq)
             else offset (limit (orderBy q0 [(direction_of sq, "created_at")])
                            (page_size sq)) (page_offset sq))
    = q_joins q0).
  { intros q0. destruct (truthy_opt (page_key sq)); split; reflexivity. }
  split.
  - rewrite (proj1 (Hq _)). exact Hlast.
  - unfold matching. rewrite (proj1 (Hq _)), (proj2 (Hq _)), Hlast, Hj.
    reflexivity.
Qed.

Lemma collections_nested_where_keeps_last_witness :
  exists q,
    Collections.build_query []
      (where_request [("name", [("like", "a*")]); ("id", [("eq", "b")])])
      = Ok q
    /\ statements
         (Collections.GET []
            (where_request [("name", [("like", "a*")]); ("id", [("eq", "b")])])
            c10_db) = [q]
    /\ q_where q
       = last (map Some [orm.like "name" (JStr "a%"); orm.eq "id" (JStr "b")])
           None
    /\ matching c10_db q =
         filter
           (passes
              (last (map Some [orm.like "name" (JStr "a%");
                               orm.eq "id" (JStr "b")]) None))
           (c10_db []).
Proof.
  apply (collections_nested_where_keeps_last []
           (where_request [("name", [("like", "a*")]); ("id", [("eq", "b")])])
           [("name", [("like", "a*")]); ("id", [("eq", "b")])] []
           [orm.like "name" (JStr "a%"); orm.eq "id" (JStr "b")] c10_db);
    reflexivity.
Defined.

(** ** The slug filter of the collections listing *)

(** X8: of the text filters of the collections listing only the slug
    is folded to lower case: its clause is the ordinary text clause for
    the lower-cased value, so two requests whose slug differs in case
    alone build the same clause, every other field is compared as given,
    and a stored slug that is not in lower case is never selected by a
    slug filter without a star. *)
Theorem collections_slug_is_lower_cased sp sq field value :
  has sp field = true ->
  lookup field (texts sq) = Some value ->
  (field = "slug" ->
   Collections.text_filter sp sq field
   = Ok [text_clause "slug" (toLowerCase value)])
  /\ (field <> "slug" ->
      Collections.text_filter sp sq field = Ok [text_clause field value])
  /\ (forall r stored,
        includes "*" value = false ->
        column r "slug" = SText stored ->
        stored <> toLowerCase stored ->
        holds r (text_clause "slug" (toLowerCase value)) = false).
Proof.
  intros Hhas Hval. split; [|split].
  - intros ->. unfold Collections.text_filter. rewrite Hhas, Hval.
    cbn [String.eqb Ascii.eqb Bool.eqb].
    unfold text_clause. rewrite wildcard_lower. reflexivity.
  - intros Hne. unfold Collections.text_filter. rewrite Hhas, Hval.
    apply String.eqb_neq in Hne. rewrite Hne. reflexivity.
  - intros r stored Hstar Hcol Hcase.
    unfold text_clause, wildcard. rewrite includes_star_lower, Hstar.
    simpl. rewrite Hcol. simpl.
    destruct (String.compare stored (toLowerCase value)) eqn:E;
      try reflexivity.
    apply String.compare_eq_iff in E. exfalso. apply Hcase.
    rewrite E. symmetry. apply toLowerCase_idem.
Qed.

Lemma collections_slug_is_lower_cased_witness :
  ("slug" = "slug" ->
   Collections.text_filter [("slug", "My-Punks")]
     (mkSearchQuery 1 10 None "asc" None None None None None
        [] [("slug", "My-Punks")] []) "slug"
   = Ok [text_clause "slug" (toLowerCase "My-Punks")])
  /\ ("slug" <> "slug" ->
      Collections.text_filter [("slug", "My-Punks")]
        (mkSearchQuery 1 10 None "asc" None None None None None
           [] [("slug", "My-Punks")] []) "slug"
      = Ok [text_clause "slug" "My-Punks"])
  /\ (forall r stored,
        includes "*" "My-Punks" = false ->
        column r "slug" = SText stored ->
        stored <> toLowerCase stored ->
        holds r (text_clause "slug" (toLowerCase "My-Punks")) = false).
Proof.
  apply (collections_slug_is_lower_cased [("slug", "My-Punks")]
           (mkSearchQuery 1 10 None "asc" None None None None None
              [] [("slug", "My-Punks")] []) "slug" "My-Punks");
    reflexivity.
Defined.

(** ** Size of a page *)

Lemma map_result_length {A B : Type} (f : A -> result B) l d :
  map_result f l = Ok d -> List.length d = List.length l.
Proof.
  revert d. induction l as [|a l IH]; intros d H.
  - inversion H; reflexivity.
  - simpl in H. destruct (f a); cbn [bind] in H; [|discriminate].
    destruct (map_result f l) as [bs|]; cbn [bind] in H; [|discriminate].
    inversion H; subst. simpl. rewrite (IH bs eq_refl). reflexivity.
Qed.

Lemma project_length inc exc rows d :
  project inc exc rows = Ok d -> List.length d = List.length rows.
Proof.
  unfold project.
  destruct (pattern_list inc), (pattern_list exc);
    try apply map_result_length.
  intros [= <-]. apply length_map.
Qed.

Lemma run_length_limit db q k :
  q_limit q = Some k -> 0 <= k ->
  Z.of_nat (List.length (run db q)) <= k.
Proof.
  intros Hl Hk. unfold run. rewrite length_map, Hl. unfold take_limit.
  destruct (Z.ltb_spec k 0); [lia|].
  rewrite length_firstn. lia.
Qed.

Lemma build_query_limit sp sq q :
  build_query sp sq = Ok q -> q_limit q = Some (page_size sq).
Proof.
  unfold build_query.
  destruct (filter_conditions sp sq) as [cs|]; cbn [bind]; [|discriminate].
  destruct (where_param sq) as [w|].
  - destruct (where_conds w); cbn [bind]; [|discriminate].
    destruct cs; destruct (isCursor sq); intros [= <-]; reflexivity.
  - destruct cs; destruct (cursor_clause sq); cbn [bind app];
      destruct (isCursor sq); intros [= <-]; reflexivity.
Qed.

Lemma fold_where_limit clauses q0 :
  q_limit (fold_left (fun q c => where_ q (Some c)) clauses q0) = q_limit q0
  /\ q_offset (fold_left (fun q c => where_ q (Some c)) clauses q0)
     = q_offset q0.
Proof.
  revert q0. induction clauses as [|c cl IH]; intros q0; [split; reflexivity|].
  cbn [fold_left]. destruct (IH (where_ q0 (Some c))) as [H1 H2].
  rewrite H1, H2. split; reflexivity.
Qed.

Lemma collections_build_query_limit sp sq q :
  Collections.build_query sp sq = Ok q -> q_limit q = Some (page_size sq).
Proof.
  unfold Collections.build_query.
  destruct (Collections.filter_conditions sp sq) as [cs|]; cbn [bind];
    [|discriminate].
  destruct (where_param sq) as [w|].
  - destruct (where_conds w); cbn [bind]; [|discriminate].
    destruct (truthy_opt (page_key sq)); intros [= <-]; reflexivity.
  - destruct cs; cbn [bind];
      destruct (truthy_opt (page_key sq)); intros [= <-]; reflexivity.
Qed.

(** X9: for a non-negative page size no listing handler delivers more
    records than the page size, whatever the filters, the pagination
    mode and the projection. *)
Theorem page_never_exceeds_page_size sp sq db resp :
  0 <= page_size sq ->
  reply (Ethscriptions.GET sp sq db) = Ok resp
  \/ reply (EthscriptionsCount.GET sp sq db) = Ok resp
  \/ reply (Collections.GET sp sq db) = Ok resp ->
  Z.of_nat (List.length (data resp)) <= page_size sq.
Proof.
  intros Hs [H|[H|H]]; revert H.
  - unfold Ethscriptions.GET.
    destruct (build_query sp sq) as [q|] eqn:Hq; [|discriminate].
    cbn [reply].
    destruct (project (include sq) (exclude sq) (map item (run db q)))
      as [d|] eqn:Hp; cbn [bind]; [|discriminate].
    intros [= <-]. cbn [data].
    rewrite (project_length _ _ _ _ Hp), length_map.
    apply run_length_limit; [apply (build_query_limit sp sq q Hq)|exact Hs].
  - unfold EthscriptionsCount.GET.
    destruct (run db EthscriptionsCount.count_query); [discriminate|].
    destruct (build_query sp sq) as [q|] eqn:Hq; [|discriminate].
    cbn [reply]. unfold withIncludesExcludes.
    destruct (project (include sq) (exclude sq) (map item (run db q)))
      as [d|] eqn:Hp; cbn [bind]; [|discriminate].
    intros [= <-]. cbn [data].
    rewrite (project_length _ _ _ _ Hp), length_map.
    apply run_length_limit; [apply (build_query_limit sp sq q Hq)|exact Hs].
  - unfold Collections.GET.
    destruct (Collections.build_query sp sq) as [q|] eqn:Hq; [|discriminate].
    cbn [reply]. unfold withIncludesExcludes.
    destruct (project (include sq) (exclude sq) (map item (run db q)))
      as [d|] eqn:Hp; cbn [bind]; [|discriminate].
    intros [= <-]. cbn [data].
    rewrite (project_length _ _ _ _ Hp), length_map.
    apply run_length_limit;
      [apply (collections_build_query_limit sp sq q Hq)|exact Hs].
Qed.

Lemma page_never_exceeds_page_size_witness :
  Z.of_nat
    (List.length
       (data (mkResponse
                (OffsetPage 3 2 2 1 None (Some 2) (Some (JStr "1_1")) true)
                [JObj (ethscription "a" 1 0 "x");
                 JObj (ethscription "b" 1 1 "x")] 200)))
  <= page_size (plain_request 1 2 None "asc").
Proof.
  apply (page_never_exceeds_page_size [] (plain_request 1 2 None "asc")
           c5_db).
  - simpl. lia.
  - left. vm_compute. reflexivity.
Defined.

(** ** Pages in page mode *)

Lemma firstn_plus {A : Type} (a b : nat) (l : list A) :
  firstn (a + b) l = (firstn a l ++ firstn b (skipn a l))%list.
Proof.
  revert l. induction a as [|a IH]; intros l; [reflexivity|].
  destruct l as [|x l]; simpl.
  - rewrite firstn_nil. reflexivity.
  - rewrite IH. reflexivity.
Qed.

Lemma page_rows sp sq db cs p :
  isCursor sq = false ->
  where_param sq = None ->
  include sq = None -> exclude sq = None ->
  1 <= page_size sq ->
  filter_conditions sp sq = Ok cs ->
  (1 <= p)%nat ->
  page_data sp sq db p =
    map JObj
      (firstn (Z.to_nat (page_size sq))
         (skipn ((p - 1) * Z.to_nat (page_size sq))
            (sort_rows (page_order sq)
               (selected cs (db (expanded sq)))))).
Proof.
  intros Hc Hw Hi He Hs Hcs Hp. unfold page_data, Ethscriptions.GET.
  rewrite (build_query_plain sp (with_page sq (Z.of_nat p)) cs Hw Hcs).
  cbn [reply].
  change (include (with_page sq (Z.of_nat p))) with (include sq).
  change (exclude (with_page sq (Z.of_nat p))) with (exclude sq).
  unfold project. rewrite Hi, He. cbn [pattern_list option_map bind data].
  f_equal. unfold run. cbn [q_limit q_offset q_orderBy].
  rewrite map_map. cbn [item]. rewrite map_id.
  assert (Hcl : cursor_clause (with_page sq (Z.of_nat p)) = []).
  { unfold cursor_clause.
    change (isCursor (with_page sq (Z.of_nat p))) with (isCursor sq).
    rewrite Hc. reflexivity. }
  rewrite Hcl, app_nil_r, matching_and.
  change (expanded (with_page sq (Z.of_nat p))) with (expanded sq).
  change (page_order (with_page sq (Z.of_nat p))) with (page_order sq).
  change (page_size (with_page sq (Z.of_nat p))) with (page_size sq).
  unfold page_cut, page_offset.
  change (isCursor (with_page sq (Z.of_nat p))) with (isCursor sq).
  change (truthy_opt (page_key (with_page sq (Z.of_nat p))))
    with (isCursor sq).
  rewrite Hc.
  change (page (with_page sq (Z.of_nat p))) with (Z.of_nat p).
  change (page_size (with_page sq (Z.of_nat p))) with (page_size sq).
  unfold take_limit, drop_offset.
  destruct (Z.ltb_spec (page_size sq) 0); [lia|].
  replace (Z.to_nat ((Z.of_nat p - 1) * page_size sq))
    with ((p - 1) * Z.to_nat (page_size sq))%nat by nia.
  reflexivity.
Qed.

(** X10: in page mode, without a nested where form and without
    projection, the pages 1 to k received one after the other are the
    first k times page_size rows of the matching rows in the order of the
    request: consecutive pages neither overlap nor leave a gap. *)
Theorem offset_pages_tile sp sq db cs k :
  isCursor sq = false ->
  where_param sq = None ->
  include sq = None -> exclude sq = None ->
  1 <= page_size sq ->
  filter_conditions sp sq = Ok cs ->
  flat_map (page_data sp sq db) (seq 1 k) =
    map JObj
      (firstn (k * Z.to_nat (page_size sq))
         (sort_rows (page_order sq) (selected cs (db (expanded sq))))).
Proof.
  intros Hc Hw Hi He Hs Hcs.
  induction k as [|k IH]; [reflexivity|].
  rewrite seq_S, flat_map_app, IH. cbn [flat_map]. rewrite app_nil_r.
  rewrite (page_rows sp sq db cs (1 + k) Hc Hw Hi He Hs Hcs) by lia.
  rewrite <- map_app. f_equal.
  replace (S k * Z.to_nat (page_size sq))%nat
    with (k * Z.to_nat (page_size sq) + Z.to_nat (page_size sq))%nat by lia.
  rewrite firstn_plus.
  replace (1 + k - 1)%nat with k by lia. reflexivity.
Qed.

Lemma offset_pages_tile_witness :
  flat_map (page_data [] (plain_request 1 2 None "desc") c5_db) (seq 1 2) =
    map JObj
      (firstn (2 * Z.to_nat (page_size (plain_request 1 2 None "desc")))
         (sort_rows (page_order (plain_request 1 2 None "desc"))
            (selected []
               (c5_db (expanded (plain_request 1 2 None "desc")))))).
Proof.
  apply (offset_pages_tile [] (plain_request 1 2 None "desc") c5_db [] 2);
    try reflexivity.
  simpl. lia.
Defined.

(** ** [has_more] and [page_key] *)

Lemma or_null_cursor s t :
  or_null (Some (JStr (s ++ "_" ++ t))) = Some (JStr (s ++ "_" ++ t)).
Proof. destruct s; reflexivity. Qed.

Lemma meta_more_iff_key b t sq results :
  page sq <> -1 ->
  meta_has_more (ethscriptions_meta b t sq results) = true
  <-> meta_page_key (ethscriptions_meta b t sq results) <> None.
Proof.
  intros Hp. unfold ethscriptions_meta, next_cursor, has_next, page_offset.
  unfold isCursor.
  destruct (truthy_opt (page_key sq)); cbn [meta_has_more meta_page_key].
  - replace (0 <? t - page_size sq) with (0 + page_size sq <? t)
      by (destruct (Z.ltb_spec (0 + page_size sq) t);
          destruct (Z.ltb_spec 0 (t - page_size sq)); try reflexivity; lia).
    destruct (0 + page_size sq <? t); cbn [truthy_num].
    + destruct (Z.eqb_spec (page sq + 1) 0); [lia|]. cbn [negb].
      rewrite or_null_cursor. split; [discriminate|reflexivity].
    + split; [discriminate|intros H; contradiction H; reflexivity].
  - destruct ((page sq - 1) * page_size sq + page_size sq <? t);
      cbn [truthy_num].
    + destruct (Z.eqb_spec (page sq + 1) 0); [lia|]. cbn [negb].
      rewrite or_null_cursor. split; [discriminate|reflexivity].
    + split; [discriminate|intros H; contradiction H; reflexivity].
Qed.

(** X11: in the replies of both ethscriptions listings, for any page
    number other than -1, [has_more] is true exactly when a [page_key] is
    returned, in page mode and in cursor mode alike. *)
Theorem has_more_iff_page_key sp sq db resp :
  page sq <> -1 ->
  reply (Ethscriptions.GET sp sq db) = Ok resp
  \/ reply (EthscriptionsCount.GET sp sq db) = Ok resp ->
  meta_has_more (pagination resp) = true
  <-> meta_page_key (pagination resp) <> None.
Proof.
  intros Hp [H|H]; revert H.
  - unfold Ethscriptions.GET.
    destruct (build_query sp sq) as [q|]; [|discriminate]. cbn [reply].
    destruct (project (include sq) (exclude sq) (map item (run db q)));
      cbn [bind]; [|discriminate].
    intros [= <-]. cbn [pagination]. apply meta_more_iff_key. exact Hp.
  - unfold EthscriptionsCount.GET.
    destruct (run db EthscriptionsCount.count_query); [discriminate|].
    destruct (build_query sp sq) as [q|]; [|discriminate]. cbn [reply].
    destruct (withIncludesExcludes (map item (run db q)) sq);
      cbn [bind]; [|discriminate].
    intros [= <-]. cbn [pagination]. apply meta_more_iff_key. exact Hp.
Qed.

Lemma has_more_iff_page_key_witness :
  meta_has_more
    (pagination
       (mkResponse
          (OffsetPage 3 2 2 1 None (Some 2) (Some (JStr "1_1")) true)
          [JObj (ethscription "a" 1 0 "x");
           JObj (ethscription "b" 1 1 "x")] 200)) = true
  <-> meta_page_key
        (pagination
           (mkResponse
              (OffsetPage 3 2 2 1 None (Some 2) (Some (JStr "1_1")) true)
              [JObj (ethscription "a" 1 0 "x");
               JObj (ethscription "b" 1 1 "x")] 200)) <> None.
Proof.
  apply (has_more_iff_page_key [] (plain_request 1 2 None "asc") c5_db).
  - simpl. lia.
  - left. vm_compute. reflexivity.
Defined.

(** ** The cursor of a page *)

(** X12: when a page is followed by more rows, the [page_key] the
    ethscriptions listings return is built from the last row of the page,
    and splitting it at the underscore and reading the two parts as
    numbers gives back the block number and the transaction index of that
    row, negative values included. *)
Theorem page_key_round_trip t sq results t' r :
  truthy_num (has_next t sq) = true ->
  keyed r ->
  exists s,
    next_cursor t sq (results ++ [mkCounted t' r]) = Some (JStr s)
    /\ or_null (Some (JStr s)) = Some (JStr s)
    /\ decode_cursor s = (Some (fst (row_key r)), Some (snd (row_key r)))
    /\ lookup "block_number" r = Some (JNum (fst (row_key r)))
    /\ lookup "transaction_index" r = Some (JNum (snd (row_key r))).
Proof.
  intros Hn (x & y & Hx & Hy).
  exists (show_Z x ++ "_" ++ show_Z y).
  assert (Hk : row_key r = (x, y)) by (unfold row_key; rewrite Hx, Hy; reflexivity).
  rewrite Hk. cbn [fst snd]. split; [|split; [|split; [|split]]].
  - unfold next_cursor. rewrite Hn, map_app. cbn [map].
    rewrite last_last. cbn [option_map item]. rewrite Hx, Hy. reflexivity.
  - apply or_null_cursor.
  - apply decode_cursor_show.
  - exact Hx.
  - exact Hy.
Qed.

Lemma page_key_round_trip_witness :
  exists s,
    next_cursor 5 (plain_request 1 2 None "asc")
      ([] ++ [mkCounted 5 (ethscription "a" (-3) 12 "x")]) = Some (JStr s)
    /\ or_null (Some (JStr s)) = Some (JStr s)
    /\ decode_cursor s =
         (Some (fst (row_key (ethscription "a" (-3) 12 "x"))),
          Some (snd (row_key (ethscription "a" (-3) 12 "x"))))
    /\ lookup "block_number" (ethscription "a" (-3) 12 "x")
       = Some (JNum (fst (row_key (ethscription "a" (-3) 12 "x"))))
    /\ lookup "transaction_index" (ethscription "a" (-3) 12 "x")
       = Some (JNum (snd (row_key (ethscription "a" (-3) 12 "x")))).
Proof.
  apply (page_key_round_trip 5 (plain_request 1 2 None "asc") [] 5
           (ethscription "a" (-3) 12 "x")).
  - reflexivity.
  - do 2 eexists. split; reflexivity.
Defined.

(** ** The listing that counts in a statement of its own *)

(** X13: the second ethscriptions listing reads its total from the
    first row of a count over the whole table.  On an empty table the
    destructuring of that row throws after this one statement, whatever
    the request; on a table with rows every reply reports the size of the
    table as total, whatever the filters and the page. *)
Theorem count_listing_total sp sq db :
  (db [] = [] ->
   EthscriptionsCount.GET sp sq db
   = mkOutcome [EthscriptionsCount.count_query] (Throw "TypeError"))
  /\ (forall resp,
        reply (EthscriptionsCount.GET sp sq db) = Ok resp ->
        meta_total (pagination resp) = Z.of_nat (List.length (db []))
        /\ db [] <> []).
Proof.
  split.
  - intros He. unfold EthscriptionsCount.GET, run, matching.
    cbn [EthscriptionsCount.count_query select_from q_joins q_where
         q_orderBy q_limit q_offset passes take_limit drop_offset].
    rewrite He. reflexivity.
  - intros resp. unfold EthscriptionsCount.GET.
    assert (Hrun : run db EthscriptionsCount.count_query
                   = map (mkCounted (Z.of_nat (List.length (db []))))
                       (db [])).
    { unfold run, matching.
      cbn [EthscriptionsCount.count_query select_from q_joins q_where
           q_orderBy q_limit q_offset take_limit drop_offset sort_rows].
      rewrite (filter_all (passes None)) by reflexivity.
      f_equal. clear. induction (db []) as [|r l IH]; [reflexivity|].
      simpl. rewrite IH. destruct l; reflexivity. }
    rewrite Hrun. destruct (db []) as [|r0 rows]; [discriminate|].
    cbn [map total].
    destruct (build_query sp sq) as [q|]; [|discriminate]. cbn [reply].
    destruct (withIncludesExcludes (map item (run db q)) sq);
      cbn [bind]; [|discriminate].
    intros [= <-]. cbn [pagination]. rewrite meta_total_ethscriptions.
    split; [reflexivity|discriminate].
Qed.

(** ** Rows of a page *)

Lemma firstn_incl {A : Type} (n : nat) (l : list A) x :
  In x (firstn n l) -> In x l.
Proof.
  intros H. rewrite <- (firstn_skipn n l). apply in_or_app; left; exact H.
Qed.

Lemma skipn_incl {A : Type} (n : nat) (l : list A) x :
  In x (skipn n l) -> In x l.
Proof.
  intros H. rewrite <- (firstn_skipn n l). apply in_or_app; right; exact H.
Qed.

Lemma run_rows_match db q c :
  In c (run db q) ->
  In (item c) (db (q_joins q)) /\ passes (q_where q) (item c) = true.
Proof.
  unfold run. intros H. apply in_map_iff in H.
  destruct H as (r & <- & Hr). cbn [item].
  assert (Hm : In r (matching db q)).
  { apply (Permutation_in _ (sort_rows_perm (q_orderBy q) (matching db q))).
    unfold take_limit, drop_offset in Hr.
    destruct (q_limit q) as [k|]; destruct (q_offset q) as [o|];
      try destruct (k <? 0);
      repeat (first [apply firstn_incl in Hr | apply skipn_incl in Hr]);
      exact Hr. }
  unfold matching in Hm. apply filter_In in Hm. exact Hm.
Qed.

(** X14: without a nested where form and without projection, every
    record the first ethscriptions listing delivers is a row of the store
    that passes every clause compiled from the top-level filters, and in
    cursor mode the keyset clause as well. *)
Theorem delivered_rows_pass_filters sp sq db cs resp j :
  where_param sq = None ->
  include sq = None -> exclude sq = None ->
  filter_conditions sp sq = Ok cs ->
  reply (Ethscriptions.GET sp sq db) = Ok resp ->
  In j (data resp) ->
  exists r,
    j = JObj r
    /\ In r (db (expanded sq))
    /\ forallb (holds r) cs = true
    /\ forallb (holds r) (cursor_clause sq) = true.
Proof.
  intros Hw Hi He Hcs. unfold Ethscriptions.GET.
  rewrite (build_query_plain sp sq cs Hw Hcs). cbn [reply].
  unfold project. rewrite Hi, He. cbn [pattern_list option_map bind].
  intros [= <-]. cbn [data]. intros Hj.
  apply in_map_iff in Hj. destruct Hj as (r & <- & Hr).
  apply in_map_iff in Hr. destruct Hr as (c & <- & Hc).
  apply run_rows_match in Hc. cbn [q_joins q_where] in Hc.
  destruct Hc as [Hin Hp]. rewrite passes_and, forallb_app in Hp.
  apply andb_true_iff in Hp. destruct Hp as [H1 H2].
  exists (item c). repeat split; assumption.
Qed.

Lemma delivered_rows_pass_filters_witness :
  exists r,
    JObj (ethscription "b" 2 0 "y") = JObj r
    /\ In r (c2_rows (expanded c2_filtered))
    /\ forallb (holds r) [orm.eq "creator" (JStr "y")] = true
    /\ forallb (holds r) (cursor_clause c2_filtered) = true.
Proof.
  apply (delivered_rows_pass_filters c2_params c2_filtered c2_rows
           [orm.eq "creator" (JStr "y")]
           (mkResponse (OffsetPage 1 10 1 1 None None None false)
              [JObj (ethscription "b" 2 0 "y")] 200)
           (JObj (ethscription "b" 2 0 "y"))); try reflexivity.
  left; reflexivity.
Defined.

(** ** More on field projection *)

Lemma shouldInclude_include_only inc fullPath :
  globs inc -> shouldInclude None (Some inc) fullPath = Ok true.
Proof.
  intros Hinc. unfold shouldInclude. cbn [bind].
  rewrite (some_existsb (includes_path fullPath) (matches_path fullPath) inc).
  - cbn [bind]. destruct (existsb (matches_path fullPath) inc); reflexivity.
  - eapply Forall_impl; [|exact Hinc]. intros p. apply includes_path_pure.
Qed.

(** X15: an include list without an exclude list removes nothing: with
    glob patterns every field is kept at every depth, and a record that
    holds no array comes back unchanged. *)
Theorem include_alone_keeps_everything inc obj prefix :
  globs inc ->
  array_free obj = true ->
  processObject None (Some inc) obj prefix = Ok obj.
Proof.
  intros Hinc. revert prefix.
  induction obj as [| | | |items IH|fields IH] using json_nested_ind;
    intros prefix Hfree; try reflexivity; [discriminate|].
  simpl in Hfree |- *.
  assert (Hfix :
    (fix each (l : list (string * json)) : result (list (string * json)) :=
       match l with
       | [] => Ok []
       | (key, value) :: l' =>
           keep <- shouldInclude None (Some inc) (full_path prefix key) ;;
           (if keep
            then
              v <- match value with
                   | JArr _ | JObj _ =>
                       processObject None (Some inc) value
                         (full_path prefix key)
                   | _ => Ok value
                   end ;;
              rest <- each l' ;; Ok ((key, v) :: rest)
            else each l')
       end) fields = Ok fields).
  { induction IH as [|[key v] fields Hv _ IHl]; [reflexivity|].
    apply andb_true_iff in Hfree. destruct Hfree as [Fv Ff].
    rewrite (shouldInclude_include_only inc _ Hinc). cbn [bind].
    rewrite (IHl Ff).
    replace (match v with
             | JArr _ | JObj _ =>
                 processObject None (Some inc) v (full_path prefix key)
             | _ => Ok v
             end) with (Ok v : result json).
    - reflexivity.
    - destruct v; try reflexivity; symmetry; apply (Hv _ Fv). }
  rewrite Hfix. reflexivity.
Qed.

Lemma include_alone_keeps_everything_witness :
  processObject None (Some ["meta.id"; "creator"])
    (JObj [("id", JStr "a"); ("meta", JObj [("id", JNum 1);
                                             ("secret", JStr "s")])]) ""
  = Ok (JObj [("id", JStr "a"); ("meta", JObj [("id", JNum 1);
                                                ("secret", JStr "s")])]).
Proof.
  apply (include_alone_keeps_everything ["meta.id"; "creator"]).
  - repeat constructor.
  - reflexivity.
Defined.

Lemma processObject_object ex inc fields prefix out :
  processObject ex inc (JObj fields) prefix = Ok (JObj out) ->
  map fst out =
    map fst (filter (fun kv => decided ex inc (full_path prefix (fst kv)))
               fields).
Proof.
  simpl.
  match goal with
  | |- bind (?F fields) _ = _ -> _ => set (each := F)
  end.
  destruct (each fields) as [kept|e] eqn:E; cbn [bind]; [|discriminate].
  intros [= <-]. revert kept E.
  induction fields as [|[key v] fields IH]; intros kept E.
  - inversion E; reflexivity.
  - unfold each in E. cbn [filter fst] in *. fold each in E.
    unfold decided at 1.
    destruct (shouldInclude ex inc (full_path prefix key)) as [[|]|e];
      cbn [bind] in E.
    + match type of E with
      | bind ?m _ = _ => destruct m as [v'|]; cbn [bind] in E; [|discriminate]
      end.
      destruct (each fields) as [rest|] eqn:Er; cbn [bind] in E;
        [|discriminate].
      inversion E; subst. cbn [map fst]. f_equal. apply IH. reflexivity.
    + apply IH. exact E.
    + discriminate.
Qed.

(** X16: the projection never invents, renames or reorders fields: the
    keys of a projected object are the keys of the record, in their
    order, that passed the decision at their own path. *)
Theorem projection_keeps_decided_keys ex inc fields prefix out :
  processObject ex inc (JObj fields) prefix = Ok (JObj out) ->
  map fst out =
    map fst (filter (fun kv => decided ex inc (full_path prefix (fst kv)))
               fields)
  /\ (List.length out <= List.length fields)%nat.
Proof.
  intros H. pose proof (processObject_object _ _ _ _ _ H) as Hk.
  split; [exact Hk|].
  rewrite <- (length_map fst out), Hk, length_map. apply filter_length_le.
Qed.

Lemma projection_keeps_decided_keys_witness :
  map fst [("meta", JObj [("id", JNum 1)])] =
    map fst
      (filter
         (fun kv =>
            decided (Some ["is*"; "meta.*"]) (Some ["meta.id"])
              (full_path "" (fst kv)))
         [("is_esip0", JBool true);
          ("meta", JObj [("id", JNum 1); ("secret", JStr "s")])])
  /\ (List.length [("meta", JObj [("id", JNum 1)])]
      <= List.length
           [("is_esip0", JBool true);
            ("meta", JObj [("id", JNum 1); ("secret", JStr "s")])])%nat.
Proof.
  apply (projection_keeps_decided_keys (Some ["is*"; "meta.*"])
           (Some ["meta.id"])).
  reflexivity.
Defined.

(** X17: a field that an exclude pattern matches and no include pattern
    matches at its own path is absent from the projected record, however
    many include patterns name fields below it: an include pattern does
    not bring back the child of a dropped parent. *)
Theorem excluded_parent_hides_children ex inc fields out key :
  globs ex -> globs inc ->
  existsb (matches_path key) ex = true ->
  existsb (matches_path key) inc = false ->
  processObject (Some ex) (Some inc) (JObj fields) "" = Ok (JObj out) ->
  ~ In key (map fst out).
Proof.
  intros Hex Hinc He Hi H.
  rewrite (processObject_object _ _ _ _ _ H). intros Hin.
  apply in_map_iff in Hin. destruct Hin as ([k v] & Hk & Hf).
  simpl in Hk. subst k. apply filter_In in Hf. destruct Hf as [_ Hd].
  unfold decided in Hd. cbn [fst full_path truthy_str String.eqb negb] in Hd.
  rewrite (shouldInclude_pure ex inc key Hex Hinc), He, Hi in Hd.
  discriminate.
Qed.

Lemma excluded_parent_hides_children_witness :
  ~ In "meta" (map fst [("id", JStr "a")]).
Proof.
  apply (excluded_parent_hides_children ["meta"] ["meta.id"]
           [("id", JStr "a");
            ("meta", JObj [("id", JNum 1); ("secret", JStr "s")])]
           [("id", JStr "a")] "meta").
  - repeat constructor.
  - repeat constructor.
  - reflexivity.
  - reflexivity.
  - reflexivity.
Defined.

(** X18: the walk enumerates an array like any other object, so under
    an include list alone an array of scalars comes out as an object
    whose keys are the indices of the items, not as an array. *)
Theorem array_becomes_indexed_object inc items prefix :
  globs inc ->
  forallb scalar items = true ->
  processObject None (Some inc) (JArr items) prefix
  = Ok (JObj (entries_from 0 items)).
Proof.
  intros Hinc Hs. simpl.
  assert (Hfix : forall i,
    (fix each (i : nat) (l : list json) : result (list (string * json)) :=
       match l with
       | [] => Ok []
       | value :: l' =>
           keep <- shouldInclude None (Some inc)
                     (full_path prefix (show_Z (Z.of_nat i))) ;;
           (if keep
            then
              v <- match value with
                   | JArr _ | JObj _ =>
                       processObject None (Some inc) value
                         (full_path prefix (show_Z (Z.of_nat i)))
                   | _ => Ok value
                   end ;;
              rest <- each (S i) l' ;;
              Ok ((show_Z (Z.of_nat i), v) :: rest)
            else each (S i) l')
       end) i items = Ok (entries_from i items)).
  { induction items as [|v items IH]; intros i; [reflexivity|].
    simpl in Hs. apply andb_true_iff in Hs. destruct Hs as [Sv Ss].
    rewrite (shouldInclude_include_only inc _ Hinc). cbn [bind].
    rewrite (IH Ss (S i)).
    destruct v; try discriminate; reflexivity. }
  rewrite Hfix. reflexivity.
Qed.

Lemma array_becomes_indexed_object_witness :
  processObject None (Some ["links"]) (JArr [JStr "x"; JStr "y"]) "links"
  = Ok (JObj (entries_from 0 [JStr "x"; JStr "y"])).
Proof.
  apply (array_becomes_indexed_object ["links"]).
  - repeat constructor.
  - reflexivity.
Defined.

(** ** The pattern lists *)

Lemma split_parts c s :
  Forall (fun p => includes c p = false) (split c s).
Proof.
  induction s as [|a s IH]; simpl.
  - repeat constructor.
  - destruct (Ascii.eqb_spec a c) as [->|Hne].
    + constructor; [reflexivity|exact IH].
    + destruct (split c s) as [|w ws]; inversion IH; subst.
      * repeat constructor. simpl.
        apply Ascii.eqb_neq in Hne. rewrite Hne. reflexivity.
      * constructor; [|assumption]. simpl.
        apply Ascii.eqb_neq in Hne. rewrite Hne. assumption.
Qed.

Lemma split_nonempty c s : split c s <> [].
Proof.
  destruct s as [|a s]; simpl; [discriminate|].
  destruct (Ascii.eqb a c); [discriminate|].
  destruct (split c s); discriminate.
Qed.

Lemma concat_cons sep x y l :
  String.concat sep (x :: y :: l) = x ++ sep ++ String.concat sep (y :: l).
Proof. reflexivity. Qed.

(** Cutting at a character undoes joining with it. *)
Lemma split_concat c pieces :
  pieces <> [] ->
  Forall (fun p => includes c p = false) pieces ->
  split c (String.concat (String c "") pieces) = pieces.
Proof.
  induction pieces as [|x l IH]; intros Hne Hall; [contradiction Hne; reflexivity|].
  inversion Hall as [|? ? Hx Hl]; subst.
  destruct l as [|y l].
  - apply split_plain. exact Hx.
  - rewrite concat_cons. cbn [append].
    rewrite (split_at c x _ Hx). f_equal. apply IH; [discriminate|exact Hl].
Qed.

(** Joining the pieces of a cut gives the text back. *)
Lemma concat_split c s : String.concat (String c "") (split c s) = s.
Proof.
  induction s as [|a s IH]; [reflexivity|]. cbn [split].
  pose proof (split_nonempty c s) as Hne.
  destruct (Ascii.eqb_spec a c) as [->|Hac].
  - destruct (split c s) as [|w ws]; [contradiction Hne; reflexivity|].
    rewrite concat_cons, IH. reflexivity.
  - destruct (split c s) as [|w ws]; [contradiction Hne; reflexivity|].
    destruct ws as [|w' ws].
    + simpl in IH. simpl. rewrite IH. reflexivity.
    + rewrite concat_cons in IH. rewrite concat_cons.
      cbn [append] in IH. cbn [append]. rewrite IH. reflexivity.
Qed.

(** X19: the include and exclude parameters are cut at the commas and
    the empty pieces are dropped.  The parameter that joins a non-empty
    list of comma-free pieces with commas gives exactly the non-empty
    pieces, in their order, and every parameter is such a join; so every
    pattern handed to the walk is non-empty and holds no comma, a
    parameter without comma is one pattern, a parameter made of any
    number of commas alone gives the empty list, and an absent parameter
    gives no list. *)
Theorem pattern_list_pieces pieces :
  pieces <> [] ->
  Forall (fun p => includes "," p = false) pieces ->
  pattern_list (Some (String.concat "," pieces))
    = Some (filter (fun p => negb (String.eqb p "")) pieces)
  /\ (forall param,
        exists cut,
          cut <> []
          /\ Forall (fun p => includes "," p = false) cut
          /\ param = String.concat "," cut)
  /\ (forall param patterns,
        pattern_list (Some param) = Some patterns ->
        Forall (fun p => p <> "" /\ includes "," p = false) patterns)
  /\ (forall param,
        includes "," param = false -> param <> "" ->
        pattern_list (Some param) = Some [param])
  /\ (forall n,
        pattern_list (Some (string_of_list_ascii (repeat ","%char n)))
        = Some [])
  /\ pattern_list None = None.
Proof.
  intros Hne Hall. split; [|split; [|split; [|split; [|split]]]].
  - unfold pattern_list, option_map, filter_Boolean.
    rewrite (split_concat "," pieces Hne Hall). reflexivity.
  - intros param. exists (split "," param).
    split; [apply split_nonempty|].
    split; [apply split_parts|].
    symmetry. apply concat_split.
  - intros param patterns [= <-]. unfold filter_Boolean.
    rewrite Forall_forall. intros p Hp. apply filter_In in Hp.
    destruct Hp as [Hin Ht]. split.
    + intros ->. discriminate.
    + pose proof (split_parts "," param) as Hparts.
      rewrite Forall_forall in Hparts. apply Hparts. exact Hin.
  - intros param Hc Hp. unfold pattern_list, option_map, filter_Boolean.
    rewrite (split_plain "," param Hc). cbn [filter]. unfold truthy_str.
    apply String.eqb_neq in Hp. rewrite Hp. reflexivity.
  - intros n. unfold pattern_list, option_map, filter_Boolean. f_equal.
    induction n as [|n IH]; [reflexivity|].
    cbn [repeat string_of_list_ascii split]. rewrite Ascii.eqb_refl.
    cbn [filter]. exact IH.
  - reflexivity.
Qed.

Lemma pattern_list_pieces_witness :
  pattern_list (Some (String.concat "," ["is*"; ""; "meta.id"; ""]))
    = Some (filter (fun p => negb (String.eqb p ""))
              ["is*"; ""; "meta.id"; ""])
  /\ (forall param,
        exists cut,
          cut <> []
          /\ Forall (fun p => includes "," p = false) cut
          /\ param = String.concat "," cut)
  /\ (forall param patterns,
        pattern_list (Some param) = Some patterns ->
        Forall (fun p => p <> "" /\ includes "," p = false) patterns)
  /\ (forall param,
        includes "," param = false -> param <> "" ->
        pattern_list (Some param) = Some [param])
  /\ (forall n,
        pattern_list (Some (string_of_list_ascii (repeat ","%char n)))
        = Some [])
  /\ pattern_list None = None.
Proof.
  apply (pattern_list_pieces ["is*"; ""; "meta.id"; ""]).
  - discriminate.
  - repeat (apply Forall_cons; [reflexivity|]). apply Forall_nil.
Defined.

(** ** Lookup of a single ethscription *)

Lemma string_compare_refl s : String.compare s s = Eq.
Proof.
  pose proof (String.compare_antisym s s) as H.
  destruct (String.compare s s); simpl in H; congruence.
Qed.

Lemma matches_id_iff id r :
  lookup_typed r ->
  Ethscription.matches_id id r = true <-> identifies id r.
Proof.
  intros [[rid Hid] Hnum]. unfold Ethscription.matches_id, identifies.
  simpl. rewrite Hid. simpl. rewrite orb_true_iff.
  assert (H1 : match String.compare rid id with Eq => true | _ => false end
               = true <-> SText rid = SText id).
  { destruct (String.compare rid id) eqn:E.
    - apply String.compare_eq_iff in E. subst. tauto.
    - split; [discriminate|]. intros [= ->].
      assert (String.compare id id = Eq) by apply string_compare_refl.
      congruence.
    - split; [discriminate|]. intros [= ->].
      assert (String.compare id id = Eq) by apply string_compare_refl.
      congruence. }
  rewrite H1. destruct Hnum as [Hn|[n Hn]]; rewrite Hn; simpl.
  - split; [intros [H|H]; [left; exact H|discriminate]|].
    intros [H|(m & Hm & _)]; [left; exact H|discriminate].
  - destruct (integer_literal id) as [b|] eqn:El.
    + destruct (compare_int_cases n b) as (_ & _ & _ & _ & Heq).
      rewrite Heq. split.
      * intros [H|H]; [left; exact H|right; exists n; subst; split; reflexivity].
      * intros [H|(m & [= <-] & [= <-])]; [left; exact H|right; reflexivity].
    + split; [intros [H|H]; [left; exact H|discriminate]|].
      intros [H|(m & _ & Hm)]; [left; exact H|discriminate].
Qed.

Lemma uint_of_string_numeric s d :
  NilEmpty.uint_of_string s = Some d ->
  forallb numeric_char (list_ascii_of_string s) = true.
Proof.
  revert d. induction s as [|a s IH]; intros d; [reflexivity|].
  cbn [NilEmpty.uint_of_string list_ascii_of_string forallb].
  destruct (NilEmpty.uint_of_string s) as [d'|]; [|discriminate].
  rewrite (IH d' eq_refl), andb_true_r.
  destruct a as [[] [] [] [] [] [] [] []]; try discriminate;
    intros _; reflexivity.
Qed.

Lemma integer_literal_numeric s n :
  integer_literal s = Some n ->
  forallb numeric_char (list_ascii_of_string s) = true.
Proof.
  unfold integer_literal, Number_.
  destruct (String.eqb s ""); [discriminate|].
  destruct (String.eqb s "-"); [discriminate|].
  destruct s as [|a s]; [reflexivity|].
  cbn [NilEmpty.int_of_string].
  destruct (Ascii.eqb_spec a "-") as [->|Ha].
  - destruct (NilEmpty.uint_of_string s) as [d|] eqn:E; [|discriminate].
    intros _. cbn [list_ascii_of_string forallb].
    rewrite (uint_of_string_numeric s d E). reflexivity.
  - destruct (NilEmpty.uint_of_string (String a s)) as [d|] eqn:E;
      [|discriminate].
    intros _. exact (uint_of_string_numeric _ d E).
Qed.

(** A text that is no number is no integer literal. *)
Lemma never_numeric_not_literal s :
  never_numeric s = true -> integer_literal s = None.
Proof.
  unfold never_numeric. intros H.
  destruct (integer_literal s) as [n|] eqn:E; [|reflexivity].
  apply integer_literal_numeric in E.
  apply existsb_exists in H. destruct H as (a & Hin & Ha).
  rewrite forallb_forall in E. rewrite (E a Hin) in Ha. discriminate.
Qed.

(** X20: for an identifier that is a decimal integer literal or no
    number at all, the single-resource handler answers 404, with an issue
    that carries the requested identifier, exactly when no row of the
    table has that identifier as its id or, read as an integer, as its
    number; an identifier that is no number is looked up by id alone; the
    projection parameters play no part in that. *)
Theorem lookup_not_found_iff id sq db :
  exact_identifier id ->
  Forall lookup_typed (db []) ->
  (Ethscription.GET id sq db = Ok (Ethscription.not_found id)
   <-> forall r, In r (db []) -> ~ identifies id r)
  /\ (never_numeric id = true ->
      forall r, identifies id r <-> column r "id" = SText id)
  /\ (forall n,
        integer_literal id = Some n ->
        forall r,
          identifies id r
          <-> column r "id" = SText id \/ column r "number" = SInt n).
Proof.
  intros _ Ht. rewrite Forall_forall in Ht. split.
  - unfold Ethscription.GET. split.
    + intros H r Hin Hid.
      apply (matches_id_iff id r (Ht r Hin)) in Hid.
      assert (Hf : In r (filter (Ethscription.matches_id id) (db [])))
        by (apply filter_In; split; assumption).
      destruct (filter (Ethscription.matches_id id) (db [])); [exact Hf|].
      destruct (project (include sq) (exclude sq) (r0 :: l));
        cbn [bind] in H; discriminate.
    + intros H. rewrite filter_none; [reflexivity|].
      intros r Hin. apply not_true_is_false. intros Hm.
      apply (H r Hin). apply (matches_id_iff id r (Ht r Hin)). exact Hm.
  - split.
    + intros Hn r. unfold identifies.
      rewrite (never_numeric_not_literal id Hn). split.
      * intros [H|(n & _ & H)]; [exact H|discriminate].
      * intros H. left. exact H.
    + intros n Hn r. unfold identifies. rewrite Hn. split.
      * intros [H|(m & Hm & [= <-])]; [left; exact H|right; exact Hm].
      * intros [H|H]; [left; exact H|right; exists n; split; [exact H|]].
        reflexivity.
Qed.

Lemma lookup_not_found_iff_witness :
  (Ethscription.GET "0xff" (plain_request 1 1 None "asc") c5_db
   = Ok (Ethscription.not_found "0xff")
   <-> forall r, In r (c5_db []) -> ~ identifies "0xff" r)
  /\ (never_numeric "0xff" = true ->
      forall r, identifies "0xff" r <-> column r "id" = SText "0xff")
  /\ (forall n,
        integer_literal "0xff" = Some n ->
        forall r,
          identifies "0xff" r
          <-> column r "id" = SText "0xff" \/ column r "number" = SInt n).
Proof.
  apply (lookup_not_found_iff "0xff" (plain_request 1 1 None "asc") c5_db).
  - left. reflexivity.
  - simpl.
    repeat (apply Forall_cons;
            [split; [eexists; reflexivity|left; reflexivity]|]).
    apply Forall_nil.
Defined.

(** X21: for an identifier that is a decimal integer literal or no
    number at all, when rows carry the identifier the handler returns the
    first of them in the scan order of the table, whole when no projection
    is asked for; a row is reached through its id and through the decimal
    rendering of its number, which is such an identifier. *)
Theorem lookup_returns_first_match id sq db pre r post :
  exact_identifier id ->
  Forall lookup_typed (db []) ->
  db [] = (pre ++ r :: post)%list ->
  (forall x, In x pre -> ~ identifies id x) ->
  identifies id r ->
  include sq = None -> exclude sq = None ->
  Ethscription.GET id sq db = Ok (Ethscription.Found (Some (JObj r)))
  /\ (forall n,
        column r "number" = SInt n ->
        exact_identifier (show_Z n) /\ identifies (show_Z n) r)
  /\ (forall rid, column r "id" = SText rid -> identifies rid r).
Proof.
  intros _ Ht Hdb Hpre Hr Hi He. rewrite Forall_forall in Ht. split.
  - unfold Ethscription.GET. rewrite Hdb, filter_app.
    rewrite (filter_none (Ethscription.matches_id id) pre).
    + cbn [app filter].
      assert (Hm : Ethscription.matches_id id r = true).
      { apply matches_id_iff; [|exact Hr].
        apply Ht. rewrite Hdb. apply in_or_app; right; left; reflexivity. }
      rewrite Hm. unfold project. rewrite Hi, He. reflexivity.
    + intros x Hx. apply not_true_is_false. intros Hm.
      apply (Hpre x Hx). apply matches_id_iff; [|exact Hm].
      apply Ht. rewrite Hdb. apply in_or_app; left; exact Hx.
  - split.
    + intros n Hn.
      assert (Hl : integer_literal (show_Z n) = Some n).
      { unfold integer_literal, show_Z.
        destruct (String.eqb_spec (NilEmpty.string_of_int (Z.to_int n)) "")
          as [E|_].
        * exfalso. destruct n as [|q|q]; simpl in E; try discriminate.
          apply (DecimalPos.Unsigned.to_uint_nonnil q).
          destruct (Pos.to_uint q); try discriminate. reflexivity.
        * apply Number_show_Z. }
      split.
      * right. exists n. exact Hl.
      * right. exists n. split; [exact Hn|exact Hl].
    + intros rid Hrid. left. exact Hrid.
Qed.

Lemma lookup_returns_first_match_witness :
  Ethscription.GET "7" (plain_request 1 1 None "asc")
    (table [[("id", JStr "0xa"); ("number", JNull)];
            [("id", JStr "0xb"); ("number", JNum 7)]])
  = Ok (Ethscription.Found
          (Some (JObj [("id", JStr "0xb"); ("number", JNum 7)])))
  /\ (forall n,
        column [("id", JStr "0xb"); ("number", JNum 7)] "number" = SInt n ->
        exact_identifier (show_Z n)
        /\ identifies (show_Z n) [("id", JStr "0xb"); ("number", JNum 7)])
  /\ (forall rid,
        column [("id", JStr "0xb"); ("number", JNum 7)] "id" = SText rid ->
        identifies rid [("id", JStr "0xb"); ("number", JNum 7)]).
Proof.
  apply (lookup_returns_first_match "7" (plain_request 1 1 None "asc")
           (table [[("id", JStr "0xa"); ("number", JNull)];
                   [("id", JStr "0xb"); ("number", JNum 7)]])
           [[("id", JStr "0xa"); ("number", JNull)]]
           [("id", JStr "0xb"); ("number", JNum 7)] []).
  - right. exists 7. reflexivity.
  - simpl. apply Forall_cons;
      [split; [eexists; reflexivity|left; reflexivity]|].
    apply Forall_cons;
      [split; [eexists; reflexivity|right; eexists; reflexivity]|].
    apply Forall_nil.
  - reflexivity.
  - intros x [<-|[]]. intros [H|(n & H & _)]; discriminate.
  - right. exists 7. split; reflexivity.
  - reflexivity.
  - reflexivity.
Defined.

(** ** Creation of a collection *)

(** X22: the handler hands a value to the insert only when the body
    was read and the schema accepted it, and then exactly that value,
    once; it answers 201 only when the insert succeeded, with the first
    returned row; a schema error becomes a 400 reply and any other error
    a 500 reply, whichever step threw it. *)
Theorem post_validates_before_insert body parse insert :
  (forall v,
     In v (CollectionsWrite.inserted
             (CollectionsWrite.POST body parse insert)) ->
     exists b,
       body = CollectionsWrite.Done b
       /\ parse b = CollectionsWrite.Done v
       /\ CollectionsWrite.inserted (CollectionsWrite.POST body parse insert)
          = [v])
  /\ (forall s d,
        CollectionsWrite.reply (CollectionsWrite.POST body parse insert)
        = CollectionsWrite.Created s d ->
        s = 201
        /\ exists b v rows,
             body = CollectionsWrite.Done b
             /\ parse b = CollectionsWrite.Done v
             /\ insert v = CollectionsWrite.Done rows
             /\ d = hd_error rows)
  /\ (forall s m err,
        CollectionsWrite.reply (CollectionsWrite.POST body parse insert)
        = CollectionsWrite.BadRequest s m err ->
        s = 400
        /\ (body = CollectionsWrite.Raised (CollectionsWrite.ZodError err)
            \/ (exists b, body = CollectionsWrite.Done b
                  /\ (parse b
                      = CollectionsWrite.Raised (CollectionsWrite.ZodError err)
                      \/ exists v, parse b = CollectionsWrite.Done v
                           /\ insert v
                              = CollectionsWrite.Raised
                                  (CollectionsWrite.ZodError err))))).
Proof.
  unfold CollectionsWrite.POST. split; [|split].
  - intros v. destruct body as [b|t]; [|intros []].
    destruct (parse b) as [w|t] eqn:Hp; [|intros []].
    destruct (insert w); intros [<-|[]]; exists b; repeat split;
      try reflexivity; assumption.
  - intros s d. destruct body as [b|[e|e]]; try discriminate.
    destruct (parse b) as [w|[e|e]] eqn:Hp; try discriminate.
    destruct (insert w) as [rows|[e|e]] eqn:Hi; try discriminate.
    intros [= <- <-]. split; [reflexivity|].
    exists b, w, rows. repeat split; assumption.
  - intros s m err. destruct body as [b|[e|e]]; try discriminate.
    + destruct (parse b) as [w|[e|e]] eqn:Hp; try discriminate.
      * destruct (insert w) as [rows|[e|e]] eqn:Hi; try discriminate.
        intros [= <- <- <-]. split; [reflexivity|].
        right. exists b. split; [reflexivity|]. right. exists w.
        split; assumption.
      * intros [= <- <- <-]. split; [reflexivity|].
        right. exists b. split; [reflexivity|]. left. exact Hp.
    + intros [= <- <- <-]. split; [reflexivity|]. left. reflexivity.
Qed.

Lemma starts_with_self sep rest : starts_with sep (sep ++ rest) = true.
Proof.
  induction sep as [|c sep IH]; [reflexivity|].
  simpl. rewrite Ascii.eqb_refl. exact IH.
Qed.

Lemma split_by_skip sep x rest :
  split_by_from sep (x ++ rest) (String.length x) = split_by_from sep rest O.
Proof.
  induction x as [|a x IH]; [reflexivity|]. simpl. exact IH.
Qed.

Lemma append_empty_r s : s ++ "" = s.
Proof. induction s as [|a s IH]; simpl; [|rewrite IH]; reflexivity. Qed.

Lemma split_by_none sep s :
  starts_within sep s "" = false -> split_by_from sep s O = [s].
Proof.
  induction s as [|a s IH]; intros H; [reflexivity|].
  cbn [starts_within] in H. apply orb_false_iff in H. destruct H as [H1 H2].
  rewrite append_empty_r in H1.
  cbn [split_by_from]. rewrite H1, (IH H2). reflexivity.
Qed.

Lemma split_by_first c sep pre rest :
  starts_within (String c sep) pre (String c sep ++ rest) = false ->
  split_by_from (String c sep) (pre ++ String c sep ++ rest) O
  = pre :: split_by_from (String c sep) rest O.
Proof.
  induction pre as [|a pre IH]; intros H.
  - cbn [append].
    change (String c (sep ++ rest)) with (String c sep ++ rest).
    pose proof (starts_with_self (String c sep) rest) as Hs.
    cbn [append] in Hs |- *. cbn [split_by_from]. rewrite Hs.
    replace (String.length (String c sep) - 1)%nat with (String.length sep)
      by (cbn [String.length]; lia).
    rewrite split_by_skip. reflexivity.
  - cbn [starts_within] in H. apply orb_false_iff in H.
    destruct H as [H1 H2].
    change (String a pre ++ String c sep ++ rest)
      with (String a (pre ++ String c sep ++ rest)) in *.
    cbn [split_by_from]. rewrite H1, (IH H2). reflexivity.
Qed.

(** X23: for an error with the code SQLITE_CONSTRAINT the failure reply
    carries the text that follows the first ["SQLITE_CONSTRAINT: "] of
    the error text, up to the end when the marker does not occur again;
    when the text does not hold the marker the message is undefined; for
    any other code the message is the whole text. *)
Theorem constraint_message_is_extracted e pre rest :
  CollectionsWrite.e_text e = pre ++ "SQLITE_CONSTRAINT: " ++ rest ->
  starts_within "SQLITE_CONSTRAINT: " pre ("SQLITE_CONSTRAINT: " ++ rest)
    = false ->
  starts_within "SQLITE_CONSTRAINT: " rest "" = false ->
  (CollectionsWrite.e_code e = Some "SQLITE_CONSTRAINT" ->
   CollectionsWrite.error_message e = Some rest)
  /\ (CollectionsWrite.e_code e = None ->
      CollectionsWrite.error_message e = Some (CollectionsWrite.e_text e))
  /\ (forall e',
        CollectionsWrite.e_code e' = Some "SQLITE_CONSTRAINT" ->
        starts_within "SQLITE_CONSTRAINT: " (CollectionsWrite.e_text e') ""
          = false ->
        CollectionsWrite.error_message e' = None).
Proof.
  intros Ht Hpre Hrest. unfold CollectionsWrite.error_message.
  split; [|split].
  - intros Hc. rewrite Hc, Ht. unfold split_by.
    rewrite (split_by_first _ _ pre rest Hpre).
    rewrite (split_by_none _ rest Hrest). reflexivity.
  - intros Hc. rewrite Hc. reflexivity.
  - intros e' Hc Hn. rewrite Hc. unfold split_by.
    rewrite (split_by_none _ _ Hn). reflexivity.
Qed.

Lemma constraint_message_is_extracted_witness :
  (CollectionsWrite.e_code
     (CollectionsWrite.mkJsError "LibsqlError" (Some "SQLITE_CONSTRAINT")
        "LibsqlError: SQLITE_CONSTRAINT: UNIQUE constraint failed")
   = Some "SQLITE_CONSTRAINT" ->
   CollectionsWrite.error_message
     (CollectionsWrite.mkJsError "LibsqlError" (Some "SQLITE_CONSTRAINT")
        "LibsqlError: SQLITE_CONSTRAINT: UNIQUE constraint failed")
   = Some "UNIQUE constraint failed")
  /\ (CollectionsWrite.e_code
        (CollectionsWrite.mkJsError "LibsqlError" (Some "SQLITE_CONSTRAINT")
           "LibsqlError: SQLITE_CONSTRAINT: UNIQUE constraint failed")
      = None ->
      CollectionsWrite.error_message
        (CollectionsWrite.mkJsError "LibsqlError" (Some "SQLITE_CONSTRAINT")
           "LibsqlError: SQLITE_CONSTRAINT: UNIQUE constraint failed")
      = Some (CollectionsWrite.e_text
                (CollectionsWrite.mkJsError "LibsqlError"
                   (Some "SQLITE_CONSTRAINT")
                   "LibsqlError: SQLITE_CONSTRAINT: UNIQUE constraint failed")))
  /\ (forall e',
        CollectionsWrite.e_code e' = Some "SQLITE_CONSTRAINT" ->
        starts_within "SQLITE_CONSTRAINT: " (CollectionsWrite.e_text e') ""
          = false ->
        CollectionsWrite.error_message e' = None).
Proof.
  apply (constraint_message_is_extracted
           (CollectionsWrite.mkJsError "LibsqlError" (Some "SQLITE_CONSTRAINT")
              "LibsqlError: SQLITE_CONSTRAINT: UNIQUE constraint failed")
           "LibsqlError: " "UNIQUE constraint failed"); reflexivity.
Defined.

(** ** The theme toggle *)

(** X24: the toggle only ever sets light or dark, it sets dark exactly
    when the current theme is light, and two toggles in a row give back
    the theme one started from exactly when that theme was light or dark:
    from any other theme, the undefined one included, the first toggle
    leads to light and the theme is not returned to. *)
Theorem toggle_theme_involution theme :
  (toggleTheme theme = "light" \/ toggleTheme theme = "dark")
  /\ (toggleTheme theme = "dark" <-> theme = Some "light")
  /\ (Some (toggleTheme (Some (toggleTheme theme))) = theme
      <-> theme = Some "light" \/ theme = Some "dark").
Proof.
  assert (Hcases : theme = Some "light"
                   \/ (theme <> Some "light" /\ toggleTheme theme = "light")).
  { destruct theme as [t|]; [|right; split; [discriminate|reflexivity]].
    destruct (String.eqb_spec t "light") as [->|Hne]; [left; reflexivity|].
    right. split; [congruence|].
    unfold toggleTheme.
    repeat match goal with
           | |- context [match ?s with EmptyString => _ | String _ _ => _ end] =>
               destruct s; try reflexivity
           | |- context [match ?a with Ascii _ _ _ _ _ _ _ _ => _ end] =>
               destruct a
           | |- context [if ?b then _ else _] => destruct b; try reflexivity
           end; contradiction Hne; reflexivity. }
  destruct Hcases as [->|[Hne Hl]].
  - split; [right; reflexivity|]. split; [tauto|].
    split; [left; reflexivity|reflexivity].
  - rewrite Hl. split; [left; reflexivity|].
    split; [split; [discriminate|intros H; contradiction]|].
    cbn. split.
    + intros <-. right. reflexivity.
    + intros [H|H]; [contradiction|]. rewrite H. reflexivity.
Qed.

(** ** Meaning of a text filter *)

Lemma like_match_percent s : like_match "%" s = true.
Proof.
  cbn [like_match]. rewrite Ascii.eqb_refl.
  induction s as [|d s IH]; [reflexivity|]. simpl. exact IH.
Qed.

Lemma like_match_prefix p s :
  literal_text p = true ->
  like_match (p ++ "%") s = prefix_ci p s.
Proof.
  revert s. induction p as [|c p IH]; intros s Hl.
  - apply like_match_percent.
  - unfold literal_text in Hl. cbn [includes] in Hl.
    rewrite !negb_orb, !andb_true_iff in Hl.
    destruct Hl as [[[Hc1 Hp1] [Hc2 Hp2]] [Hc3 Hp3]].
    apply negb_true_iff in Hc2, Hc3.
    cbn [append like_match prefix_ci]. rewrite Hc2.
    destruct s as [|d s]; [reflexivity|].
    rewrite Hc3. cbn [orb]. rewrite IH; [reflexivity|].
    unfold literal_text. rewrite Hp1, Hp2, Hp3. reflexivity.
Qed.

(** X25: on a text column a filter value without a star selects the
    rows whose stored text is exactly the value, case included, and a
    value made of a literal prefix followed by one star selects the rows
    whose stored text starts with that prefix, letters compared without
    case. *)
Theorem text_filter_meaning field p r stored :
  literal_text p = true ->
  column r field = SText stored ->
  (holds r (text_clause field p) = true <-> stored = p)
  /\ holds r (text_clause field (p ++ "*")) = prefix_ci p stored.
Proof.
  intros Hl Hcol.
  assert (Hstar : includes "*" p = false).
  { unfold literal_text in Hl. rewrite !andb_true_iff in Hl.
    destruct Hl as [[H _] _]. apply negb_true_iff in H. exact H. }
  split.
  - unfold text_clause, wildcard. rewrite Hstar. simpl. rewrite Hcol.
    simpl. destruct (String.compare stored p) eqn:E.
    + apply String.compare_eq_iff in E. tauto.
    + split; [discriminate|]. intros ->.
      rewrite string_compare_refl in E. discriminate.
    + split; [discriminate|]. intros ->.
      rewrite string_compare_refl in E. discriminate.
  - unfold text_clause, wildcard.
    rewrite (includes_app_r "*" p "*" eq_refl).
    assert (Hr : replaceAll "*" "%" (p ++ "*") = p ++ "%").
    { clear - Hstar. induction p as [|a p IH]; [reflexivity|].
      simpl in Hstar. apply orb_false_iff in Hstar.
      destruct Hstar as [Ha Hp]. simpl. rewrite Ha, (IH Hp). reflexivity. }
    rewrite Hr. simpl. rewrite Hcol. cbn [sql_text].
    apply like_match_prefix. exact Hl.
Qed.

Lemma text_filter_meaning_witness :
  (holds (sha_row "0xf591ab") (text_clause "content_sha" "0xF591") = true
   <-> "0xf591ab" = "0xF591")
  /\ holds (sha_row "0xf591ab") (text_clause "content_sha" ("0xF591" ++ "*"))
     = prefix_ci "0xF591" "0xf591ab".
Proof.
  apply (text_filter_meaning "content_sha" "0xF591" (sha_row "0xf591ab")
           "0xf591ab"); reflexivity.
Defined.

(** ** The cursor of the collections listing *)

(** X26: the collections listing compares [created_at] alone with the
    cursor.  In cursor mode without a nested where form and without
    projection, for a cursor that is an integer literal, every delivered
    row with an integer [created_at] lies strictly after the cursor in
    ascending order and strictly before it in descending order, so a row
    that shares its [created_at] with the cursor is not delivered. *)
Theorem collections_cursor_is_strict sp sq db key k resp j :
  page_key sq = Some key ->
  integer_literal key = Some k ->
  where_param sq = None ->
  include sq = None -> exclude sq = None ->
  reply (Collections.GET sp sq db) = Ok resp ->
  In j (data resp) ->
  exists r,
    j = JObj r
    /\ In r (db [])
    /\ forall x, column r "created_at" = SInt x ->
         match direction_of sq with
         | Asc => k < x
         | Desc => x < k
         end.
Proof.
  intros Hk Hlit Hw Hi He. unfold Collections.GET.
  destruct (Collections.filter_conditions sp sq) as [cs|] eqn:Hcs.
  2: { unfold Collections.build_query. rewrite Hcs. discriminate. }
  destruct (collections_build_query_plain sp sq cs Hw Hcs) as [cut Hq].
  rewrite Hq. cbn [reply]. unfold withIncludesExcludes, project.
  rewrite Hi, He. cbn [pattern_list option_map bind].
  intros [= <-]. cbn [data]. intros Hj.
  apply in_map_iff in Hj. destruct Hj as (r & <- & Hr).
  apply in_map_iff in Hr. destruct Hr as (c & <- & Hc).
  apply run_rows_match in Hc. cbn [q_joins q_where] in Hc.
  destruct Hc as [Hin Hp]. rewrite passes_and in Hp.
  exists (item c). split; [reflexivity|]. split; [exact Hin|].
  intros x Hx.
  assert (Hkey : truthy_str key = true).
  { unfold integer_literal in Hlit. unfold truthy_str.
    destruct (String.eqb key ""); [discriminate|reflexivity]. }
  pose proof (collections_cursor_applied sp sq cs Hcs) as Hincl.
  unfold Collections.cursor_clause in Hincl. rewrite Hk, Hkey in Hincl.
  rewrite forallb_forall in Hp.
  destruct (direction_of sq).
  - specialize (Hp _ (Hincl _ (or_introl eq_refl))).
    simpl in Hp. rewrite Hx in Hp. simpl in Hp. rewrite Hlit in Hp.
    apply (compare_int_cases x k). exact Hp.
  - specialize (Hp _ (Hincl _ (or_introl eq_refl))).
    simpl in Hp. rewrite Hx in Hp. simpl in Hp. rewrite Hlit in Hp.
    apply (compare_int_cases x k). exact Hp.
Qed.

Lemma collections_cursor_is_strict_witness :
  exists r,
    JObj (collection "b" 2 false) = JObj r
    /\ In r (c10_db [])
    /\ forall x, column r "created_at" = SInt x ->
         match direction_of (plain_request 1 10 (Some "1") "asc") with
         | Asc => 1 < x
         | Desc => x < 1
         end.
Proof.
  apply (collections_cursor_is_strict []
           (plain_request 1 10 (Some "1") "asc") c10_db "1" 1
           (mkResponse (CursorPage 1 (Some 0) 10 None false)
              [JObj (collection "b" 2 false)] 200)
           (JObj (collection "b" 2 false))); try reflexivity.
  left; reflexivity.
Defined.
